(** * The localStorage mock API of the task manager (frontend/src/services/mockApi.js)

    A shallow embedding of the mock persistence layer that stands in for the
    REST backend, together with the Dashboard form validation that guards it.

    Conventions of the embedding.
    - A JavaScript string is a [jstring]: the sequence of its UTF-16 code
      units.  A [string] of this file (a literal of the source, a generated
      identifier, a timestamp) stands for the [jstring] of its characters, one
      code unit below 256 each.  [btoa] encodes the strings whose code units
      are all below 256 and throws on every other string.
    - A property value is a JSON primitive ([jsval]: null, a boolean, a
      number, a string).  The numbers of the model are the safe integers
      (those between -2^53 and 2^53), which JavaScript holds exactly and
      prints in full.  Reading a property gives an [option jsval], where
      [None] is JavaScript's [undefined].  An object is a finite map from
      property names to values, as it is after a JSON round trip: a property
      bound to [undefined] is an absent one, which is what [JSON.stringify]
      makes of it.  The objects passed as arguments are of this kind too.
    - [localStorage] holds JSON text under four keys; the model keeps the
      parsed value under each key ([JSON.parse] after [JSON.stringify] is the
      identity on such objects).
    - An [async] function yields a promise.  [Return e] is a promise fulfilled
      with [e]; [Throw x] is a promise rejected with the exception [x].
    - [generateId()] and [new Date().toISOString()] read the clock and the
      random generator; every value they produce is an argument of the
      operation, in the order in which the source evaluates the calls. *)

From Stdlib Require Import ZArith Lia Ascii String Permutation.
From stdpp Require Import gmap strings list sorting pretty.

Local Open Scope string_scope.
Local Open Scope list_scope.

(** ** JavaScript values *)

(** A string: its UTF-16 code units. *)
Definition jstring : Type := list N.

#[global] Instance jstring_eq_dec : EqDecision jstring := @list_eq_dec N _.

(** The string of a text of this file. *)
Definition units (s : string) : jstring :=
  N_of_ascii <$> list_ascii_of_string s.

Coercion units : string >-> jstring.

(** The integers that a JavaScript number holds exactly. *)
Definition safe_integer (n : Z) : Prop := (- 2 ^ 53 < n < 2 ^ 53)%Z.

#[global] Instance safe_integer_dec (n : Z) : Decision (safe_integer n).
Proof. unfold safe_integer. apply _. Defined.

Inductive jsval : Type :=
  | JNull
  | JBool (b : bool)
  | JNum (n : dsig safe_integer)
  | JStr (s : jstring).

#[global] Instance jsval_eq_dec : EqDecision jsval.
Proof. solve_decision. Defined.

Abbreviation obj := (gmap string jsval).

(** [a === b] on primitives and [undefined]. *)
Definition strict_eq (a b : option jsval) : bool := bool_decide (a = b).

(** ToBoolean. *)
Definition truthy (v : option jsval) : bool :=
  match v with
  | None | Some JNull => false
  | Some (JBool b) => b
  | Some (JNum n) => negb (`n =? 0)%Z
  | Some (JStr s) => negb (bool_decide (s = []))
  end.

(** ToString. *)
Definition ToString (v : option jsval) : jstring :=
  match v with
  | None => "undefined"
  | Some JNull => "null"
  | Some (JBool true) => "true"
  | Some (JBool false) => "false"
  | Some (JNum n) => pretty (`n)
  | Some (JStr s) => s
  end.

(** [a || b] on values. *)
Definition js_or (a b : option jsval) : option jsval :=
  if truthy a then a else b.

(** An object literal [{ ..., k: v }] whose value may be [undefined]. *)
Definition set_prop (k : string) (v : option jsval) (o : obj) : obj :=
  match v with
  | Some x => <[k := x]> o
  | None => delete k o
  end.

(** Object spread [{ ...a, ...b }]: the properties of [b] win. *)
Definition spread (a b : obj) : obj := b ∪ a.

(** ** Completions *)

Inductive exn : Type :=
  | TypeError
  | InvalidCharacterError.

(** The outcome of running an [async] function to the end. *)
Inductive completion (A : Type) : Type :=
  | Return (a : A)
  | Throw (e : exn).
Arguments Return {A} a.
Arguments Throw {A} e.

(** Code of a callback: it may throw but does not touch the store. *)
Definition completion_bind {A B} (m : completion A) (k : A -> completion B)
  : completion B :=
  match m with
  | Return a => k a
  | Throw e => Throw e
  end.

(** ** Host functions

    [Date_time v] is the time value of [new Date(v)], [None] for an Invalid
    Date (whose time value is NaN); [localeCompare a b] is
    [a.localeCompare(b)] in the locale of the browser; [lower_beyond s] is
    [s.toLowerCase()] for a string [s] with a code unit above 255, which
    takes the case tables of Unicode. *)
Record host : Type := mkHost {
  Date_time : option jsval -> option Z;
  localeCompare : jstring -> jstring -> Z;
  lower_beyond : jstring -> jstring
}.

(** ** String primitives *)

(** All code units are below 256. *)
Definition latin1 (s : jstring) : bool := forallb (fun n => n <? 256)%N s.

Definition lower_unit (n : N) : N :=
  if ((65 <=? n) && (n <=? 90) ||
      (192 <=? n) && (n <=? 222) && negb (n =? 215))%N
  then (n + 32)%N else n.

(** [s.toLowerCase()]: below 256 the letters with a lower case are A to Z
    and the accented capitals from 192 to 222 (215 is the multiplication
    sign), each 32 below its lower case. *)
Definition toLowerCase (h : host) (s : jstring) : jstring :=
  if latin1 s then lower_unit <$> s else lower_beyond h s.

Fixpoint starts_with (s sub : jstring) : bool :=
  match sub, s with
  | [], _ => true
  | _ :: _, [] => false
  | b :: sub', a :: s' => (a =? b)%N && starts_with s' sub'
  end.

(** [s.includes(sub)] *)
Fixpoint includes (s sub : jstring) : bool :=
  starts_with s sub ||
  match s with
  | [] => false
  | _ :: r => includes r sub
  end.

(** White space and line terminators of ECMAScript. *)
Definition is_space (n : N) : bool :=
  ((9 <=? n) && (n <=? 13) || (n =? 32) || (n =? 160) || (n =? 5760) ||
   (8192 <=? n) && (n <=? 8202) || (n =? 8232) || (n =? 8233) ||
   (n =? 8239) || (n =? 8287) || (n =? 12288) || (n =? 65279))%N.

Fixpoint trimStart (s : jstring) : jstring :=
  match s with
  | [] => []
  | c :: r => if is_space c then trimStart r else s
  end.

Fixpoint trimEnd (s : jstring) : jstring :=
  match s with
  | [] => []
  | c :: r =>
      match trimEnd r with
      | [] => if is_space c then [] else [c]
      | r' => c :: r'
      end
  end.

Definition trim (s : jstring) : jstring := trimEnd (trimStart s).

(** ** btoa: base64 of a string of code units below 256 *)

Definition b64_alphabet : list ascii :=
  list_ascii_of_string
    "ABCDEFGHIJKLMNOPQRSTUVWXYZabcdefghijklmnopqrstuvwxyz0123456789+/".

Definition b64_digit (n : N) : ascii :=
  nth (N.to_nat n) b64_alphabet "="%char.

Fixpoint b64_encode (l : list N) : list ascii :=
  match l with
  | [] => []
  | [a] =>
      [b64_digit (a / 4); b64_digit ((a mod 4) * 16); "="%char; "="%char]
  | [a; b] =>
      [b64_digit (a / 4); b64_digit ((a mod 4) * 16 + b / 16);
       b64_digit ((b mod 16) * 4); "="%char]
  | a :: b :: c :: r =>
      b64_digit (a / 4) :: b64_digit ((a mod 4) * 16 + b / 16) ::
      b64_digit ((b mod 16) * 4 + c / 64) :: b64_digit (c mod 64) ::
      b64_encode r
  end%N.

(** [btoa(v)]: the argument is converted to a string; a code unit above 255
    makes [btoa] throw an InvalidCharacterError. *)
Definition btoa (v : option jsval) : completion string :=
  let s := ToString v in
  if latin1 s then Return (string_of_list_ascii (b64_encode s))
  else Throw InvalidCharacterError.

(** // Hash password (simple mock - in real app use bcrypt) *)
Definition hashPassword (password : option jsval) : completion jsval :=
  completion_bind (btoa password) (fun encoded =>
  Return (JStr encoded)).

(** // Verify password *)
Definition verifyPassword (password hashed : option jsval) : completion bool :=
  completion_bind (btoa password) (fun encoded =>
  Return (strict_eq (Some (JStr encoded)) hashed)).

(** ** The store *)

(** The four keys of [localStorage] the mock uses; [None] is a key that
    [getItem] reports as [null]. *)
Record localStorage : Type := mkStorage {
  mock_users : option (list obj);
  mock_tasks : option (list obj);
  mock_currentUser : option obj;
  mock_token : option string
}.

Definition empty_storage : localStorage := mkStorage None None None None.

(** Code that reads and writes [localStorage] and may throw. *)
Definition js (A : Type) : Type := localStorage -> completion A * localStorage.

Definition js_ret {A} (a : A) : js A := fun ls => (Return a, ls).

Definition js_bind {A B} (m : js A) (k : A -> js B) : js B :=
  fun ls =>
    match m ls with
    | (Return a, ls') => k a ls'
    | (Throw e, ls') => (Throw e, ls')
    end.

Declare Scope js_scope.
Delimit Scope js_scope with js.
Notation "'let*' x ':=' m 'in' k" := (js_bind m (fun x => k))
  (at level 10, x name, m at level 100, k at level 200) : js_scope.
Notation "m ';;' k" := (js_bind m (fun _ => k))
  (at level 100, k at level 200, right associativity) : js_scope.

Definition lift {A} (m : completion A) : js A := fun ls => (m, ls).

(** [o.k] where [o] may be [null]: reading a property of [null] throws. *)
Definition prop (o : option obj) (k : string) : completion (option jsval) :=
  match o with
  | Some m => Return (m !! k)
  | None => Throw TypeError
  end.

(** [v.toLowerCase()]: only a string has the method. *)
Definition call_toLowerCase (h : host) (v : option jsval) : completion jstring :=
  match v with
  | Some (JStr s) => Return (toLowerCase h s)
  | _ => Throw TypeError
  end.

(** [Array.prototype.filter] with a callback that may throw. *)
Fixpoint filterM {A} (p : A -> completion bool) (l : list A)
  : completion (list A) :=
  match l with
  | [] => Return []
  | x :: r =>
      completion_bind (p x) (fun b =>
      completion_bind (filterM p r) (fun r' =>
      Return (if b then x :: r' else r')))
  end.

(** [Array.prototype.findIndex] with a callback that may throw; [None] is
    the index -1. *)
Fixpoint findIndexM {A} (p : A -> completion bool) (l : list A)
  : completion (option nat) :=
  match l with
  | [] => Return None
  | x :: r =>
      completion_bind (p x) (fun b =>
      if b then Return (Some 0)
      else completion_bind (findIndexM p r) (fun i => Return (S <$> i)))
  end.

(** [Array.prototype.find] with a callback that may throw. *)
Fixpoint findM {A} (p : A -> completion bool) (l : list A)
  : completion (option A) :=
  match l with
  | [] => Return None
  | x :: r =>
      completion_bind (p x) (fun b =>
      if b then Return (Some x) else findM p r)
  end.

(** [findIndex] and [find] with a callback that cannot throw. *)
Fixpoint findIndex {A} (p : A -> bool) (l : list A) : option nat :=
  match l with
  | [] => None
  | x :: r => if p x then Some 0 else S <$> findIndex p r
  end.

Definition find {A} (p : A -> bool) (l : list A) : option A := List.find p l.

(** [l.splice(i, 1)]. *)
Definition splice1 {A} (i : nat) (l : list A) : list A :=
  take i l ++ drop (S i) l.

(** ** Storage accessors *)

(** // Get users from localStorage *)
Definition getUsers : js (list obj) :=
  fun ls => (Return (default [] (mock_users ls)), ls).

(** // Save users to localStorage *)
Definition saveUsers (users : list obj) : js unit :=
  fun ls => (Return tt,
    mkStorage (Some users) (mock_tasks ls) (mock_currentUser ls) (mock_token ls)).

(** // Get tasks from localStorage *)
Definition getTasks : js (list obj) :=
  fun ls => (Return (default [] (mock_tasks ls)), ls).

(** // Save tasks to localStorage *)
Definition saveTasks (tasks : list obj) : js unit :=
  fun ls => (Return tt,
    mkStorage (mock_users ls) (Some tasks) (mock_currentUser ls) (mock_token ls)).

(** // Get current user from localStorage *)
Definition getCurrentUser : js (option obj) :=
  fun ls => (Return (mock_currentUser ls), ls).

(** // Set current user *)
Definition setCurrentUser (user : obj) : js unit :=
  fun ls => (Return tt,
    mkStorage (mock_users ls) (mock_tasks ls) (Some user) (mock_token ls)).

(** // Clear current user *)
Definition clearCurrentUser : js unit :=
  fun ls => (Return tt,
    mkStorage (mock_users ls) (mock_tasks ls) None (mock_token ls)).

(** [localStorage.setItem('mock_token', token)] *)
Definition setToken (token : string) : js unit :=
  fun ls => (Return tt,
    mkStorage (mock_users ls) (mock_tasks ls) (mock_currentUser ls) (Some token)).

(** [localStorage.removeItem('mock_token')] *)
Definition removeToken : js unit :=
  fun ls => (Return tt,
    mkStorage (mock_users ls) (mock_tasks ls) (mock_currentUser ls) None).

(** ** Response envelopes *)

Inductive payload : Type :=
  | PAuth (token : string) (user : obj)
  | PObj (o : obj)
  | PList (data : list obj) (total : nat)
  | PStats (total pending in_progress completed : nat).

Record envelope : Type := mkEnvelope {
  success : bool;
  data : option payload;
  message : option string
}.

Definition ok_data (p : payload) : envelope := mkEnvelope true (Some p) None.
Definition ok_message (m : string) : envelope := mkEnvelope true None (Some m).
Definition failure (m : string) : envelope := mkEnvelope false None (Some m).

(** // Utility to simulate async API calls: the promise is fulfilled with
    [data] after DELAY milliseconds. *)
Definition simulateDelay {A} (data : A) : js A := js_ret data.

Local Open Scope js_scope.

(** An object literal: later properties win. *)
Definition literal (props : list (string * option jsval)) : obj :=
  fold_left (fun o kv => set_prop kv.1 kv.2 o) props ∅.

(** ** AUTH API *)

Module mockAuthAPI.

(** [signup(userData)]; [_id] and [token] are the two results of
    [generateId()], [createdAt] is [new Date().toISOString()]. *)
Definition signup (userData : obj) (_id createdAt token : string)
  : js envelope :=
  let* users := getUsers in
  (* Check if email already exists *)
  match find (fun u => strict_eq (u !! "email") (userData !! "email")) users with
  | Some _ => simulateDelay (failure "Email already registered")
  | None =>
      let* hashed := lift (hashPassword (userData !! "password")) in
      let newUser := literal [
        ("_id", Some (JStr _id));
        ("name", userData !! "name");
        ("email", userData !! "email");
        ("password", Some hashed);
        ("createdAt", Some (JStr createdAt)) ] in
      let users := (users ++ [newUser])%list in
      saveUsers users;;
      let userWithoutPassword := delete "password" newUser in
      setToken token;;
      setCurrentUser userWithoutPassword;;
      simulateDelay (ok_data (PAuth token userWithoutPassword))
  end.

(** [login(credentials)]; [token] is the result of [generateId()]. *)
Definition login (credentials : obj) (token : string) : js envelope :=
  let* users := getUsers in
  let user :=
    find (fun u => strict_eq (u !! "email") (credentials !! "email")) users in
  match user with
  | None => simulateDelay (failure "Invalid email or password")
  | Some user =>
      let* verified :=
        lift (verifyPassword (credentials !! "password") (user !! "password")) in
      if negb verified
      then simulateDelay (failure "Invalid email or password")
      else
        let userWithoutPassword := delete "password" user in
        setToken token;;
        setCurrentUser userWithoutPassword;;
        simulateDelay (ok_data (PAuth token userWithoutPassword))
  end.

Definition getMe : js envelope :=
  let* user := getCurrentUser in
  match user with
  | None => simulateDelay (failure "Not authenticated")
  | Some user => simulateDelay (ok_data (PObj user))
  end.

Definition updateProfile (userData : obj) : js envelope :=
  let* user := getCurrentUser in
  match user with
  | None => simulateDelay (failure "Not authenticated")
  | Some user =>
      let updatedUser := spread user userData in
      setCurrentUser updatedUser;;
      (* Also update in users array *)
      let* users := getUsers in
      let userIndex :=
        findIndex (fun u => strict_eq (u !! "_id") (user !! "_id")) users in
      match userIndex with
      | Some i => saveUsers (alter (fun u => spread u userData) i users)
      | None => js_ret tt
      end;;
      simulateDelay (ok_data (PObj updatedUser))
  end.

Definition changePassword (passwordData : obj) : js envelope :=
  let* user := getCurrentUser in
  match user with
  | None => simulateDelay (failure "Not authenticated")
  | Some user =>
      let* users := getUsers in
      let userIndex :=
        findIndex (fun u => strict_eq (u !! "_id") (user !! "_id")) users in
      match userIndex with
      | Some i =>
          let* verified :=
            lift (verifyPassword (passwordData !! "currentPassword")
                    (users !! i ≫= (.!! "password"))) in
          if negb verified
          then simulateDelay (failure "Current password is incorrect")
          else
            let* hashed := lift (hashPassword (passwordData !! "newPassword")) in
            saveUsers (alter (<["password" := hashed]>) i users);;
            simulateDelay (ok_message "Password changed successfully")
      | None => simulateDelay (ok_message "Password changed successfully")
      end
  end.

Definition deleteAccount : js envelope :=
  let* user := getCurrentUser in
  match user with
  | None => simulateDelay (failure "Not authenticated")
  | Some user =>
      (* Remove user from users array *)
      let* users := getUsers in
      let filteredUsers :=
        List.filter (fun u => negb (strict_eq (u !! "_id") (user !! "_id"))) users in
      saveUsers filteredUsers;;
      (* Remove user's tasks *)
      let* tasks := getTasks in
      let filteredTasks :=
        List.filter (fun t => negb (strict_eq (t !! "userId") (user !! "_id"))) tasks in
      saveTasks filteredTasks;;
      clearCurrentUser;;
      removeToken;;
      simulateDelay (ok_message "Account deleted successfully")
  end.

Definition logout : js envelope :=
  clearCurrentUser;;
  removeToken;;
  simulateDelay (ok_message "Logged out successfully").

End mockAuthAPI.

(** ** Sorting *)

(** [x - y] on numbers, where [None] is NaN. *)
Definition num_sub (x y : option Z) : option Z :=
  match x, y with
  | Some a, Some b => Some (a - b)%Z
  | _, _ => None
  end.

(** [Array.prototype.sort(comparefn)].  A comparator result that is NaN
    counts as +0.  The sort is stable; it is written here as an insertion
    sort, which for a consistent comparator gives the one result ECMAScript
    allows. *)
Definition goes_before (c : option Z) : bool :=
  match c with
  | Some z => (z <=? 0)%Z
  | None => true
  end.

Fixpoint insertM {A} (cmp : A -> A -> completion (option Z)) (x : A)
  (l : list A) : completion (list A) :=
  match l with
  | [] => Return [x]
  | y :: r =>
      completion_bind (cmp x y) (fun c =>
      if goes_before c then Return (x :: y :: r)
      else completion_bind (insertM cmp x r) (fun r' => Return (y :: r')))
  end.

Fixpoint sortM {A} (cmp : A -> A -> completion (option Z)) (l : list A)
  : completion (list A) :=
  match l with
  | [] => Return []
  | x :: r => completion_bind (sortM cmp r) (insertM cmp x)
  end.

(** [const priorityOrder = { high: 1, medium: 2, low: 3 }], read at the key
    [ToString p]; any other key gives a value whose difference is NaN. *)
Definition priorityOrder (p : option jsval) : option Z :=
  let k := ToString p in
  if bool_decide (k = "high") then Some 1%Z
  else if bool_decide (k = "medium") then Some 2%Z
  else if bool_decide (k = "low") then Some 3%Z
  else None.

(** [a.title.localeCompare(b.title)]: the receiver must be a string, the
    argument is converted to one. *)
Definition title_compare (h : host) (a b : obj) : completion (option Z) :=
  match a !! "title" with
  | Some (JStr s) => Return (Some (localeCompare h s (ToString (b !! "title"))))
  | _ => Throw TypeError
  end.

(** [(a, b) => new Date(b.createdAt) - new Date(a.createdAt)] *)
Definition by_newest (h : host) (a b : obj) : completion (option Z) :=
  Return (num_sub (Date_time h (b !! "createdAt")) (Date_time h (a !! "createdAt"))).

(** [(a, b) => new Date(a.createdAt) - new Date(b.createdAt)] *)
Definition by_oldest (h : host) (a b : obj) : completion (option Z) :=
  Return (num_sub (Date_time h (a !! "createdAt")) (Date_time h (b !! "createdAt"))).

(** [(a, b) => priorityOrder[a.priority] - priorityOrder[b.priority]] *)
Definition by_priority (a b : obj) : completion (option Z) :=
  Return (num_sub (priorityOrder (a !! "priority")) (priorityOrder (b !! "priority"))).

(** ** TASK API *)

Module mockTaskAPI.

(** The callback [t => t._id === id && t.userId === user._id]. *)
Definition owned_with_id (id : option jsval) (user : option obj) (t : obj)
  : completion bool :=
  if strict_eq (t !! "_id") id then
    completion_bind (prop user "_id") (fun uid =>
    Return (strict_eq (t !! "userId") uid))
  else Return false.

(** The callback of the search filter. *)
Definition matches_search (h : host) (searchLower : jstring) (t : obj)
  : completion bool :=
  completion_bind (call_toLowerCase h (t !! "title")) (fun title =>
  if includes title searchLower then Return true
  else if truthy (t !! "description") then
    completion_bind (call_toLowerCase h (t !! "description")) (fun d =>
    Return (includes d searchLower))
  else Return false).

Definition getAll (h : host) (params : obj) : js envelope :=
  let* tasks := getTasks in
  let* user := getCurrentUser in
  match user with
  | None => simulateDelay (failure "Not authenticated")
  | Some user =>
      (* Filter by user *)
      let tasks :=
        List.filter (fun t => strict_eq (t !! "userId") (user !! "_id")) tasks in
      (* Apply filters *)
      let tasks :=
        if truthy (params !! "status") &&
           negb (strict_eq (params !! "status") (Some (JStr "all")))
        then List.filter (fun t => strict_eq (t !! "status") (params !! "status")) tasks
        else tasks in
      let tasks :=
        if truthy (params !! "priority") &&
           negb (strict_eq (params !! "priority") (Some (JStr "all")))
        then List.filter (fun t => strict_eq (t !! "priority") (params !! "priority")) tasks
        else tasks in
      let* tasks :=
        if truthy (params !! "search") then
          let* searchLower := lift (call_toLowerCase h (params !! "search")) in
          lift (filterM (matches_search h searchLower) tasks)
        else js_ret tasks in
      (* Apply sorting *)
      let* tasks :=
        if truthy (params !! "sort") then
          let sort := params !! "sort" in
          if strict_eq sort (Some (JStr "newest")) then
            lift (sortM (by_newest h) tasks)
          else if strict_eq sort (Some (JStr "oldest")) then
            lift (sortM (by_oldest h) tasks)
          else if strict_eq sort (Some (JStr "title")) then
            lift (sortM (title_compare h) tasks)
          else if strict_eq sort (Some (JStr "priority")) then
            lift (sortM by_priority tasks)
          else js_ret tasks
        else js_ret tasks in
      simulateDelay (ok_data (PList tasks (length tasks)))
  end.

Definition getOne (id : option jsval) : js envelope :=
  let* tasks := getTasks in
  let* user := getCurrentUser in
  let* task := lift (findM (owned_with_id id user) tasks) in
  match task with
  | None => simulateDelay (failure "Task not found")
  | Some task => simulateDelay (ok_data (PObj task))
  end.

(** [create(taskData)]; [_id] is [generateId()], [createdAt] and
    [updatedAt] are the two evaluations of [new Date().toISOString()]. *)
Definition create (taskData : obj) (_id createdAt updatedAt : string)
  : js envelope :=
  let* user := getCurrentUser in
  match user with
  | None => simulateDelay (failure "Not authenticated")
  | Some user =>
      let* tasks := getTasks in
      let newTask := literal [
        ("_id", Some (JStr _id));
        ("userId", user !! "_id");
        ("title", taskData !! "title");
        ("description", js_or (taskData !! "description") (Some (JStr "")));
        ("status", js_or (taskData !! "status") (Some (JStr "pending")));
        ("priority", js_or (taskData !! "priority") (Some (JStr "medium")));
        ("dueDate", js_or (taskData !! "dueDate") (Some JNull));
        ("createdAt", Some (JStr createdAt));
        ("updatedAt", Some (JStr updatedAt)) ] in
      let tasks := (tasks ++ [newTask])%list in
      saveTasks tasks;;
      simulateDelay (ok_data (PObj newTask))
  end.

(** [update(id, taskData)]; [now] is [new Date().toISOString()]. *)
Definition update (id : option jsval) (taskData : obj) (now : string)
  : js envelope :=
  let* tasks := getTasks in
  let* user := getCurrentUser in
  let* taskIndex := lift (findIndexM (owned_with_id id user) tasks) in
  match taskIndex with
  | None => simulateDelay (failure "Task not found")
  | Some i =>
      let tasks :=
        alter (fun t => <["updatedAt" := JStr now]> (spread t taskData)) i tasks in
      saveTasks tasks;;
      simulateDelay (ok_data (PObj (tasks !!! i)))
  end.

Definition delete (id : option jsval) : js envelope :=
  let* tasks := getTasks in
  let* user := getCurrentUser in
  let* taskIndex := lift (findIndexM (owned_with_id id user) tasks) in
  match taskIndex with
  | None => simulateDelay (failure "Task not found")
  | Some i =>
      let tasks := splice1 i tasks in
      saveTasks tasks;;
      simulateDelay (ok_message "Task deleted successfully")
  end.

Definition count_status (status : string) (userTasks : list obj) : nat :=
  length (List.filter
    (fun t => strict_eq (t !! "status") (Some (JStr status))) userTasks).

Definition getStats : js envelope :=
  let* tasks := getTasks in
  let* user := getCurrentUser in
  let* userTasks := lift (filterM (fun t =>
    completion_bind (prop user "_id") (fun uid =>
    Return (strict_eq (t !! "userId") uid))) tasks) in
  let stats := PStats
    (length userTasks)
    (count_status "pending" userTasks)
    (count_status "in-progress" userTasks)
    (count_status "completed" userTasks) in
  simulateDelay (ok_data stats).

End mockTaskAPI.

(** ** The task form of the Dashboard *)

Record formData : Type := mkForm {
  title : jstring;
  description : jstring;
  status : jstring;
  priority : jstring;
  dueDate : jstring
}.

Definition validateForm (fd : formData) : gmap string string :=
  let errors : gmap string string := ∅ in
  let errors :=
    if bool_decide (trim (title fd) = []) then
      <["title" := "Title is required"]> errors
    else if (100 <? length (title fd))%nat then
      <["title" := "Title cannot exceed 100 characters"]> errors
    else errors in
  let errors :=
    if negb (bool_decide (description fd = [])) &&
       (500 <? length (description fd))%nat then
      <["description" := "Description cannot exceed 500 characters"]> errors
    else errors in
  errors.

(** The form state as the object handed to [taskAPI]. *)
Definition form_object (fd : formData) : obj :=
  literal [
    ("title", Some (JStr (title fd)));
    ("description", Some (JStr (description fd)));
    ("status", Some (JStr (status fd)));
    ("priority", Some (JStr (priority fd)));
    ("dueDate", Some (JStr (dueDate fd))) ].

Inductive submitted : Type :=
  | FormErrors (errors : gmap string string)
  | Sent (response : completion envelope).

(** [handleSubmit] with the backend unreachable, so that [taskAPI] routes to
    the mock.  [editingTask] selects between update and create; the clock
    and identifier values are those the chosen operation reads. *)
Definition handleSubmit (fd : formData) (editingTask : option obj)
  (_id now1 now2 : string) (ls : localStorage) : submitted * localStorage :=
  let errors := validateForm fd in
  if negb (bool_decide (errors = ∅)) then (FormErrors errors, ls)
  else
    match editingTask with
    | Some task =>
        let r := mockTaskAPI.update (task !! "_id") (form_object fd) now1 ls in
        (Sent r.1, r.2)
    | None =>
        let r := mockTaskAPI.create (form_object fd) _id now1 now2 ls in
        (Sent r.1, r.2)
    end.

(** ** Every call of the two APIs, and the stores they can produce *)

Inductive call : Type :=
  | Signup (userData : obj) (_id createdAt token : string)
  | Login (credentials : obj) (token : string)
  | GetMe
  | UpdateProfile (userData : obj)
  | ChangePassword (passwordData : obj)
  | DeleteAccount
  | Logout
  | GetAll (h : host) (params : obj)
  | GetOne (id : option jsval)
  | Create (taskData : obj) (_id createdAt updatedAt : string)
  | Update (id : option jsval) (taskData : obj) (now : string)
  | Delete (id : option jsval)
  | GetStats.

Definition run_call (c : call) : js envelope :=
  match c with
  | Signup userData _id createdAt token =>
      mockAuthAPI.signup userData _id createdAt token
  | Login credentials token => mockAuthAPI.login credentials token
  | GetMe => mockAuthAPI.getMe
  | UpdateProfile userData => mockAuthAPI.updateProfile userData
  | ChangePassword passwordData => mockAuthAPI.changePassword passwordData
  | DeleteAccount => mockAuthAPI.deleteAccount
  | Logout => mockAuthAPI.logout
  | GetAll h params => mockTaskAPI.getAll h params
  | GetOne id => mockTaskAPI.getOne id
  | Create taskData _id createdAt updatedAt =>
      mockTaskAPI.create taskData _id createdAt updatedAt
  | Update id taskData now => mockTaskAPI.update id taskData now
  | Delete id => mockTaskAPI.delete id
  | GetStats => mockTaskAPI.getStats
  end.

(** The stores reachable from an empty [localStorage] by calls that all
    satisfy [allowed]. *)
Inductive reachable_by (allowed : call -> Prop) : localStorage -> Prop :=
  | reach_empty : reachable_by allowed empty_storage
  | reach_call ls c :
      reachable_by allowed ls -> allowed c ->
      reachable_by allowed (run_call c ls).2.

Definition reachable : localStorage -> Prop := reachable_by (fun _ => True).

(** Running a list of calls in order. *)
Definition run_calls (cs : list call) (ls : localStorage) : localStorage :=
  fold_left (fun ls c => (run_call c ls).2) cs ls.

(** The user object inside a response, when there is one. *)
Definition returned_user (e : envelope) : option obj :=
  match data e with
  | Some (PAuth _ user) => Some user
  | Some (PObj user) => Some user
  | _ => None
  end.

(** [t.userId === user._id] for a current user that exists. *)
Definition owned_by (user t : obj) : bool :=
  strict_eq (t !! "userId") (user !! "_id").

(** The three statuses of the data model. *)
Definition known_status (t : obj) : Prop :=
  t !! "status" = Some (JStr "pending") \/
  t !! "status" = Some (JStr "in-progress") \/
  t !! "status" = Some (JStr "completed").

(** The callback [t => t._id === id && t.userId === user._id] for a current
    user that exists. *)
Definition owned_with_id_by (id : option jsval) (user t : obj) : bool :=
  strict_eq (t !! "_id") id && owned_by user t.

(** The calls that answer with a user object. *)
Definition returns_user (c : call) : Prop :=
  match c with
  | Signup _ _ _ _ | Login _ _ | GetMe | UpdateProfile _ => True
  | _ => False
  end.

(** A call whose profile patch, if it is [updateProfile], has no [password]
    property. *)
Definition keeps_password_out (c : call) : Prop :=
  match c with
  | UpdateProfile userData => userData !! "password" = None
  | _ => True
  end.

(** The current user, if any, has no [password] property. *)
Definition session_without_password (ls : localStorage) : Prop :=
  forall user, mock_currentUser ls = Some user -> user !! "password" = None.

(** Code that leaves one component of the store as it is. *)
Definition keeps {A X} (component : localStorage -> X) (m : js A) : Prop :=
  forall ls, component (m ls).2 = component ls.

(** The calls that write neither users nor session. *)
Definition task_or_read_call (c : call) : Prop :=
  match c with
  | GetMe | GetAll _ _ | GetOne _ | Create _ _ _ _ | Update _ _ _
  | Delete _ | GetStats => True
  | _ => False
  end.

(** The stored record of a session user: the first stored user with the
    [_id] of the session, which is the record that [updateProfile] and
    [changePassword] work on. *)
Definition stored_record (user : obj) (ls : localStorage) : option obj :=
  let users := default [] (mock_users ls) in
  i ← findIndex (fun u => strict_eq (u !! "_id") (user !! "_id")) users;
  users !! i.

(** The current user, if any, has a stored record. *)
Definition session_stored (ls : localStorage) : Prop :=
  forall user, mock_currentUser ls = Some user ->
    user !! "_id" ∈ (fun u : obj => u !! "_id") <$> default [] (mock_users ls).

(** ** The list operation in the words of its specification *)

(** The text of a property: its value when that is a string, and the empty
    text otherwise. *)
Definition text (v : option jsval) : jstring :=
  match v with
  | Some (JStr s) => s
  | _ => []
  end.

(** A status or priority filter is skipped when its value is "all", absent,
    or empty in the sense of JavaScript. *)
Definition filter_skipped (v : option jsval) : bool :=
  negb (truthy v) || strict_eq v (Some (JStr "all")).

Definition passes_status (params t : obj) : bool :=
  filter_skipped (params !! "status") ||
  strict_eq (t !! "status") (params !! "status").

Definition passes_priority (params t : obj) : bool :=
  filter_skipped (params !! "priority") ||
  strict_eq (t !! "priority") (params !! "priority").

(** The search is skipped when empty; otherwise the lower-cased search text
    must occur in the lower-cased title, or in the lower-cased description
    of a task that has one. *)
Definition passes_search (h : host) (params t : obj) : bool :=
  negb (truthy (params !! "search")) ||
  includes (toLowerCase h (text (t !! "title")))
    (toLowerCase h (text (params !! "search"))) ||
  truthy (t !! "description") &&
  includes (toLowerCase h (text (t !! "description")))
    (toLowerCase h (text (params !! "search"))).

(** The tasks of [user] that pass the three filters, in the order of the
    store. *)
Definition list_spec (h : host) (params user : obj) (tasks : list obj)
  : list obj :=
  List.filter (fun t =>
    owned_by user t && passes_status params t && passes_priority params t
    && passes_search h params t) tasks.

(** The sort keys. *)
Definition time_of (h : host) (t : obj) : Z :=
  default 0%Z (Date_time h (t !! "createdAt")).

Definition rank_of (t : obj) : Z :=
  default 0%Z (priorityOrder (t !! "priority")).

(** The order a sort value asks for; [None] when the value asks for none. *)
Definition sort_order (h : host) (params : obj) : option (obj -> obj -> Prop) :=
  if strict_eq (params !! "sort") (Some (JStr "newest")) then
    Some (fun a b => (time_of h b <= time_of h a)%Z)
  else if strict_eq (params !! "sort") (Some (JStr "oldest")) then
    Some (fun a b => (time_of h a <= time_of h b)%Z)
  else if strict_eq (params !! "sort") (Some (JStr "title")) then
    Some (fun a b =>
      (localeCompare h (text (a !! "title")) (text (b !! "title")) <= 0)%Z)
  else if strict_eq (params !! "sort") (Some (JStr "priority")) then
    Some (fun a b => (rank_of a <= rank_of b)%Z)
  else None.

(** What [getAll] needs of a task for a given filter, each item as the data
    model has it: a title that is a string, when the filter searches or
    sorts by title; a description that is a string when it is not empty,
    when the filter searches; a created timestamp that [Date] can read, when
    the filter sorts by time; one of the three priorities, when the filter
    sorts by priority. *)
Record task_shape (h : host) (params t : obj) : Prop := mkShape {
  shape_title :
    truthy (params !! "search") = true \/ params !! "sort" = Some (JStr "title") ->
    exists s, t !! "title" = Some (JStr s);
  shape_description :
    truthy (params !! "search") = true ->
    truthy (t !! "description") = true ->
    exists s, t !! "description" = Some (JStr s);
  shape_created :
    params !! "sort" = Some (JStr "newest") \/
    params !! "sort" = Some (JStr "oldest") ->
    is_Some (Date_time h (t !! "createdAt"));
  shape_priority :
    params !! "sort" = Some (JStr "priority") ->
    is_Some (priorityOrder (t !! "priority"))
}.

(** A search value is a string when it is not empty. *)
Definition search_shape (params : obj) : Prop :=
  truthy (params !! "search") = true ->
  exists s, params !! "search" = Some (JStr s).

(** [localeCompare] orders the strings: any two are comparable, and the
    order is transitive. *)
Record collates (h : host) : Prop := mkCollates {
  collates_total : forall a b,
    (0 < localeCompare h a b -> localeCompare h b a <= 0)%Z;
  collates_trans : forall a b c,
    (localeCompare h a b <= 0 -> localeCompare h b c <= 0 ->
     localeCompare h a c <= 0)%Z
}.

(** Insertion sort with a comparator that cannot throw. *)
Fixpoint insert_by {A} (le : A -> A -> bool) (x : A) (l : list A) : list A :=
  match l with
  | [] => [x]
  | y :: r => if le x y then x :: y :: r else y :: insert_by le x r
  end.

Fixpoint sort_by {A} (le : A -> A -> bool) (l : list A) : list A :=
  match l with
  | [] => []
  | x :: r => insert_by le x (sort_by le r)
  end.

(** The binding of [k] in an object literal. *)
Fixpoint lookup_props (k : string) (props : list (string * option jsval))
  (acc : option jsval) : option jsval :=
  match props with
  | [] => acc
  | kv :: r => lookup_props k r (if bool_decide (kv.1 = k) then kv.2 else acc)
  end.

(** ** A host for the examples

    Its [Date] reads the format that [toISOString] writes and nothing else;
    its [localeCompare] compares code units; its [toLowerCase] leaves the
    code units above 255 as they are. *)

Definition digit (n : N) : option Z :=
  if ((48 <=? n) && (n <=? 57))%N then Some (Z.of_N (n - 48)) else None.

Fixpoint number (l : list N) (acc : Z) : option Z :=
  match l with
  | [] => Some acc
  | c :: r => d ← digit c; number r (10 * acc + d)%Z
  end.

(** Days between 1970-01-01 and the given civil date. *)
Definition days_from_civil (y m d : Z) : Z :=
  let y' := if (m <=? 2)%Z then (y - 1)%Z else y in
  let era := (y' / 400)%Z in
  let yoe := (y' - era * 400)%Z in
  let mp := if (2 <? m)%Z then (m - 3)%Z else (m + 9)%Z in
  let doy := ((153 * mp + 2) / 5 + d - 1)%Z in
  let doe := (yoe * 365 + yoe / 4 - yoe / 100 + doy)%Z in
  (era * 146097 + doe - 719468)%Z.

Definition iso_time (v : option jsval) : option Z :=
  match v with
  | Some (JStr s) =>
      match s with
      | [y1; y2; y3; y4; p1; m1; m2; p2; d1; d2; p3; h1; h2; p4; n1; n2; p5;
         s1; s2; p6; f1; f2; f3; p7] =>
          if bool_decide ([p1; p2; p3; p4; p5; p6; p7] = units "--T::.Z") then
            y ← number [y1; y2; y3; y4] 0;
            m ← number [m1; m2] 0;
            d ← number [d1; d2] 0;
            hh ← number [h1; h2] 0;
            mm ← number [n1; n2] 0;
            ss ← number [s1; s2] 0;
            ms ← number [f1; f2; f3] 0;
            if ((1 <=? m) && (m <=? 12) && (1 <=? d) && (d <=? 31)
                && (hh <=? 23) && (mm <=? 59) && (ss <=? 59))%Z
            then Some ((((days_from_civil y m d * 24 + hh) * 60 + mm) * 60 + ss)
                       * 1000 + ms)%Z
            else None
          else None
      | _ => None
      end
  | _ => None
  end.

(** The order of the code units, first difference first. *)
Fixpoint units_leb (a b : jstring) : bool :=
  match a, b with
  | [], _ => true
  | _ :: _, [] => false
  | x :: a', y :: b' => (x <? y)%N || (x =? y)%N && units_leb a' b'
  end.

Definition code_unit_compare (a b : jstring) : Z :=
  if bool_decide (a = b) then 0%Z
  else if units_leb a b then (-1)%Z else 1%Z.

Definition example_host : host :=
  mkHost iso_time code_unit_compare (fmap lower_unit).

(** ** Concrete stores used as test inputs *)

Definition ada : obj :=
  literal [("name", Some (JStr "Ada")); ("email", Some (JStr "ada@x.com"));
           ("password", Some (JStr "secret1"))].

(** The record of Ada that [signup] stores. *)
Definition ada_record : obj :=
  literal [("_id", Some (JStr "u1")); ("name", Some (JStr "Ada"));
           ("email", Some (JStr "ada@x.com"));
           ("password", Some (JStr "c2VjcmV0MQ=="));
           ("createdAt", Some (JStr "2024-01-01T00:00:00.000Z"))].

Definition bob : obj :=
  literal [("name", Some (JStr "Bob")); ("email", Some (JStr "bob@x.com"));
           ("password", Some (JStr "hunter22"))].

(** Ada and Bob signed up and each created tasks; Ada is logged in.  Ada has
    one task of each status, Bob has one pending task. *)
Definition two_user_store : localStorage :=
  run_calls [
    Signup bob "u2" "2023-12-31T00:00:00.000Z" "k0";
    Create (literal [("title", Some (JStr "Buy milk"))])
      "t0" "2023-12-31T08:00:00.000Z" "2023-12-31T08:00:00.000Z";
    Signup ada "u1" "2024-01-01T00:00:00.000Z" "k1";
    Create (literal [("title", Some (JStr "Write spec"))])
      "t1" "2024-01-02T08:00:00.000Z" "2024-01-02T08:00:00.000Z";
    Create (literal [("title", Some (JStr "Review proofs"));
                     ("status", Some (JStr "in-progress"));
                     ("priority", Some (JStr "high"))])
      "t2" "2024-01-02T09:00:00.000Z" "2024-01-02T09:00:00.000Z";
    Create (literal [("title", Some (JStr "archive notes"));
                     ("description", Some (JStr "Old SPEC drafts"));
                     ("status", Some (JStr "completed"));
                     ("priority", Some (JStr "low"))])
      "t3" "2024-01-02T10:00:00.000Z" "2024-01-02T10:00:00.000Z"
  ] empty_storage.

(** Ada created one task with a status outside the three of the data
    model. *)
Definition done_store : localStorage :=
  run_calls [
    Signup ada "u1" "2024-01-01T00:00:00.000Z" "k1";
    Create (literal [("title", Some (JStr "Write spec"));
                     ("status", Some (JStr "done"))])
      "t1" "2024-01-01T08:00:00.000Z" "2024-01-01T08:00:00.000Z"
  ] empty_storage.

(** Ada signed up and created one task. *)
Definition ada_task_store : localStorage :=
  run_calls [
    Signup ada "u1" "2024-01-01T00:00:00.000Z" "k1";
    Create (literal [("title", Some (JStr "Write spec"))])
      "t1" "2024-01-01T08:00:00.000Z" "2024-01-01T08:00:00.000Z"
  ] empty_storage.

(** The task of [ada_task_store]. *)
Definition ada_task : obj :=
  literal [("_id", Some (JStr "t1")); ("userId", Some (JStr "u1"));
           ("title", Some (JStr "Write spec")); ("description", Some (JStr ""));
           ("status", Some (JStr "pending")); ("priority", Some (JStr "medium"));
           ("dueDate", Some JNull);
           ("createdAt", Some (JStr "2024-01-01T08:00:00.000Z"));
           ("updatedAt", Some (JStr "2024-01-01T08:00:00.000Z"))].

(** Ada signed up, created one task and logged out. *)
Definition logged_out_store : localStorage :=
  run_calls [
    Signup ada "u1" "2024-01-01T00:00:00.000Z" "k1";
    Create (literal [("title", Some (JStr "Write spec"))])
      "t1" "2024-01-01T08:00:00.000Z" "2024-01-01T08:00:00.000Z";
    Logout
  ] empty_storage.

(** Ada signed up and created a task without a title. *)
Definition untitled_store : localStorage :=
  run_calls [
    Signup ada "u1" "2024-01-01T00:00:00.000Z" "k1";
    Create (literal [("description", Some (JStr "milk"))])
      "t1" "2024-01-01T08:00:00.000Z" "2024-01-01T08:00:00.000Z"
  ] empty_storage.

(** Bob and Ada signed up, and Ada took Bob's email with [updateProfile]. *)
Definition shared_email_store : localStorage :=
  run_calls [
    Signup bob "u2" "2023-12-31T00:00:00.000Z" "k0";
    Signup ada "u1" "2024-01-01T00:00:00.000Z" "k1";
    UpdateProfile (literal [("email", Some (JStr "bob@x.com"))])
  ] empty_storage.

(** A filter: everything that mentions "spec", newest first. *)
Definition spec_newest : obj :=
  literal [("status", Some (JStr "all")); ("priority", Some (JStr "all"));
           ("search", Some (JStr "SPEC")); ("sort", Some (JStr "newest"))].

(** The identifiers of the tasks in a response. *)
Definition listed_ids (r : completion envelope) : list (option jsval) :=
  match r with
  | Return e =>
      match data e with
      | Some (PList tasks _) => map (fun t : obj => t !! "_id") tasks
      | _ => []
      end
  | Throw _ => []
  end.

(** The session user after Ada's signup. *)
Definition ada_session : obj := delete "password" ada_record.

Definition ada_store : localStorage :=
  run_calls [Signup ada "u1" "2024-01-01T00:00:00.000Z" "k1"] empty_storage.

(** ** Reading base64 back

    [btoa] has an inverse on the strings it produces; the source never
    decodes, the decoder serves to show that two passwords with the same
    encoding are the same string. *)

Fixpoint index_of (c : ascii) (l : list ascii) : N :=
  match l with
  | [] => 0
  | x :: r => if bool_decide (x = c) then 0 else N.succ (index_of c r)
  end.

Definition b64_value (c : ascii) : N := index_of c b64_alphabet.

Fixpoint b64_decode (l : list ascii) : list N :=
  match l with
  | c1 :: c2 :: c3 :: c4 :: r =>
      let v1 := b64_value c1 in
      let v2 := b64_value c2 in
      let v3 := b64_value c3 in
      let v4 := b64_value c4 in
      if bool_decide (c3 = "="%char) then [v1 * 4 + v2 / 16]
      else if bool_decide (c4 = "="%char) then
        [v1 * 4 + v2 / 16; (v2 mod 16) * 16 + v3 / 4]
      else
        (v1 * 4 + v2 / 16) :: ((v2 mod 16) * 16 + v3 / 4) ::
        ((v3 mod 4) * 64 + v4) :: b64_decode r
  | _ => []
  end%N.

(** A call whose profile patch, if it is [updateProfile], has no [email]
    property. *)
Definition keeps_email_out (c : call) : Prop :=
  match c with
  | UpdateProfile userData => userData !! "email" = None
  | _ => True
  end.

(** The emails of the stored users, in store order. *)
Definition stored_emails (ls : localStorage) : list (option jsval) :=
  (fun u : obj => u !! "email") <$> default [] (mock_users ls).

(** ** Sample data (initializeMockData)

    [initializeMockData] uses one more key of [localStorage],
    ['mock_initialized']. *)
Record demoStorage : Type := mkDemo {
  demo_store : localStorage;
  mock_initialized : option string
}.

(** [s.split('T')[0]]: the text before the first ["T"]. *)
Fixpoint before_T (s : string) : string :=
  match s with
  | EmptyString => EmptyString
  | String c r => if bool_decide (c = "T"%char) then EmptyString else String c (before_T r)
  end.

(** The text of one double quote character. *)
Definition double_quote : string := String (ascii_of_nat 34) EmptyString.

(** The two sample tasks; [id1], [id2] are the results of [generateId()],
    [tomorrow] is [new Date(Date.now() + 86400000).toISOString()], and the
    other four are the readings of [new Date().toISOString()], in the order
    of evaluation. *)
Definition sampleTasks (user : obj)
  (id1 tomorrow created1 updated1 id2 created2 updated2 : string) : list obj :=
  [ literal [
      ("_id", Some (JStr id1));
      ("userId", user !! "_id");
      ("title", Some (JStr "Welcome to Task Manager!"));
      ("description", Some (JStr
         "This is a sample task to get you started. You can edit or delete it."));
      ("status", Some (JStr "pending"));
      ("priority", Some (JStr "high"));
      ("dueDate", Some (JStr (before_T tomorrow)));
      ("createdAt", Some (JStr created1));
      ("updatedAt", Some (JStr updated1)) ];
    literal [
      ("_id", Some (JStr id2));
      ("userId", user !! "_id");
      ("title", Some (JStr "Try creating a new task"));
      ("description", Some (JStr
         ("Click the " +:+ double_quote +:+ "Add Task" +:+ double_quote +:+
          " button to create your own tasks.")));
      ("status", Some (JStr "in-progress"));
      ("priority", Some (JStr "medium"));
      ("dueDate", Some JNull);
      ("createdAt", Some (JStr created2));
      ("updatedAt", Some (JStr updated2)) ] ].

(** [!localStorage.getItem('mock_initialized')]: the key is absent or holds
    the empty text. *)
Definition not_initialized (ds : demoStorage) : bool :=
  match mock_initialized ds with
  | None => true
  | Some s => bool_decide (s = "")
  end.

Definition initializeMockData
  (id1 tomorrow created1 updated1 id2 created2 updated2 : string)
  (ds : demoStorage) : demoStorage :=
  if not_initialized ds then
    (* Add sample tasks for demo user *)
    let ls := demo_store ds in
    let ls :=
      match mock_currentUser ls with
      | Some user =>
          let tasks := default [] (mock_tasks ls) in
          let tasks :=
            tasks ++ sampleTasks user id1 tomorrow created1 updated1
                       id2 created2 updated2 in
          mkStorage (mock_users ls) (Some tasks) (mock_currentUser ls) (mock_token ls)
      | None => ls
      end in
    mkDemo ls (Some "true")
  else ds.

(** ** Routing (services/api.js)

    [isBackendAvailable] is a module variable, [null] until the first
    call; [probe] tells whether the GET of the health path resolved (within
    its timeout) or was rejected. *)
Definition checkBackend (probe : bool) (isBackendAvailable : option bool)
  : bool * option bool :=
  match isBackendAvailable with
  | Some available => (available, isBackendAvailable)
  | None => if probe then (true, Some true) else (false, Some false)
  end.

(** Every operation of [authAPI] and [taskAPI]: ask [checkBackend], then
    call the backend or the mock. *)
Definition route {A} (probe : bool) (remote mock : A)
  (isBackendAvailable : option bool) : A * option bool :=
  let r := checkBackend probe isBackendAvailable in
  (if r.1 then remote else mock, r.2).

(** ** The Dashboard's list, with the backend unreachable *)

Record dashboard : Type := mkDashboard {
  shown_tasks : list obj;
  loading : bool;
  toast : string * string
}.

(** [result.success] for the value found under [data] in a response. *)
Definition result_success (result : payload) : option jsval :=
  match result with
  | PObj o => o !! "success"
  | PAuth _ _ | PList _ _ | PStats _ _ _ _ => None
  end.

(** [result.data.data || []]: reading [data] of [undefined] or [null]
    throws; an array or a primitive has no property [data]. *)
Definition result_rows (result : payload) : completion (list obj) :=
  match result with
  | PObj o =>
      match o !! "data" with
      | None | Some JNull => Throw TypeError
      | Some _ => Return []
      end
  | PList _ _ => Return []
  | PAuth _ _ | PStats _ _ _ _ => Throw TypeError
  end.

(** [fetchTasks]; [taskAPI.getAll] is the mock's [getAll]. *)
Definition fetchTasks (h : host) (filters : obj) (st : dashboard)
  (ls : localStorage) : dashboard * localStorage :=
  let st := mkDashboard (shown_tasks st) true (toast st) in
  let failed := mkDashboard (shown_tasks st) (loading st)
                  ("Failed to fetch tasks", "error") in
  let r := mockTaskAPI.getAll h filters ls in
  let st :=
    match r.1 with
    | Return response =>
        match data response with
        | None => failed
        | Some result =>
            if truthy (result_success result) then
              match result_rows result with
              | Return rows => mkDashboard rows (loading st) (toast st)
              | Throw _ => failed
              end
            else failed
        end
    | Throw _ => failed
    end in
  (mkDashboard (shown_tasks st) false (toast st), r.2).

(** ** The auth context (context/AuthContext.jsx), with the backend
    unreachable *)

Record authContext : Type := mkAuth {
  auth_user : option obj;
  auth_error : option string
}.

(** The keys ['token'] and ['user'] of the context, beside the mock's. *)
Record browserStorage : Type := mkBrowser {
  mock_part : localStorage;
  key_token : option string;
  key_user : option obj
}.

Record outcome : Type := mkOutcome {
  outcome_success : bool;
  outcome_message : option string
}.

(** [const { token, user: userData } = response.data]: the mock's [login]
    and [signup] answer with a token and a user under [data], or with no
    [data] at all, and destructuring [undefined] throws. *)
Definition token_and_user (response : envelope) : completion (string * obj) :=
  match data response with
  | Some (PAuth token userData) => Return (token, userData)
  | _ => Throw TypeError
  end.

(** What [login] and [signup] do with the mock's answer; [fallback] is the
    message of the catch branch ([err.response] is [undefined] for an
    exception that is not an HTTP error). *)
Definition settle_session (fallback : string) (r : completion envelope * localStorage)
  (st : authContext) (b : browserStorage)
  : outcome * authContext * browserStorage :=
  match completion_bind r.1 token_and_user with
  | Return (token, userData) =>
      (mkOutcome true None,
       mkAuth (Some userData) None,
       mkBrowser r.2 (Some token) (Some userData))
  | Throw _ =>
      (mkOutcome false (Some fallback),
       mkAuth (auth_user st) (Some fallback),
       mkBrowser r.2 (key_token b) (key_user b))
  end.

(** [login(email, password)] of the context; [token] is the mock's
    [generateId()]. *)
Definition context_login (email password : option jsval) (token : string)
  (st : authContext) (b : browserStorage)
  : outcome * authContext * browserStorage :=
  let st := mkAuth (auth_user st) None in
  settle_session "Login failed"
    (mockAuthAPI.login (literal [("email", email); ("password", password)])
       token (mock_part b))
    st b.

(** [signup(name, email, password)] of the context. *)
Definition context_signup (name email password : option jsval)
  (_id createdAt token : string) (st : authContext) (b : browserStorage)
  : outcome * authContext * browserStorage :=
  let st := mkAuth (auth_user st) None in
  settle_session "Signup failed"
    (mockAuthAPI.signup
       (literal [("name", name); ("email", email); ("password", password)])
       _id createdAt token (mock_part b))
    st b.

(** [logout()] of the context: it does not call the API. *)
Definition context_logout (st : authContext) (b : browserStorage)
  : authContext * browserStorage :=
  (mkAuth None (auth_error st), mkBrowser (mock_part b) None None).

(** [deleteAccount()] of the context. *)
Definition context_deleteAccount (st : authContext) (b : browserStorage)
  : outcome * authContext * browserStorage :=
  let st := mkAuth (auth_user st) None in
  let r := mockAuthAPI.deleteAccount (mock_part b) in
  match r.1 with
  | Return _ =>
      (mkOutcome true None, mkAuth None None, mkBrowser r.2 None None)
  | Throw _ =>
      (mkOutcome false (Some "Delete failed"),
       mkAuth (auth_user st) (Some "Delete failed"),
       mkBrowser r.2 (key_token b) (key_user b))
  end.

(** ** The Dashboard's handlers, with the backend unreachable *)

(** The toast [handleSubmit] shows for its own call (before it asks
    [fetchTasks] for the list again): none when the form has errors; the
    text of the branch taken when the awaited call returned, whatever the
    envelope says; the text of the catch branch when the call threw (an
    exception of the mock has no [response]). *)
Definition submit_toast (editingTask : option obj) (s : submitted)
  : option (string * string) :=
  match s with
  | FormErrors _ => None
  | Sent (Return _) =>
      match editingTask with
      | Some _ => Some ("Task updated successfully", "success")
      | None => Some ("Task created successfully", "success")
      end
  | Sent (Throw _) => Some ("Operation failed", "error")
  end.

(** [handleDelete(id)] up to its call of [fetchTasks]; [confirmed] is the
    answer of [window.confirm]. *)
Definition handleDelete (confirmed : bool) (id : option jsval)
  (ls : localStorage) : option (string * string) * localStorage :=
  if negb confirmed then (None, ls)
  else
    let r := mockTaskAPI.delete id ls in
    match r.1 with
    | Return _ => (Some ("Task deleted successfully", "success"), r.2)
    | Throw _ => (Some ("Failed to delete task", "error"), r.2)
    end.

(** ** The password form (pages/Profile.jsx), with the backend
    unreachable *)

Record profileForm : Type := mkProfileForm {
  profile_name : jstring;
  profile_email : jstring;
  currentPassword : jstring;
  newPassword : jstring;
  confirmPassword : jstring
}.

Definition validatePassword (fd : profileForm) : gmap string string :=
  let newErrors : gmap string string := ∅ in
  let newErrors :=
    if bool_decide (currentPassword fd = []) then
      <["currentPassword" := "Current password is required to change password"]>
        newErrors
    else newErrors in
  let newErrors :=
    if negb (bool_decide (newPassword fd = [])) &&
       (length (newPassword fd) <? 6)%nat then
      <["newPassword" := "New password must be at least 6 characters"]> newErrors
    else newErrors in
  let newErrors :=
    if negb (bool_decide (newPassword fd = confirmPassword fd)) then
      <["confirmPassword" := "Passwords do not match"]> newErrors
    else newErrors in
  newErrors.

Record profilePage : Type := mkProfilePage {
  page_form : profileForm;
  page_errors : gmap string string;
  page_loading : bool;
  page_toast : string * string
}.

(** [handlePasswordChange]; [authAPI.changePassword] is the mock's. *)
Definition handlePasswordChange (st : profilePage) (ls : localStorage)
  : profilePage * localStorage :=
  let fd := page_form st in
  let newErrors := validatePassword fd in
  if negb (bool_decide (newErrors = ∅)) then
    (mkProfilePage fd newErrors (page_loading st) (page_toast st), ls)
  else
    let r :=
      mockAuthAPI.changePassword
        (literal [("currentPassword", Some (JStr (currentPassword fd)));
                  ("newPassword", Some (JStr (newPassword fd)))]) ls in
    match r.1 with
    | Return _ =>
        (mkProfilePage
           (mkProfileForm (profile_name fd) (profile_email fd) [] [] [])
           (page_errors st) false ("Password changed successfully", "success"),
         r.2)
    | Throw _ =>
        (mkProfilePage fd (page_errors st) false
           ("Failed to change password", "error"),
         r.2)
    end.

(** ** More test inputs *)

(** Ada changes her password. *)
Definition ada_new_password : obj :=
  literal [("currentPassword", Some (JStr "secret1"));
           ("newPassword", Some (JStr "hunter22"))].

(** The data of a task with a title only. *)
Definition spec_task : obj := literal [("title", Some (JStr "Write spec"))].

(** A patch that completes a task. *)
Definition complete_patch : obj := literal [("status", Some (JStr "completed"))].

(** A task form that passes validation. *)
Definition spec_form : formData := mkForm "Write spec" "" "pending" "medium" "".

(** A profile patch that takes Bob's email. *)
Definition bob_email_patch : obj := literal [("email", Some (JStr "bob@x.com"))].

(** A password with the euro sign, the code unit 8364. *)
Definition euro_password : option jsval := Some (JStr (units "5" ++ [8364%N])).

(** * Properties *)

Example btoa_Man : btoa (Some (JStr "Man")) = Return "TWFu".
Proof. reflexivity. Qed.

Example btoa_secret1 : btoa (Some (JStr "secret1")) = Return "c2VjcmV0MQ==".
Proof. reflexivity. Qed.

Example btoa_undefined : btoa None = Return "dW5kZWZpbmVk".
Proof. reflexivity. Qed.

Example btoa_num : btoa (Some (JNum (42%Z ↾ I))) = Return "NDI=".
Proof. vm_compute. reflexivity. Qed.

(** The euro sign is the code unit 8364. *)
Example btoa_euro :
  btoa (Some (JStr (units "5" ++ [8364%N]))) = Throw InvalidCharacterError.
Proof. reflexivity. Qed.

Example trim_ex : trim "  a b  " = "a b".
Proof. reflexivity. Qed.

Example lower_ex : toLowerCase example_host "Write SPEC" = "write spec".
Proof. reflexivity. Qed.

Example includes_ex : includes "write spec" "te s" = true.
Proof. reflexivity. Qed.

Example iso_time_epoch :
  iso_time (Some (JStr "1970-01-01T00:00:00.000Z")) = Some 0%Z.
Proof. reflexivity. Qed.

Example iso_time_2024 :
  iso_time (Some (JStr "2024-01-02T08:00:00.000Z")) = Some 1704182400000%Z.
Proof. reflexivity. Qed.

Example priorityOrder_ranks :
  priorityOrder (Some (JStr "high")) = Some 1%Z /\
  priorityOrder (Some (JStr "medium")) = Some 2%Z /\
  priorityOrder (Some (JStr "low")) = Some 3%Z /\
  priorityOrder (Some (JStr "urgent")) = None /\
  priorityOrder None = None.
Proof. repeat split; reflexivity. Qed.

(** The scenario of the specification: signup, create a task with a title
    only, list with status "all". *)
Example scenario_signup_create_list :
  exists t,
    (mockTaskAPI.getAll example_host (literal [("status", Some (JStr "all"))])
       ada_task_store).1
    = Return (ok_data (PList [t] 1)) /\
    t !! "title" = Some (JStr "Write spec") /\
    t !! "status" = Some (JStr "pending") /\
    t !! "priority" = Some (JStr "medium").
Proof.
  eexists. split; [vm_compute; reflexivity |].
  repeat split; vm_compute; reflexivity.
Qed.

Example list_spec_newest :
  listed_ids (mockTaskAPI.getAll example_host spec_newest two_user_store).1
  = [Some (JStr "t3"); Some (JStr "t1")].
Proof. vm_compute. reflexivity. Qed.

Example list_by_priority :
  listed_ids (mockTaskAPI.getAll example_host
                (literal [("sort", Some (JStr "priority"))]) two_user_store).1
  = [Some (JStr "t2"); Some (JStr "t1"); Some (JStr "t3")].
Proof. vm_compute. reflexivity. Qed.

Example list_by_title :
  listed_ids (mockTaskAPI.getAll example_host
                (literal [("sort", Some (JStr "title"))]) two_user_store).1
  = [Some (JStr "t2"); Some (JStr "t1"); Some (JStr "t3")].
Proof. vm_compute. reflexivity. Qed.

Example list_oldest_completed :
  listed_ids (mockTaskAPI.getAll example_host
                (literal [("status", Some (JStr "completed"));
                          ("sort", Some (JStr "oldest"))]) two_user_store).1
  = [Some (JStr "t3")].
Proof. vm_compute. reflexivity. Qed.

Example list_unsorted :
  listed_ids (mockTaskAPI.getAll example_host
                (literal [("sort", Some (JStr "random"))]) two_user_store).1
  = [Some (JStr "t1"); Some (JStr "t2"); Some (JStr "t3")].
Proof. vm_compute. reflexivity. Qed.

Example login_wrong_password :
  mockAuthAPI.login
    (literal [("email", Some (JStr "ada@x.com")); ("password", Some (JStr "guess"))])
    "k9" logged_out_store
  = (Return (failure "Invalid email or password"), logged_out_store).
Proof. vm_compute. reflexivity. Qed.

Example deleteAccount_cascades :
  let r := mockAuthAPI.deleteAccount two_user_store in
  (map (fun t : obj => t !! "_id") (default [] (mock_tasks r.2)),
   map (fun u : obj => u !! "_id") (default [] (mock_users r.2)),
   mock_currentUser r.2, mock_token r.2)
  = ([Some (JStr "t0")], [Some (JStr "u2")], None, None).
Proof. vm_compute. reflexivity. Qed.

Example validateForm_blank_title :
  validateForm (mkForm "   " "" "pending" "medium" "")
  = {[ "title" := "Title is required" ]}.
Proof. vm_compute. reflexivity. Qed.

Lemma literal_lookup props k : literal props !! k = lookup_props k props None.
Proof.
  unfold literal. rewrite <- (lookup_empty (M := gmap string) (A := jsval) k).
  generalize (∅ : obj). induction props as [|[k' v] r IH]; intros o; simpl.
  - reflexivity.
  - rewrite IH. f_equal. unfold set_prop.
    case_bool_decide as Hk; subst.
    + destruct v; [apply lookup_insert_eq | apply lookup_delete_eq].
    + destruct v; [by apply lookup_insert_ne | by apply lookup_delete_ne].
Qed.

Lemma find_snoc {A} (p : A -> bool) (l : list A) (x : A) :
  find p l = None -> p x = true -> find p (l ++ [x]) = Some x.
Proof.
  unfold find. induction l as [|y r IH]; simpl; intros Hn Hx.
  - by rewrite Hx.
  - destruct (p y); [discriminate | auto].
Qed.

Lemma find_some_of_elem {A} (p : A -> bool) (l : list A) (x : A) :
  x ∈ l -> p x = true -> exists y, find p l = Some y.
Proof.
  unfold find. induction 1 as [x r | x y r _ IH]; simpl; intros Hx.
  - rewrite Hx. eauto.
  - destruct (p y); eauto.
Qed.

Lemma strict_eq_refl v : strict_eq v v = true.
Proof. unfold strict_eq. by apply bool_decide_eq_true. Qed.

Lemma strict_eq_true a b : strict_eq a b = true <-> a = b.
Proof. unfold strict_eq. apply bool_decide_eq_true. Qed.

(** [hashPassword] and [verifyPassword] throw together, and a password is
    accepted against its own encoding. *)
Lemma verifyPassword_hash password hashed :
  hashPassword password = Return hashed ->
  verifyPassword password (Some hashed) = Return true.
Proof.
  unfold hashPassword, verifyPassword.
  destruct (btoa password) as [encoded |]; simpl; [| done].
  intros [= <-]. by rewrite strict_eq_refl.
Qed.

Lemma hashPassword_throws password e hashed :
  hashPassword password = Throw e -> verifyPassword password hashed = Throw e.
Proof.
  unfold hashPassword, verifyPassword.
  destruct (btoa password) as [encoded |]; simpl; [done | by intros [= ->]].
Qed.

(** C10: [logout] returns a successful envelope in every state, leaves no
    current user and no token behind, leaves users and tasks alone, and a
    second [logout] returns the same envelope and does not change the state
    any further. *)
Theorem logout_total_idempotent (ls : localStorage) :
  exists e ls',
    mockAuthAPI.logout ls = (Return e, ls') /\
    success e = true /\
    mock_currentUser ls' = None /\
    mock_token ls' = None /\
    mock_users ls' = mock_users ls /\
    mock_tasks ls' = mock_tasks ls /\
    mockAuthAPI.logout ls' = (Return e, ls').
Proof.
  eexists _, _. split; [reflexivity |]. simpl. tauto.
Qed.

(** C5: when some stored user already has the email of the request,
    [signup] answers with the unsuccessful envelope "Email already
    registered" and the store is left exactly as it was: no user added, no
    current user set, no token written. *)
Theorem signup_conflict (ls : localStorage) (userData : obj)
  (_id createdAt token : string) (u : obj) :
  u ∈ default [] (mock_users ls) ->
  u !! "email" = userData !! "email" ->
  mockAuthAPI.signup userData _id createdAt token ls =
    (Return (failure "Email already registered"), ls).
Proof.
  intros Hin Hemail.
  destruct (find_some_of_elem
    (fun u => strict_eq (u !! "email") (userData !! "email")) _ u Hin) as [y Hy].
  { by apply strict_eq_true. }
  unfold mockAuthAPI.signup, js_bind, getUsers. simpl. by rewrite Hy.
Qed.

Lemma signup_conflict_witness :
  mockAuthAPI.signup ada "u2" "2024-01-02T00:00:00.000Z" "k2" ada_store =
    (Return (failure "Email already registered"), ada_store).
Proof.
  apply (signup_conflict ada_store ada "u2" "2024-01-02T00:00:00.000Z" "k2"
           ada_record).
  - vm_compute. left.
  - vm_compute. reflexivity.
Defined.

(** The user record [signup] stores. *)
Lemma signup_fresh (ls : localStorage) (userData : obj)
  (_id createdAt token : string) (hashed : jsval) :
  find (fun u => strict_eq (u !! "email") (userData !! "email"))
    (default [] (mock_users ls)) = None ->
  hashPassword (userData !! "password") = Return hashed ->
  let newUser := literal [
    ("_id", Some (JStr _id));
    ("name", userData !! "name");
    ("email", userData !! "email");
    ("password", Some hashed);
    ("createdAt", Some (JStr createdAt)) ] in
  mockAuthAPI.signup userData _id createdAt token ls =
    (Return (ok_data (PAuth token (delete "password" newUser))),
     mkStorage (Some (default [] (mock_users ls) ++ [newUser])) (mock_tasks ls)
       (Some (delete "password" newUser)) (Some token)).
Proof.
  intros Hfind Hhash newUser.
  unfold mockAuthAPI.signup, js_bind, getUsers, lift. simpl.
  by rewrite Hfind, Hhash.
Qed.

(** When the password cannot be encoded, [signup] with a fresh email ends
    in the exception of [btoa] and writes nothing. *)
Lemma signup_throws (ls : localStorage) (userData : obj)
  (_id createdAt token : string) (x : exn) :
  find (fun u => strict_eq (u !! "email") (userData !! "email"))
    (default [] (mock_users ls)) = None ->
  hashPassword (userData !! "password") = Throw x ->
  mockAuthAPI.signup userData _id createdAt token ls = (Throw x, ls).
Proof.
  intros Hfind Hhash.
  unfold mockAuthAPI.signup, js_bind, getUsers, lift. simpl.
  by rewrite Hfind, Hhash.
Qed.

Lemma signup_success_fresh (ls ls' : localStorage) (userData : obj)
  (_id createdAt token : string) (e : envelope) :
  mockAuthAPI.signup userData _id createdAt token ls = (Return e, ls') ->
  success e = true ->
  find (fun u => strict_eq (u !! "email") (userData !! "email"))
    (default [] (mock_users ls)) = None /\
  exists hashed, hashPassword (userData !! "password") = Return hashed.
Proof.
  unfold mockAuthAPI.signup, js_bind, getUsers, lift. simpl.
  destruct (find _ _).
  - intros [= <- <-]. discriminate.
  - destruct (hashPassword _) as [hashed |]; simpl; [eauto | done].
Qed.

(** C9: after a successful [signup], a [login] with the same email and
    password succeeds and returns the user that [signup] returned, so in
    particular the same [_id], which is the identifier generated at signup. *)
Theorem signup_then_login (ls ls' : localStorage) (userData credentials : obj)
  (_id createdAt token token' : string) (e : envelope) :
  mockAuthAPI.signup userData _id createdAt token ls = (Return e, ls') ->
  success e = true ->
  credentials !! "email" = userData !! "email" ->
  credentials !! "password" = userData !! "password" ->
  exists user e' ls'',
    data e = Some (PAuth token user) /\
    user !! "_id" = Some (JStr _id) /\
    mockAuthAPI.login credentials token' ls' = (Return e', ls'') /\
    success e' = true /\
    data e' = Some (PAuth token' user) /\
    mock_currentUser ls'' = Some user.
Proof.
  intros Hsignup Hok Hemail Hpw.
  destruct (signup_success_fresh _ _ _ _ _ _ _ Hsignup Hok)
    as [Hfresh [hashed Hhash]].
  rewrite (signup_fresh _ _ _ _ _ _ Hfresh Hhash) in Hsignup.
  injection Hsignup as <- <-.
  set (newUser := literal _).
  assert (HnewEmail : newUser !! "email" = userData !! "email")
    by (unfold newUser; rewrite literal_lookup; reflexivity).
  assert (HnewPw : newUser !! "password" = Some hashed)
    by (unfold newUser; rewrite literal_lookup; reflexivity).
  assert (HnewId : newUser !! "_id" = Some (JStr _id))
    by (unfold newUser; rewrite literal_lookup; reflexivity).
  eexists (delete "password" newUser), _, _.
  split; [reflexivity |].
  split; [by rewrite lookup_delete_ne |].
  unfold mockAuthAPI.login, js_bind, getUsers, lift. simpl.
  rewrite Hemail.
  rewrite (find_snoc _ _ newUser Hfresh) by (rewrite HnewEmail; apply strict_eq_refl).
  rewrite Hpw, HnewPw, (verifyPassword_hash _ _ Hhash). simpl.
  repeat split; reflexivity.
Qed.

Lemma signup_then_login_witness :
  exists user e' ls'',
    data (ok_data (PAuth "k1" (delete "password" ada_record)))
      = Some (PAuth "k1" user) /\
    user !! "_id" = Some (JStr "u1") /\
    mockAuthAPI.login ada "k2" ada_store = (Return e', ls'') /\
    success e' = true /\
    data e' = Some (PAuth "k2" user) /\
    mock_currentUser ls'' = Some user.
Proof.
  apply (signup_then_login empty_storage ada_store ada ada
           "u1" "2024-01-01T00:00:00.000Z" "k1" "k2").
  - vm_compute. reflexivity.
  - reflexivity.
  - reflexivity.
  - reflexivity.
Defined.

(** With a current user, the callbacks that read [user._id] do not throw. *)
Lemma filterM_owned (user : obj) (tasks : list obj) :
  filterM (fun t =>
    completion_bind (prop (Some user) "_id") (fun uid =>
    Return (strict_eq (t !! "userId") uid))) tasks
  = Return (List.filter (owned_by user) tasks).
Proof.
  induction tasks as [|t r IH]; [done |].
  cbn [filterM]. rewrite IH. simpl. unfold owned_by. by destruct (strict_eq _ _).
Qed.

Lemma count_status_cons (s : string) (t : obj) (r : list obj) :
  mockTaskAPI.count_status s (t :: r) =
    (if strict_eq (t !! "status") (Some (JStr s)) then 1 else 0)
    + mockTaskAPI.count_status s r.
Proof.
  unfold mockTaskAPI.count_status. simpl. by destruct (strict_eq _ _).
Qed.

Lemma status_buckets (t : obj) :
  let b s := if strict_eq (t !! "status") (Some (JStr s)) then 1 else 0 in
  (known_status t /\ b "pending" + b "in-progress" + b "completed" = 1) \/
  (~ known_status t /\ b "pending" + b "in-progress" + b "completed" = 0).
Proof.
  unfold known_status, strict_eq. simpl.
  repeat case_bool_decide;
    first [ match goal with
            | H1 : ?x = Some _, H2 : ?x = Some _ |- _ =>
                rewrite H1 in H2; discriminate H2
            end
          | left; split; [tauto | reflexivity]
          | right; split; [tauto | reflexivity] ].
Qed.

Lemma count_status_sum (l : list obj) :
  let sum := mockTaskAPI.count_status "pending" l
             + mockTaskAPI.count_status "in-progress" l
             + mockTaskAPI.count_status "completed" l in
  sum <= length l /\ (sum = length l <-> Forall known_status l).
Proof.
  induction l as [|t r [IHle IHeq]].
  - split; [apply le_n | split; [constructor | reflexivity]].
  - cbn zeta in *. rewrite !count_status_cons. cbn [length].
    destruct (status_buckets t) as [[Hk Hb] | [Hk Hb]]; simpl in Hb.
    + split; [lia |]. rewrite Forall_cons. split.
      * intros H. split; [done | apply IHeq; lia].
      * intros [_ H]. apply IHeq in H. lia.
    + split; [lia |]. rewrite Forall_cons. split.
      * intros H. lia.
      * tauto.
Qed.

(** C7 as amended: with a current user, [getStats] succeeds, does not touch
    the store, and reports the number of that user's tasks together with the
    numbers of them that are pending, in progress and completed; the three
    counts never exceed the total, and they add up to the total exactly when
    every task of the user has one of those three statuses. *)
Theorem getStats_counts (ls : localStorage) (user : obj) :
  mock_currentUser ls = Some user ->
  let mine := List.filter (owned_by user) (default [] (mock_tasks ls)) in
  let pending := mockTaskAPI.count_status "pending" mine in
  let in_progress := mockTaskAPI.count_status "in-progress" mine in
  let completed := mockTaskAPI.count_status "completed" mine in
  mockTaskAPI.getStats ls =
    (Return (ok_data (PStats (length mine) pending in_progress completed)), ls) /\
  pending + in_progress + completed <= length mine /\
  (pending + in_progress + completed = length mine <-> Forall known_status mine).
Proof.
  intros Huser mine pending in_progress completed. split.
  - unfold mockTaskAPI.getStats, js_bind, getTasks, getCurrentUser, lift.
    simpl. rewrite Huser, filterM_owned. reflexivity.
  - apply count_status_sum.
Qed.

Lemma getStats_counts_witness :
  mockTaskAPI.getStats two_user_store =
    (Return (ok_data (PStats 3 1 1 1)), two_user_store) /\
  1 + 1 + 1 <= 3 /\
  (1 + 1 + 1 = 3 <->
   Forall known_status
     (List.filter (owned_by ada_session) (default [] (mock_tasks two_user_store)))).
Proof.
  apply (getStats_counts two_user_store ada_session).
  vm_compute. reflexivity.
Defined.

Lemma run_calls_reachable (allowed : call -> Prop) (cs : list call)
  (ls : localStorage) :
  Forall allowed cs -> reachable_by allowed ls ->
  reachable_by allowed (run_calls cs ls).
Proof.
  unfold run_calls. intros Hcs. revert ls.
  induction Hcs as [|c cs Hc _ IH]; intros ls Hls; simpl; [done |].
  apply IH. by constructor.
Qed.

Lemma run_calls_from_empty (cs : list call) :
  reachable (run_calls cs empty_storage).
Proof.
  apply run_calls_reachable; [| constructor].
  apply Forall_forall. done.
Qed.

(** The claim that the three counts of [getStats] add up to the total for
    every store fails: after Ada has created a task with status "done", the
    total is 1 and the three counts are 0. *)
Lemma stats_sum_counterexample :
  reachable done_store /\
  mock_currentUser done_store = Some ada_session /\
  mockTaskAPI.getStats done_store =
    (Return (ok_data (PStats 1 0 0 0)), done_store) /\
  ~ (forall ls user total pending in_progress completed,
       mock_currentUser ls = Some user ->
       (mockTaskAPI.getStats ls).1 =
         Return (ok_data (PStats total pending in_progress completed)) ->
       pending + in_progress + completed = total).
Proof.
  assert (H : mockTaskAPI.getStats done_store =
            (Return (ok_data (PStats 1 0 0 0)), done_store))
    by (vm_compute; reflexivity).
  split; [apply run_calls_from_empty |].
  split; [vm_compute; reflexivity |].
  split; [exact H |].
  intros Hclaim.
  assert (Hsum : 0 + 0 + 0 = 1); [| discriminate Hsum].
  apply (Hclaim done_store ada_session).
  - vm_compute. reflexivity.
  - by rewrite H.
Qed.

Lemma findM_no_session (id : option jsval) (tasks : list obj) :
  findM (mockTaskAPI.owned_with_id id None) tasks
  = if existsb (fun t => strict_eq (t !! "_id") id) tasks
    then Throw TypeError else Return None.
Proof.
  induction tasks as [|t r IH]; [done |].
  cbn [findM existsb]. unfold mockTaskAPI.owned_with_id at 1.
  destruct (strict_eq (t !! "_id") id); simpl; [done | exact IH].
Qed.

Lemma findIndexM_no_session (id : option jsval) (tasks : list obj) :
  findIndexM (mockTaskAPI.owned_with_id id None) tasks
  = if existsb (fun t => strict_eq (t !! "_id") id) tasks
    then Throw TypeError else Return None.
Proof.
  induction tasks as [|t r IH]; [done |].
  cbn [findIndexM existsb]. unfold mockTaskAPI.owned_with_id at 1.
  destruct (strict_eq (t !! "_id") id); simpl; [done |].
  rewrite IH. by destruct (existsb _ r).
Qed.

(** C2 at a store the API itself produces: after signup, create and logout
    there is no current user while a task is stored, and [getStats],
    [getOne], [update] and [delete] (the last three called with the
    identifier of the stored task) each end in a TypeError instead of an
    envelope.  In general, without a current user [getStats] throws as soon
    as any task is stored, and [getOne], [update] and [delete] throw as soon
    as a stored task has the identifier asked for; otherwise they answer
    "Task not found". *)
Theorem no_session_task_calls_throw :
  (reachable logged_out_store /\
   mock_currentUser logged_out_store = None /\
   mockTaskAPI.getStats logged_out_store = (Throw TypeError, logged_out_store) /\
   mockTaskAPI.getOne (Some (JStr "t1")) logged_out_store
     = (Throw TypeError, logged_out_store) /\
   mockTaskAPI.update (Some (JStr "t1")) ∅ "2024-01-03T00:00:00.000Z" logged_out_store
     = (Throw TypeError, logged_out_store) /\
   mockTaskAPI.delete (Some (JStr "t1")) logged_out_store
     = (Throw TypeError, logged_out_store)) /\
  (forall ls, mock_currentUser ls = None -> default [] (mock_tasks ls) <> [] ->
     mockTaskAPI.getStats ls = (Throw TypeError, ls)) /\
  (forall ls id taskData now, mock_currentUser ls = None ->
     let outcome :=
       if existsb (fun t => strict_eq (t !! "_id") id) (default [] (mock_tasks ls))
       then Throw TypeError else Return (failure "Task not found") in
     mockTaskAPI.getOne id ls = (outcome, ls) /\
     mockTaskAPI.update id taskData now ls = (outcome, ls) /\
     mockTaskAPI.delete id ls = (outcome, ls)).
Proof.
  split; [| split].
  - split; [apply run_calls_from_empty |].
    repeat split; vm_compute; reflexivity.
  - intros ls Hnone Htasks.
    unfold mockTaskAPI.getStats, js_bind, getTasks, getCurrentUser, lift. simpl.
    rewrite Hnone. by destruct (default [] (mock_tasks ls)).
  - intros ls id taskData now Hnone outcome. subst outcome.
    unfold mockTaskAPI.getOne, mockTaskAPI.update, mockTaskAPI.delete,
      js_bind, getTasks, getCurrentUser, lift. simpl.
    rewrite Hnone, findM_no_session, findIndexM_no_session.
    by destruct (existsb _ _).
Qed.

(** The claim that [create] rejects an empty title fails: with Ada logged
    in, [create] with an empty title succeeds and stores the task. *)
Lemma create_validation_counterexample :
  exists newTask ls',
    mockTaskAPI.create (literal [("title", Some (JStr ""))])
      "t1" "2024-01-01T08:00:00.000Z" "2024-01-01T08:00:00.000Z" ada_store
      = (Return (ok_data (PObj newTask)), ls') /\
    newTask !! "title" = Some (JStr "") /\
    mock_tasks ada_store = None /\
    mock_tasks ls' = Some [newTask].
Proof.
  eexists _, _. split; [vm_compute; reflexivity |].
  repeat split; vm_compute; reflexivity.
Qed.

Lemma validateForm_empty_iff (fd : formData) :
  validateForm fd = ∅ <->
  trim (title fd) <> [] /\
  length (title fd) <= 100 /\
  length (description fd) <= 500.
Proof.
  unfold validateForm.
  destruct (decide (trim (title fd) = [])) as [Htrim | Htrim].
  - rewrite (bool_decide_eq_true_2 _ Htrim).
    split; [| intros [? _]; congruence]. intros H. exfalso.
    destruct (_ && _); apply (f_equal (.!! "title")) in H;
      simplify_map_eq.
  - rewrite (bool_decide_eq_false_2 _ Htrim).
    destruct (Nat.ltb_spec 100 (length (title fd))) as [Hlong | Hshort].
    + split; [| intros (_ & ? & _); lia]. intros H. exfalso.
      destruct (_ && _); apply (f_equal (.!! "title")) in H;
        simplify_map_eq.
    + destruct (Nat.ltb_spec 500 (length (description fd))) as [Hd | Hd].
      * destruct (decide (description fd = [])) as [He | He].
        { rewrite He in Hd. simpl in Hd. lia. }
        rewrite (bool_decide_eq_false_2 _ He). simpl.
        split; [| intros (_ & _ & ?); lia]. intros H. exfalso.
        apply (f_equal (.!! "description")) in H. simplify_map_eq.
      * rewrite andb_false_r. split; [intros _; auto | done].
Qed.

(** C1 as amended: [create] checks nothing but the session.  Without a
    current user it answers "Not authenticated" and leaves the store alone.
    With one it always succeeds and appends exactly one task, which carries
    the generated identifier, the current user's [_id], the title as given,
    the status and priority as given or else "pending" and "medium", and the
    two clock readings as created and updated timestamps.  The limits on
    title and description are those of the Dashboard form: [validateForm]
    reports no error exactly when the trimmed title is not empty, the title
    has at most 100 characters and the description at most 500, and
    [handleSubmit] sends nothing and leaves the store alone when there is
    an error, and otherwise hands the form to [create]. *)
Theorem create_checks_session_only (ls : localStorage) (taskData : obj)
  (_id createdAt updatedAt : string) :
  match mock_currentUser ls with
  | None =>
      mockTaskAPI.create taskData _id createdAt updatedAt ls
        = (Return (failure "Not authenticated"), ls)
  | Some user =>
      exists newTask,
        mockTaskAPI.create taskData _id createdAt updatedAt ls
          = (Return (ok_data (PObj newTask)),
             mkStorage (mock_users ls)
               (Some (default [] (mock_tasks ls) ++ [newTask]))
               (mock_currentUser ls) (mock_token ls)) /\
        newTask !! "_id" = Some (JStr _id) /\
        newTask !! "userId" = user !! "_id" /\
        newTask !! "title" = taskData !! "title" /\
        newTask !! "status" =
          (if truthy (taskData !! "status") then taskData !! "status"
           else Some (JStr "pending")) /\
        newTask !! "priority" =
          (if truthy (taskData !! "priority") then taskData !! "priority"
           else Some (JStr "medium")) /\
        newTask !! "createdAt" = Some (JStr createdAt) /\
        newTask !! "updatedAt" = Some (JStr updatedAt)
  end /\
  forall (fd : formData) (editingTask : option obj),
    (validateForm fd = ∅ <->
       trim (title fd) <> [] /\
       length (title fd) <= 100 /\
       length (description fd) <= 500) /\
    (validateForm fd <> ∅ ->
       handleSubmit fd editingTask _id createdAt updatedAt ls
         = (FormErrors (validateForm fd), ls)) /\
    (validateForm fd = ∅ ->
       handleSubmit fd None _id createdAt updatedAt ls
         = (Sent (mockTaskAPI.create (form_object fd) _id createdAt updatedAt ls).1,
            (mockTaskAPI.create (form_object fd) _id createdAt updatedAt ls).2)).
Proof.
  split.
  - unfold mockTaskAPI.create, js_bind, getCurrentUser, getTasks.
    destruct (mock_currentUser ls) as [user |] eqn:Huser; simpl; [| done].
    rewrite Huser. eexists. split; [reflexivity |].
    rewrite !literal_lookup. repeat split; reflexivity.
  - intros fd editingTask. split; [apply validateForm_empty_iff |].
    unfold handleSubmit. split; intros H.
    + by rewrite bool_decide_eq_false_2.
    + by rewrite bool_decide_eq_true_2.
Qed.

Lemma owned_with_id_some (id : option jsval) (user t : obj) :
  mockTaskAPI.owned_with_id id (Some user) t = Return (owned_with_id_by id user t).
Proof.
  unfold mockTaskAPI.owned_with_id, owned_with_id_by, owned_by. simpl.
  by destruct (strict_eq (t !! "_id") id).
Qed.

Lemma findIndexM_owned (id : option jsval) (user : obj) (tasks : list obj) :
  findIndexM (mockTaskAPI.owned_with_id id (Some user)) tasks
  = Return (findIndex (owned_with_id_by id user) tasks).
Proof.
  induction tasks as [|t r IH]; [done |].
  cbn [findIndexM findIndex]. rewrite owned_with_id_some, IH. simpl.
  by destruct (owned_with_id_by id user t).
Qed.

Lemma list_alter_at {A} (f : A -> A) (i : nat) (l : list A) (x : A) :
  l !! i = Some x -> alter f i l = <[i := f x]> l.
Proof.
  revert i. induction l as [|y r IH]; intros [|i] H; simplify_eq/=; [done |].
  f_equal. by apply IH.
Qed.

(** C3 as amended: for the first stored task [t] that has the identifier
    asked for and belongs to the current user, [update] succeeds, replaces
    that task by the merge of the patch over it with the updated timestamp
    set to now, and returns the merged task.  Every property other than
    [updatedAt] is taken from the patch when the patch has it and from the
    task otherwise; so [userId] is unchanged when the patch has no [userId],
    and is overwritten by the patch when it has one. *)
Theorem update_merges_patch (ls : localStorage) (user t : obj)
  (id : option jsval) (taskData : obj) (now : string) (i : nat) :
  mock_currentUser ls = Some user ->
  findIndex (owned_with_id_by id user) (default [] (mock_tasks ls)) = Some i ->
  default [] (mock_tasks ls) !! i = Some t ->
  exists t',
    mockTaskAPI.update id taskData now ls =
      (Return (ok_data (PObj t')),
       mkStorage (mock_users ls) (Some (<[i := t']> (default [] (mock_tasks ls))))
         (mock_currentUser ls) (mock_token ls)) /\
    t' !! "updatedAt" = Some (JStr now) /\
    (forall k, k <> "updatedAt" ->
       t' !! k = match taskData !! k with Some v => Some v | None => t !! k end) /\
    (taskData !! "userId" = None -> t' !! "userId" = t !! "userId") /\
    (forall v, taskData !! "userId" = Some v -> t' !! "userId" = Some v).
Proof.
  intros Huser Hidx Ht.
  assert (Hmerge : forall k, k <> "updatedAt" ->
            (<["updatedAt" := JStr now]> (spread t taskData) : obj) !! k
            = match taskData !! k with Some v => Some v | None => t !! k end).
  { intros k Hk. rewrite lookup_insert_ne by done.
    unfold spread. rewrite lookup_union. by destruct (taskData !! k), (t !! k). }
  exists (<["updatedAt" := JStr now]> (spread t taskData)).
  split.
  { unfold mockTaskAPI.update, js_bind, getTasks, getCurrentUser, lift. simpl.
    rewrite Huser, findIndexM_owned, Hidx. simpl.
    rewrite (list_alter_at _ _ _ _ Ht).
    rewrite list_lookup_total_insert_eq by (by eapply lookup_lt_Some).
    unfold simulateDelay, js_ret. by rewrite Huser. }
  split; [apply lookup_insert_eq |].
  split; [exact Hmerge |].
  split.
  - intros Hnone. rewrite Hmerge by done. by rewrite Hnone.
  - intros v Hv. rewrite Hmerge by done. by rewrite Hv.
Qed.

Lemma update_merges_patch_witness :
  exists t',
    mockTaskAPI.update (Some (JStr "t1"))
      (literal [("status", Some (JStr "completed"))])
      "2024-01-05T00:00:00.000Z" ada_task_store =
      (Return (ok_data (PObj t')),
       mkStorage (mock_users ada_task_store)
         (Some (<[0 := t']> (default [] (mock_tasks ada_task_store))))
         (mock_currentUser ada_task_store) (mock_token ada_task_store)) /\
    t' !! "updatedAt" = Some (JStr "2024-01-05T00:00:00.000Z") /\
    (forall k, k <> "updatedAt" ->
       t' !! k = match literal [("status", Some (JStr "completed"))] !! k with
                 | Some v => Some v
                 | None => ada_task !! k
                 end) /\
    (literal [("status", Some (JStr "completed"))] !! "userId" = None ->
       t' !! "userId" = ada_task !! "userId") /\
    (forall v, literal [("status", Some (JStr "completed"))] !! "userId" = Some v ->
       t' !! "userId" = Some v).
Proof.
  apply (update_merges_patch ada_task_store ada_session ada_task).
  - vm_compute. reflexivity.
  - vm_compute. reflexivity.
  - vm_compute. reflexivity.
Defined.

(** The claim that [update] never changes [userId] fails: Ada's task is
    updated with a patch that names another user, the returned and stored
    task then belongs to "u2", and Ada's own list is empty afterwards. *)
Lemma update_userId_counterexample :
  exists t' ls',
    mock_currentUser ada_task_store = Some ada_session /\
    mock_tasks ada_task_store = Some [ada_task] /\
    ada_task !! "userId" = Some (JStr "u1") /\
    mockTaskAPI.update (Some (JStr "t1"))
      (literal [("userId", Some (JStr "u2"))])
      "2024-01-05T00:00:00.000Z" ada_task_store
      = (Return (ok_data (PObj t')), ls') /\
    t' !! "userId" = Some (JStr "u2") /\
    mock_tasks ls' = Some [t'] /\
    mockTaskAPI.getStats ls' = (Return (ok_data (PStats 0 0 0 0)), ls').
Proof.
  eexists _, _.
  split; [vm_compute; reflexivity |].
  split; [vm_compute; reflexivity |].
  split; [vm_compute; reflexivity |].
  split; [vm_compute; reflexivity |].
  repeat split; vm_compute; reflexivity.
Qed.

(** ** The session and the password *)

Section keeps.
Context {A B X : Type} (component : localStorage -> X).

Lemma keeps_ret (a : A) : keeps component (js_ret a).
Proof. intros ls. reflexivity. Qed.

Lemma keeps_lift (m : completion A) : keeps component (lift m).
Proof. intros ls. reflexivity. Qed.

Lemma keeps_bind (m : js A) (k : A -> js B) :
  keeps component m -> (forall a, keeps component (k a)) ->
  keeps component (js_bind m k).
Proof.
  intros Hm Hk ls. unfold js_bind.
  specialize (Hm ls). destruct (m ls) as [[a | e] ls1]; simpl in *.
  - by rewrite Hk.
  - done.
Qed.
End keeps.

(** Splits a [keeps] goal along the binds and branches of the code; the
    storage accessors at the leaves are settled by computation. *)
Ltac keeps_step :=
  first
    [ apply keeps_bind; [| intros ?]
    | match goal with
      | |- keeps _ (match ?x with _ => _ end) => destruct x
      end
    | intros ?; reflexivity ].

Ltac keeps_tac := repeat keeps_step.

Lemma task_or_read_call_keeps (c : call) :
  task_or_read_call c ->
  keeps mock_currentUser (run_call c) /\ keeps mock_users (run_call c).
Proof.
  destruct c; simpl; try done; intros _;
    unfold mockAuthAPI.getMe, mockTaskAPI.getAll, mockTaskAPI.getOne,
      mockTaskAPI.create, mockTaskAPI.update, mockTaskAPI.delete,
      mockTaskAPI.getStats;
    split; keeps_tac.
Qed.

Lemma changePassword_keeps_session passwordData :
  keeps mock_currentUser (mockAuthAPI.changePassword passwordData).
Proof. unfold mockAuthAPI.changePassword. keeps_tac. Qed.

(** What [signup], [login] and [updateProfile] answer and leave as current
    user. *)
Lemma signup_outcome (userData : obj) (_id createdAt token : string)
  (ls : localStorage) :
  let r := mockAuthAPI.signup userData _id createdAt token ls in
  (r = (Return (failure "Email already registered"), ls)) \/
  (exists x, r = (Throw x, ls)) \/
  (exists newUser,
     r.1 = Return (ok_data (PAuth token (delete "password" newUser))) /\
     mock_currentUser r.2 = Some (delete "password" newUser)).
Proof.
  unfold mockAuthAPI.signup, js_bind, getUsers, lift. simpl.
  destruct (find _ _); [by left |]. right.
  destruct (hashPassword _) as [hashed | x]; simpl; [right | left; by exists x].
  eexists. split; reflexivity.
Qed.

Lemma login_outcome (credentials : obj) (token : string) (ls : localStorage) :
  let r := mockAuthAPI.login credentials token ls in
  (r = (Return (failure "Invalid email or password"), ls)) \/
  (exists x, r = (Throw x, ls)) \/
  (exists user,
     r.1 = Return (ok_data (PAuth token (delete "password" user))) /\
     mock_currentUser r.2 = Some (delete "password" user)).
Proof.
  unfold mockAuthAPI.login, js_bind, getUsers, lift. simpl.
  destruct (find _ _) as [user |]; [| by left].
  destruct (verifyPassword _ _) as [[] | x]; simpl;
    [right; right | by left | right; left; by exists x].
  eexists. split; reflexivity.
Qed.

Lemma updateProfile_outcome (userData : obj) (ls : localStorage) :
  let r := mockAuthAPI.updateProfile userData ls in
  match mock_currentUser ls with
  | None => r = (Return (failure "Not authenticated"), ls)
  | Some user =>
      r.1 = Return (ok_data (PObj (spread user userData))) /\
      mock_currentUser r.2 = Some (spread user userData)
  end.
Proof.
  unfold mockAuthAPI.updateProfile, js_bind, getCurrentUser, getUsers. simpl.
  destruct (mock_currentUser ls) as [user |]; [| done]. simpl.
  destruct (findIndex _ _); split; reflexivity.
Qed.

Lemma spread_without_password (user userData : obj) :
  user !! "password" = None -> userData !! "password" = None ->
  spread user userData !! "password" = None.
Proof.
  intros Hu Hd. unfold spread. rewrite lookup_union, Hu, Hd. reflexivity.
Qed.

Lemma call_keeps_password_out (c : call) (ls : localStorage) :
  keeps_password_out c -> session_without_password ls ->
  session_without_password (run_call c ls).2.
Proof.
  intros Hc Hls user.
  pose proof (task_or_read_call_keeps c) as Hidle.
  destruct c; try (rewrite (proj1 (Hidle I)); by apply Hls); clear Hidle;
    simpl in *.
  - destruct (signup_outcome userData _id createdAt token ls)
      as [-> | [[x ->] | (u & _ & ->)]].
    + apply Hls.
    + apply Hls.
    + intros [= <-]. apply lookup_delete_eq.
  - destruct (login_outcome credentials token ls)
      as [-> | [[x ->] | (u & _ & ->)]].
    + apply Hls.
    + apply Hls.
    + intros [= <-]. apply lookup_delete_eq.
  - pose proof (updateProfile_outcome userData ls) as H. simpl in H.
    destruct (mock_currentUser ls) as [u |] eqn:Hu.
    + destruct H as [_ ->]. intros [= <-].
      apply spread_without_password; [by apply Hls | done].
    + rewrite H. simpl. by rewrite Hu.
  - rewrite changePassword_keeps_session. apply Hls.
  - unfold mockAuthAPI.deleteAccount, js_bind, getCurrentUser. simpl.
    destruct (mock_currentUser ls) eqn:Hu; simpl; [done | by rewrite Hu].
  - done.
Qed.

Lemma reachable_session_without_password (ls : localStorage) :
  reachable_by keeps_password_out ls -> session_without_password ls.
Proof.
  induction 1 as [| ls c _ IH Hc]; [done |].
  by apply call_keeps_password_out.
Qed.

(** X29: [signup] and [login] never return a [password] property, in any
    store and for any input.  [getMe] and [updateProfile] return the
    session's copy of the user; their answer has no [password] property in
    every store reached by calls whose profile patches have none, when the
    patch of the call itself has none. *)
Theorem returned_user_without_password (c : call) (ls : localStorage)
  (e : envelope) (u : obj) :
  returns_user c ->
  (run_call c ls).1 = Return e ->
  returned_user e = Some u ->
  (match c with
   | Signup _ _ _ _ | Login _ _ => True
   | _ => reachable_by keeps_password_out ls /\ keeps_password_out c
   end) ->
  u !! "password" = None.
Proof.
  intros Hc Hrun Hu Hpre.
  destruct c; simpl in Hc; try done; simpl in Hrun.
  - destruct (signup_outcome userData _id createdAt token ls)
      as [H | [[x H] | (n & H & _)]];
      rewrite H in Hrun; unfold returned_user in *; simplify_eq/=.
    apply lookup_delete_eq.
  - destruct (login_outcome credentials token ls)
      as [H | [[x H] | (n & H & _)]];
      rewrite H in Hrun; unfold returned_user in *; simplify_eq/=.
    apply lookup_delete_eq.
  - destruct Hpre as [Hreach _].
    apply reachable_session_without_password in Hreach.
    unfold mockAuthAPI.getMe, js_bind, getCurrentUser in Hrun. simpl in Hrun.
    destruct (mock_currentUser ls) as [user |] eqn:Huser; unfold returned_user in *; simplify_eq/=.
    by apply Hreach.
  - destruct Hpre as [Hreach Hpatch]. simpl in Hpatch.
    apply reachable_session_without_password in Hreach.
    pose proof (updateProfile_outcome userData ls) as H. simpl in H.
    destruct (mock_currentUser ls) as [user |] eqn:Huser.
    + destruct H as [H _]. rewrite H in Hrun. unfold returned_user in *; simplify_eq/=.
      apply spread_without_password; [by apply Hreach | done].
    + rewrite H in Hrun. unfold returned_user in *; simplify_eq/=.
Qed.

Lemma returned_user_without_password_witness :
  spread ada_session (literal [("name", Some (JStr "Ada Lovelace"))]) !! "password"
  = None.
Proof.
  apply (returned_user_without_password
           (UpdateProfile (literal [("name", Some (JStr "Ada Lovelace"))]))
           ada_store
           (ok_data (PObj (spread ada_session
                             (literal [("name", Some (JStr "Ada Lovelace"))]))))).
  - exact I.
  - vm_compute. reflexivity.
  - reflexivity.
  - split.
    + apply run_calls_reachable; [| constructor].
      repeat constructor.
    + vm_compute. reflexivity.
Defined.

(** C4: the returned user is meant to be free of the credential: [signup]
    and [login] strip [password] from the user they return, and credentials
    are stored only as [hashPassword] makes them.  [updateProfile] does
    neither.  It merges its patch as it is into the session user, which it
    returns, and into the stored record: in every store with a current
    user, a patch with a [password] comes back with it, from [updateProfile]
    and from [getMe] afterwards.  After Ada's signup, [updateProfile] with
    the patch [{password: 'letmein'}] returns a user with that password, the
    stored credential is the plain text, and from then on no login succeeds,
    neither with the new password nor with the old one, and [changePassword]
    with the old password is refused. *)
Theorem updateProfile_exposes_password :
  (forall (ls : localStorage) (user userData : obj) (p : jsval),
     mock_currentUser ls = Some user ->
     userData !! "password" = Some p ->
     exists u ls',
       mockAuthAPI.updateProfile userData ls = (Return (ok_data (PObj u)), ls') /\
       u !! "password" = Some p /\
       mockAuthAPI.getMe ls' = (Return (ok_data (PObj u)), ls')) /\
  let patch := literal [("password", Some (JStr "letmein"))] in
  exists u stored ls',
    reachable ada_store /\
    mockAuthAPI.updateProfile patch ada_store = (Return (ok_data (PObj u)), ls') /\
    u !! "password" = Some (JStr "letmein") /\
    mock_users ls' = Some [stored] /\
    stored !! "password" = Some (JStr "letmein") /\
    mockAuthAPI.getMe ls' = (Return (ok_data (PObj u)), ls') /\
    mockAuthAPI.login
      (literal [("email", Some (JStr "ada@x.com"));
                ("password", Some (JStr "letmein"))]) "k2" ls'
      = (Return (failure "Invalid email or password"), ls') /\
    mockAuthAPI.login ada "k2" ls'
      = (Return (failure "Invalid email or password"), ls') /\
    mockAuthAPI.changePassword
      (literal [("currentPassword", Some (JStr "secret1"));
                ("newPassword", Some (JStr "hunter22"))]) ls'
      = (Return (failure "Current password is incorrect"), ls').
Proof.
  split.
  - intros ls user userData p Huser Hp.
    pose proof (updateProfile_outcome userData ls) as H. simpl in H.
    rewrite Huser in H. destruct H as [Hret Hsession].
    destruct (mockAuthAPI.updateProfile userData ls) as [r ls'] eqn:Hrun.
    simpl in *. subst r.
    eexists _, _. split; [reflexivity |]. split.
    + unfold spread. by rewrite lookup_union, Hp, union_Some_l.
    + unfold mockAuthAPI.getMe, js_bind, getCurrentUser. simpl.
      by rewrite Hsession.
  - cbn zeta. eexists _, _, _.
    split; [apply run_calls_from_empty |].
    split; [vm_compute; reflexivity |].
    repeat split; vm_compute; reflexivity.
Qed.

(** ** The session user has a stored record *)

Lemma findIndex_lookup {A} (p : A -> bool) (l : list A) (i : nat) :
  findIndex p l = Some i -> exists x, l !! i = Some x /\ p x = true.
Proof.
  revert i. induction l as [|y r IH]; intros i; simpl; [done |].
  destruct (p y) eqn:Hy.
  - intros [= <-]. eauto.
  - destruct (findIndex p r) as [j |]; simpl; [| done].
    intros [= <-]. by apply IH.
Qed.

Lemma findIndex_of_elem {A} (p : A -> bool) (l : list A) (x : A) :
  x ∈ l -> p x = true -> is_Some (findIndex p l).
Proof.
  induction 1 as [x r | x y r _ IH]; simpl; intros Hx.
  - rewrite Hx. eauto.
  - destruct (p y); [eauto |]. destruct (IH Hx) as [j ->]. simpl. eauto.
Qed.

Lemma stored_record_of_session (ls : localStorage) (user : obj) :
  session_stored ls -> mock_currentUser ls = Some user ->
  exists i u,
    findIndex (fun u => strict_eq (u !! "_id") (user !! "_id"))
      (default [] (mock_users ls)) = Some i /\
    default [] (mock_users ls) !! i = Some u /\
    stored_record user ls = Some u /\
    u !! "_id" = user !! "_id".
Proof.
  intros Hstored Huser. specialize (Hstored user Huser).
  apply list_elem_of_fmap in Hstored as (u & Hid & Hu).
  destruct (findIndex_of_elem
    (fun u => strict_eq (u !! "_id") (user !! "_id")) _ u Hu) as [i Hi].
  { rewrite Hid. apply strict_eq_refl. }
  destruct (findIndex_lookup _ _ _ Hi) as (v & Hv & Hpv).
  exists i, v. split; [done |]. split; [done |].
  split; [| by apply strict_eq_true].
  unfold stored_record. rewrite Hi. exact Hv.
Qed.

Lemma alter_keeps_ids (f : obj -> obj) (i : nat) (users : list obj) :
  (forall u, f u !! "_id" = u !! "_id") ->
  (fun u : obj => u !! "_id") <$> alter f i users
  = (fun u : obj => u !! "_id") <$> users.
Proof.
  intros Hf. revert i.
  induction users as [|u r IH]; intros [|i]; [done | done | |].
  - cbn. by rewrite Hf.
  - cbn. f_equal. apply IH.
Qed.

Lemma signup_keeps_session_stored userData _id createdAt token ls :
  session_stored ls ->
  session_stored (mockAuthAPI.signup userData _id createdAt token ls).2.
Proof.
  intros Hls. unfold mockAuthAPI.signup, js_bind, getUsers, lift. simpl.
  destruct (find _ _); simpl; [done |].
  destruct (hashPassword _) as [hashed |]; simpl; [| done].
  intros user [= <-]. simpl.
  rewrite lookup_delete_ne by done.
  apply list_elem_of_fmap. eexists. split; [reflexivity |].
  apply elem_of_app. right. left.
Qed.

Lemma login_keeps_session_stored credentials token ls :
  session_stored ls ->
  session_stored (mockAuthAPI.login credentials token ls).2.
Proof.
  intros Hls. unfold mockAuthAPI.login, js_bind, getUsers, lift. simpl.
  destruct (find _ _) as [u |] eqn:Hfind; simpl; [| done].
  destruct (verifyPassword _ _) as [[] |]; simpl; [| done | done].
  intros user [= <-]. simpl.
  rewrite lookup_delete_ne by done.
  apply list_elem_of_fmap. exists u. split; [done |].
  apply find_some in Hfind as [Hin _]. by apply list_elem_of_In.
Qed.

Lemma updateProfile_keeps_session_stored userData ls :
  session_stored ls ->
  session_stored (mockAuthAPI.updateProfile userData ls).2.
Proof.
  intros Hls. unfold mockAuthAPI.updateProfile, js_bind, getCurrentUser. simpl.
  destruct (mock_currentUser ls) as [user |] eqn:Huser; simpl; [| done].
  destruct (stored_record_of_session ls user Hls Huser) as (i & u & Hi & Hu & _ & Hid).
  unfold getUsers. simpl. rewrite Hi. simpl.
  intros user' [= <-]. simpl.
  apply list_elem_of_fmap. exists (spread u userData). split.
  - unfold spread. rewrite !lookup_union, Hid. reflexivity.
  - apply list_elem_of_lookup. exists i.
    rewrite list_lookup_alter_eq, Hu. reflexivity.
Qed.

Lemma changePassword_keeps_session_stored passwordData ls :
  session_stored ls ->
  session_stored (mockAuthAPI.changePassword passwordData ls).2.
Proof.
  intros Hls user. rewrite changePassword_keeps_session. intros Huser.
  specialize (Hls user Huser).
  unfold mockAuthAPI.changePassword, js_bind, getCurrentUser, getUsers, lift.
  simpl. rewrite Huser. simpl.
  destruct (findIndex _ _) as [i |]; simpl; [| done].
  destruct (verifyPassword _ _) as [[] |]; simpl; [| done | done].
  destruct (hashPassword _) as [hashed |]; simpl; [| done].
  rewrite alter_keeps_ids; [done |].
  intros u. by rewrite lookup_insert_ne.
Qed.

Lemma call_keeps_session_stored (c : call) (ls : localStorage) :
  session_stored ls -> session_stored (run_call c ls).2.
Proof.
  intros Hls.
  pose proof (task_or_read_call_keeps c) as Hidle.
  destruct c;
    try (intros user; destruct (Hidle I) as [Hs Hu]; rewrite Hs, Hu; by apply Hls);
    clear Hidle; simpl.
  - by apply signup_keeps_session_stored.
  - by apply login_keeps_session_stored.
  - by apply updateProfile_keeps_session_stored.
  - by apply changePassword_keeps_session_stored.
  - unfold mockAuthAPI.deleteAccount, js_bind, getCurrentUser. simpl.
    destruct (mock_currentUser ls) eqn:Hu; simpl; [done | done].
  - done.
Qed.

Lemma reachable_session_stored (ls : localStorage) :
  reachable ls -> session_stored ls.
Proof.
  induction 1 as [| ls c _ IH _]; [done |].
  by apply call_keeps_session_stored.
Qed.

(** C6 as amended: let [u] be the stored record of the current user (the
    record that [changePassword] works on; every store the API produces has
    one, see [reachable_session_stored]).  A [changePassword] whose
    [currentPassword] can be encoded and does not match the credential of
    [u] answers with the unsuccessful envelope "Current password is
    incorrect" and leaves the store, and so the credential of [u], as it
    was.  A login with a password that matches that credential then
    succeeds and returns that user, whenever the record that [login] finds
    for its email is [u] (the first stored user with that email). *)
Theorem changePassword_wrong_current (ls : localStorage) (user u : obj)
  (passwordData : obj) :
  mock_currentUser ls = Some user ->
  stored_record user ls = Some u ->
  verifyPassword (passwordData !! "currentPassword") (u !! "password")
    = Return false ->
  exists e ls',
    mockAuthAPI.changePassword passwordData ls = (Return e, ls') /\
    success e = false /\
    message e = Some "Current password is incorrect" /\
    ls' = ls /\
    stored_record user ls' = Some u /\
    forall (credentials : obj) (token : string),
      find (fun v => strict_eq (v !! "email") (credentials !! "email"))
        (default [] (mock_users ls)) = Some u ->
      verifyPassword (credentials !! "password") (u !! "password") = Return true ->
      exists e2 ls2,
        mockAuthAPI.login credentials token ls' = (Return e2, ls2) /\
        success e2 = true /\
        data e2 = Some (PAuth token (delete "password" u)) /\
        mock_currentUser ls2 = Some (delete "password" u).
Proof.
  intros Huser Hrec Hwrong.
  assert (exists i,
    findIndex (fun v => strict_eq (v !! "_id") (user !! "_id"))
      (default [] (mock_users ls)) = Some i /\
    default [] (mock_users ls) !! i = Some u) as (i & Hidx & Hu).
  { unfold stored_record in Hrec.
    destruct (findIndex _ _) as [i |]; [| done]. by exists i. }
  exists (failure "Current password is incorrect"), ls.
  split.
  { unfold mockAuthAPI.changePassword, js_bind, getCurrentUser, getUsers, lift.
    simpl. rewrite Huser, Hidx, Hu. simpl. by rewrite Hwrong. }
  repeat split; [done |].
  intros credentials token Hfind Hmatch.
  eexists _, _.
  unfold mockAuthAPI.login, js_bind, getUsers, lift. simpl.
  rewrite Hfind, Hmatch. simpl. repeat split; reflexivity.
Qed.

Lemma changePassword_wrong_current_witness :
  exists e ls',
    mockAuthAPI.changePassword
      (literal [("currentPassword", Some (JStr "guess"));
                ("newPassword", Some (JStr "hunter22"))]) ada_store
      = (Return e, ls') /\
    success e = false /\
    message e = Some "Current password is incorrect" /\
    ls' = ada_store /\
    stored_record ada_session ls' = Some ada_record /\
    exists e2 ls2,
      mockAuthAPI.login ada "k2" ls' = (Return e2, ls2) /\
      success e2 = true /\
      data e2 = Some (PAuth "k2" (delete "password" ada_record)) /\
      mock_currentUser ls2 = Some (delete "password" ada_record).
Proof.
  destruct (changePassword_wrong_current ada_store ada_session ada_record
              (literal [("currentPassword", Some (JStr "guess"));
                        ("newPassword", Some (JStr "hunter22"))]))
    as (e & ls' & Hcall & Hfail & Hmessage & Hsame & Hrec & Hlogin).
  - vm_compute. reflexivity.
  - vm_compute. reflexivity.
  - vm_compute. reflexivity.
  - exists e, ls'. do 5 (split; [assumption |]).
    apply (Hlogin ada "k2").
    + vm_compute. reflexivity.
    + vm_compute. reflexivity.
Defined.

Lemma find_other_email (email : option jsval) (v : jsval) (users : list obj) :
  Forall (fun u : obj => u !! "email" = Some v) users ->
  email <> Some v ->
  find (fun u => strict_eq (u !! "email") email) users = None.
Proof.
  intros Hall Hne. unfold find.
  induction Hall as [|u r Hu _ IH]; [done |]. simpl.
  rewrite Hu. unfold strict_eq at 1.
  by rewrite bool_decide_eq_false_2.
Qed.

Lemma login_unknown_email (credentials : obj) (token : string)
  (ls : localStorage) :
  find (fun u => strict_eq (u !! "email") (credentials !! "email"))
    (default [] (mock_users ls)) = None ->
  mockAuthAPI.login credentials token ls
  = (Return (failure "Invalid email or password"), ls).
Proof.
  intros Hfind. unfold mockAuthAPI.login, js_bind, getUsers. simpl.
  by rewrite Hfind.
Qed.

(** The claim that after a refused [changePassword] a login with the old
    password always succeeds fails.  Bob and Ada sign up, and Ada takes Bob's
    email with [updateProfile], which does not look at the other users.  A
    [changePassword] with a wrong current password is refused and changes
    nothing, but no login with Ada's password succeeds any more, whatever
    the email: under the email that both records now carry [login] finds
    Bob's record first, and no record has another email. *)
Lemma changePassword_login_counterexample :
  ~ (forall (ls : localStorage) (user u : obj) (passwordData : obj)
            (old : option jsval) (token : string),
       reachable ls ->
       mock_currentUser ls = Some user ->
       stored_record user ls = Some u ->
       verifyPassword (passwordData !! "currentPassword") (u !! "password")
         = Return false ->
       verifyPassword old (u !! "password") = Return true ->
       exists e ls',
         mockAuthAPI.changePassword passwordData ls = (Return e, ls') /\
         success e = false /\
         stored_record user ls' = Some u /\
         exists (email : option jsval) e2 ls2,
           mockAuthAPI.login
             (literal [("email", email); ("password", old)]) token ls'
             = (Return e2, ls2) /\
           success e2 = true).
Proof.
  intros Hclaim.
  destruct (Hclaim shared_email_store
              (spread ada_session (literal [("email", Some (JStr "bob@x.com"))]))
              (spread ada_record (literal [("email", Some (JStr "bob@x.com"))]))
              (literal [("currentPassword", Some (JStr "guess"));
                        ("newPassword", Some (JStr "hunter22"))])
              (Some (JStr "secret1")) "k9")
    as (e & ls' & Hcall & _ & _ & email & e2 & ls2 & Hlogin & Hok).
  - apply run_calls_from_empty.
  - vm_compute. reflexivity.
  - vm_compute. reflexivity.
  - vm_compute. reflexivity.
  - vm_compute. reflexivity.
  - assert (ls' = shared_email_store) as ->
      by (vm_compute in Hcall; by injection Hcall as <- <-).
    destruct (decide (email = Some (JStr "bob@x.com"))) as [-> | Hne].
    + vm_compute in Hlogin. injection Hlogin as <- <-. discriminate Hok.
    + rewrite login_unknown_email in Hlogin.
      * injection Hlogin as <- <-. discriminate Hok.
      * assert (Hemail :
          literal [("email", email); ("password", Some (JStr "secret1"))]
            !! "email" = email) by (rewrite literal_lookup; reflexivity).
        rewrite Hemail.
        apply (find_other_email email (JStr "bob@x.com")); [| done].
        assert (H : forallb (fun u : obj =>
                      bool_decide (u !! "email" = Some (JStr "bob@x.com")))
                    (default [] (mock_users shared_email_store)) = true)
          by (vm_compute; reflexivity).
        rewrite forallb_forall in H.
        apply Forall_forall. intros u Hu%list_elem_of_In.
        apply H in Hu. by apply bool_decide_eq_true in Hu.
Qed.

(** A current password with a code unit above 255 (here the euro sign) is
    outside the amended claim: [btoa] throws and so does [changePassword],
    leaving the store as it was. *)
Example changePassword_euro :
  mockAuthAPI.changePassword
    (literal [("currentPassword", Some (JStr [8364%N]));
              ("newPassword", Some (JStr "hunter22"))]) ada_store
  = (Throw InvalidCharacterError, ada_store).
Proof. vm_compute. reflexivity. Qed.

(** ** Sorting *)

Section sort_by.
Context {A : Type} (le : A -> A -> bool) (P : A -> Prop).
Hypothesis le_total : forall a b, P a -> P b -> le a b = false -> le b a = true.
Hypothesis le_trans : forall a b c, P a -> P b -> P c ->
  le a b = true -> le b c = true -> le a c = true.

Lemma insert_by_perm (x : A) (l : list A) :
  Permutation (insert_by le x l) (x :: l).
Proof.
  induction l as [|y r IH]; simpl; [done |].
  destruct (le x y); [done |].
  rewrite IH. apply perm_swap.
Qed.

Lemma sort_by_perm (l : list A) : Permutation (sort_by le l) l.
Proof.
  induction l as [|x r IH]; simpl; [done |].
  rewrite insert_by_perm. by constructor.
Qed.

Lemma insert_by_sorted (x : A) (l : list A) :
  P x -> Forall P l ->
  StronglySorted (fun a b => le a b = true) l ->
  StronglySorted (fun a b => le a b = true) (insert_by le x l).
Proof.
  intros Hx HP Hs.
  induction Hs as [|y r Hs IH Hy]; simpl.
  - repeat constructor.
  - apply Forall_cons in HP as [HPy HPr].
    destruct (le x y) eqn:Hxy.
    + constructor; [by constructor |].
      constructor; [done |].
      rewrite Forall_forall in Hy, HPr. apply Forall_forall.
      intros z Hz. apply (le_trans x y z); auto.
    + constructor; [by apply IH |].
      rewrite (insert_by_perm x r).
      constructor; [by apply le_total | done].
Qed.

Lemma sort_by_sorted (l : list A) :
  Forall P l -> StronglySorted (fun a b => le a b = true) (sort_by le l).
Proof.
  induction 1 as [|x r Hx Hr IH]; simpl; [constructor |].
  apply insert_by_sorted; [done | by rewrite sort_by_perm | done].
Qed.
End sort_by.

Lemma insertM_pure {A} (cmp : A -> A -> completion (option Z))
  (c : A -> A -> option Z) (x : A) (l : list A) :
  (forall y, y ∈ l -> cmp x y = Return (c x y)) ->
  insertM cmp x l = Return (insert_by (fun a b => goes_before (c a b)) x l).
Proof.
  induction l as [|y r IH]; intros Hc; simpl; [done |].
  rewrite (Hc y) by left. simpl.
  destruct (goes_before (c x y)); [done |].
  rewrite IH; [done |]. intros z Hz. apply Hc. by right.
Qed.

Lemma sortM_pure {A} (cmp : A -> A -> completion (option Z))
  (c : A -> A -> option Z) (l : list A) :
  (forall x y, x ∈ l -> y ∈ l -> cmp x y = Return (c x y)) ->
  sortM cmp l = Return (sort_by (fun a b => goes_before (c a b)) l).
Proof.
  induction l as [|x r IH]; intros Hc; simpl; [done |].
  rewrite IH by (intros; apply Hc; by right). simpl.
  apply insertM_pure. intros y Hy. apply Hc; [left |].
  right. by rewrite <- (sort_by_perm (fun a b => goes_before (c a b)) r).
Qed.

Lemma StronglySorted_weaken {A} (P : A -> Prop) (R R' : A -> A -> Prop)
  (l : list A) :
  Forall P l -> (forall a b, P a -> P b -> R a b -> R' a b) ->
  StronglySorted R l -> StronglySorted R' l.
Proof.
  intros HP Himp Hs. induction Hs as [|x r Hs IH Hx]; [constructor |].
  apply Forall_cons in HP as [HPx HPr].
  constructor; [by apply IH |].
  rewrite Forall_forall in Hx, HPr. apply Forall_forall.
  intros y Hy. apply Himp; auto.
Qed.

(** ** The list operation *)

(** [includes] is the substring test, and the search compares lower-cased
    texts. *)
Lemma starts_with_spec (s sub : jstring) :
  starts_with s sub = true <-> exists c, s = sub ++ c.
Proof.
  revert s. induction sub as [|x sub IH]; intros [|y s]; simpl.
  - split; [by exists [] | done].
  - split; [by exists (y :: s) | done].
  - split; [done |]. by intros [c Hc].
  - rewrite andb_true_iff, N.eqb_eq, IH. split.
    + intros [-> [c ->]]. by exists c.
    + intros [c [= -> ->]]. split; [done | by exists c].
Qed.

(** [includes] finds the substrings. *)
Lemma includes_spec (s sub : jstring) :
  includes s sub = true <-> exists pre post, s = pre ++ sub ++ post.
Proof.
  induction s as [|x s IH]; cbn [includes].
  - rewrite orb_false_r, starts_with_spec. split.
    + intros [c Hc]. by exists [], c.
    + intros (pre & post & H). destruct pre; [by exists post | done].
  - rewrite orb_true_iff, starts_with_spec, IH. split.
    + intros [[c Hc] | (pre & post & H)].
      * by exists [], c.
      * exists (x :: pre), post. by rewrite H.
    + intros (pre & post & H). destruct pre as [|y pre].
      * left. by exists post.
      * right. exists pre, post. by injection H.
Qed.

Example search_ignores_case :
  toLowerCase example_host "Write SPEC" = toLowerCase example_host "wRITE spec" /\
  includes (toLowerCase example_host "Old SPEC drafts")
    (toLowerCase example_host "Spec") = true.
Proof. split; reflexivity. Qed.

Lemma filter_filter_andb {A} (p q : A -> bool) (l : list A) :
  List.filter q (List.filter p l) = List.filter (fun x => p x && q x) l.
Proof.
  induction l as [|x r IH]; simpl; [done |].
  destruct (p x); simpl; [destruct (q x) |]; by rewrite IH.
Qed.

Lemma filter_all {A} (l : list A) : List.filter (fun _ => true) l = l.
Proof. induction l as [|x r IH]; simpl; [done | by rewrite IH]. Qed.

Lemma filter_stage (v : option jsval) (f : obj -> bool) (l : list obj) :
  (if truthy v && negb (strict_eq v (Some (JStr "all")))
   then List.filter f l else l)
  = List.filter (fun t => filter_skipped v || f t) l.
Proof.
  unfold filter_skipped.
  destruct (truthy v); simpl; [| by rewrite filter_all].
  destruct (strict_eq v _); simpl; [by rewrite filter_all | done].
Qed.

Lemma filterM_pure {A} (p : A -> completion bool) (q : A -> bool) (l : list A) :
  (forall x, x ∈ l -> p x = Return (q x)) ->
  filterM p l = Return (List.filter q l).
Proof.
  induction l as [|x r IH]; intros Hp; [done |].
  cbn [filterM List.filter]. rewrite (Hp x) by left.
  rewrite IH by (intros; apply Hp; by right). simpl.
  by destruct (q x).
Qed.

Lemma truthy_string (s : jstring) : truthy (Some (JStr s)) = true <-> s <> [].
Proof.
  simpl. rewrite negb_true_iff. apply bool_decide_eq_false.
Qed.

Lemma matches_search_pure (h : host) (params t : obj) (s : jstring) :
  params !! "search" = Some (JStr s) -> s <> [] -> task_shape h params t ->
  mockTaskAPI.matches_search h (toLowerCase h s) t
  = Return (passes_search h params t).
Proof.
  intros Hs Hne [Hti Hd _ _].
  assert (Htr : truthy (params !! "search") = true)
    by (rewrite Hs; by apply truthy_string).
  destruct (Hti (or_introl Htr)) as [ti Htitle].
  specialize (Hd Htr).
  unfold mockTaskAPI.matches_search, passes_search.
  rewrite Hs, Htitle. cbn [call_toLowerCase completion_bind text truthy].
  rewrite (bool_decide_eq_false_2 _ Hne). cbn [negb orb].
  destruct (includes (toLowerCase h ti) (toLowerCase h s)); [done |].
  cbn [orb].
  destruct (truthy (t !! "description")) eqn:Hdt; [| done].
  destruct (Hd eq_refl) as [d Hdes]. rewrite Hdes. reflexivity.
Qed.

Lemma js_bind_lift_return {A B} (a : A) (k : A -> js B) :
  js_bind (lift (Return a)) k = k a.
Proof. reflexivity. Qed.

Lemma search_stage (h : host) (params : obj) (l : list obj) :
  search_shape params -> Forall (task_shape h params) l ->
  (if truthy (params !! "search") then
     let* searchLower := lift (call_toLowerCase h (params !! "search")) in
     lift (filterM (mockTaskAPI.matches_search h searchLower) l)
   else js_ret l)%js
  = js_ret (List.filter (passes_search h params) l).
Proof.
  intros Hsearch Hl. unfold search_shape in Hsearch.
  destruct (truthy (params !! "search")) eqn:Htr.
  - destruct (Hsearch eq_refl) as [s Hs]. rewrite Hs in Htr |- *.
    apply truthy_string in Htr. cbn [call_toLowerCase].
    rewrite js_bind_lift_return.
    rewrite (filterM_pure (mockTaskAPI.matches_search h (toLowerCase h s))
               (passes_search h params)); [reflexivity |].
    intros t Ht. apply (matches_search_pure h); [done | done |].
    rewrite Forall_forall in Hl. by apply Hl.
  - f_equal. rewrite <- (filter_all l) at 1. apply filter_ext.
    intros t. unfold passes_search. by rewrite Htr.
Qed.

Lemma date_order (h : host) (a b : obj) :
  is_Some (Date_time h (a !! "createdAt")) ->
  is_Some (Date_time h (b !! "createdAt")) ->
  goes_before (num_sub (Date_time h (a !! "createdAt")) (Date_time h (b !! "createdAt")))
  = (time_of h a <=? time_of h b)%Z.
Proof.
  intros [x Hx] [y Hy]. unfold time_of.
  rewrite Hx, Hy. simpl.
  destruct (Z.leb_spec (x - y) 0), (Z.leb_spec x y); lia || done.
Qed.

Lemma priority_order (a b : obj) :
  is_Some (priorityOrder (a !! "priority")) ->
  is_Some (priorityOrder (b !! "priority")) ->
  goes_before (num_sub (priorityOrder (a !! "priority")) (priorityOrder (b !! "priority")))
  = (rank_of a <=? rank_of b)%Z.
Proof.
  intros [x Hx] [y Hy]. unfold rank_of.
  rewrite Hx, Hy. simpl.
  destruct (Z.leb_spec (x - y) 0), (Z.leb_spec x y); lia || done.
Qed.

Lemma title_order (h : host) (a b : obj) :
  (exists s, a !! "title" = Some (JStr s)) ->
  (exists s, b !! "title" = Some (JStr s)) ->
  title_compare h a b
  = Return (Some (localeCompare h (text (a !! "title")) (text (b !! "title")))).
Proof.
  intros [s Hs] [s' Hs']. unfold title_compare.
  by rewrite Hs, Hs'.
Qed.

(** Sorting by a key in [Z], for a comparator that agrees with the key on
    the elements that satisfy [P]. *)
Lemma sort_by_key_sorted {A} (P : A -> Prop) (key : A -> Z)
  (le : A -> A -> bool) (l : list A) :
  Forall P l ->
  (forall a b, P a -> P b -> le a b = (key a <=? key b)%Z) ->
  StronglySorted (fun a b => (key a <= key b)%Z) (sort_by le l).
Proof.
  intros Hl Hle.
  apply (StronglySorted_weaken P (fun a b => le a b = true)).
  - by rewrite sort_by_perm.
  - intros a b Ha Hb. rewrite Hle by done. apply Z.leb_le.
  - apply (sort_by_sorted le P); [| | done].
    + intros a b Ha Hb. rewrite !Hle by done.
      rewrite Z.leb_gt, Z.leb_le. lia.
    + intros a b c Ha Hb Hc. rewrite !Hle by done.
      rewrite !Z.leb_le. lia.
Qed.

Lemma sort_stage (h : host) (params : obj) (l : list obj) :
  (params !! "sort" = Some (JStr "title") -> collates h) ->
  Forall (task_shape h params) l ->
  exists result,
    (if truthy (params !! "sort") then
       let sort := params !! "sort" in
       if strict_eq sort (Some (JStr "newest")) then
         lift (sortM (by_newest h) l)
       else if strict_eq sort (Some (JStr "oldest")) then
         lift (sortM (by_oldest h) l)
       else if strict_eq sort (Some (JStr "title")) then
         lift (sortM (title_compare h) l)
       else if strict_eq sort (Some (JStr "priority")) then
         lift (sortM by_priority l)
       else js_ret l
     else js_ret l) = js_ret result /\
    Permutation result l /\
    match sort_order h params with
    | Some R => StronglySorted R result
    | None => result = l
    end.
Proof.
  intros Hcollates Hl. unfold sort_order. cbn zeta.
  destruct (strict_eq (params !! "sort") (Some (JStr "newest"))) eqn:E1.
  { apply strict_eq_true in E1.
    assert (Hdates : Forall (fun t => is_Some (Date_time h (t !! "createdAt"))) l).
    { eapply Forall_impl; [exact Hl |]. intros t Ht. apply Ht. by left. }
    rewrite E1. simpl.
    eexists. split.
    { unfold by_newest. erewrite sortM_pure by (intros; reflexivity). reflexivity. }
    split; [apply sort_by_perm |].
    apply (sort_by_key_sorted _ (fun t => (- time_of h t)%Z)
             (fun a b => goes_before (num_sub (Date_time h (b !! "createdAt"))
                                              (Date_time h (a !! "createdAt")))))
      in Hdates.
    - eapply (StronglySorted_weaken (fun _ => True)); [| | exact Hdates].
      + by apply Forall_forall.
      + intros a b _ _. simpl. lia.
    - intros a b Ha Hb. rewrite date_order by done.
      destruct (Z.leb_spec (time_of h b) (time_of h a)),
               (Z.leb_spec (- time_of h a) (- time_of h b)); lia || done. }
  destruct (strict_eq (params !! "sort") (Some (JStr "oldest"))) eqn:E2.
  { apply strict_eq_true in E2.
    assert (Hdates : Forall (fun t => is_Some (Date_time h (t !! "createdAt"))) l).
    { eapply Forall_impl; [exact Hl |]. intros t Ht. apply Ht. by right. }
    rewrite E2. simpl.
    eexists. split.
    { unfold by_oldest. erewrite sortM_pure by (intros; reflexivity). reflexivity. }
    split; [apply sort_by_perm |].
    apply (sort_by_key_sorted _ (time_of h) _ _ Hdates).
    intros a b Ha Hb. by apply date_order. }
  destruct (strict_eq (params !! "sort") (Some (JStr "title"))) eqn:E3.
  { apply strict_eq_true in E3.
    destruct (Hcollates E3) as [Htotal Htrans].
    assert (Htitles : forall t, t ∈ l -> exists s, t !! "title" = Some (JStr s)).
    { rewrite Forall_forall in Hl. intros t Ht. apply (Hl t Ht). by right. }
    rewrite E3. simpl.
    eexists. split.
    { erewrite (sortM_pure _ (fun a b =>
        Some (localeCompare h (text (a !! "title")) (text (b !! "title")))))
        by (intros; apply title_order; auto).
      reflexivity. }
    split; [apply sort_by_perm |].
    eapply (StronglySorted_weaken (fun _ => True));
      [by apply Forall_forall | | apply (sort_by_sorted _ (fun _ => True))].
    - intros a b _ _. simpl. apply Z.leb_le.
    - intros a b _ _. simpl. rewrite Z.leb_gt, Z.leb_le. apply Htotal.
    - intros a b c _ _ _. simpl. rewrite !Z.leb_le. apply Htrans.
    - by apply Forall_forall. }
  destruct (strict_eq (params !! "sort") (Some (JStr "priority"))) eqn:E4.
  { apply strict_eq_true in E4.
    assert (Hranks : Forall (fun t => is_Some (priorityOrder (t !! "priority"))) l).
    { eapply Forall_impl; [exact Hl |]. intros t Ht. by apply Ht. }
    rewrite E4. simpl.
    eexists. split.
    { unfold by_priority. erewrite sortM_pure by (intros; reflexivity). reflexivity. }
    split; [apply sort_by_perm |].
    apply (sort_by_key_sorted _ rank_of _ _ Hranks).
    intros a b Ha Hb. by apply priority_order. }
  exists l. split; [by destruct (truthy _) | done].
Qed.

Lemma js_bind_ret {A B} (a : A) (k : A -> js B) : js_bind (js_ret a) k = k a.
Proof. reflexivity. Qed.

Lemma list_spec_owned (h : host) (params user : obj) (tasks : list obj) (t : obj) :
  t ∈ list_spec h params user tasks ->
  t ∈ List.filter (owned_by user) tasks /\ passes_status params t = true.
Proof.
  unfold list_spec. rewrite !list_elem_of_In, !filter_In, !andb_true_iff. tauto.
Qed.

(** C8 as amended: take a current user, a search value that is a string
    when it is not empty, and a store in which the tasks of the current user
    have the shape the filter needs ([task_shape]: a string title when
    searching or sorting by title, a string description when searching, a
    readable created timestamp when sorting by time, a known priority when
    sorting by priority), with a [localeCompare] that orders the strings
    when sorting by title.  Then [getAll] succeeds, leaves the store alone,
    and returns (with their number as total) exactly the tasks of the
    current user that pass the status filter, the priority filter and the
    search filter: the result is a permutation of the tasks that [list_spec]
    selects.  A status or priority filter is an equality test that is
    skipped for "all" and for an absent or empty value; the search looks for
    the lower-cased search text in the lower-cased title or description and
    is skipped when empty.  For the sort values "newest" and "oldest" the
    result is ordered by created time, descending and ascending; for "title"
    by [localeCompare] on the titles; for "priority" by rank, high before
    medium before low.  For any other sort value, or none, the result is in
    the order of the store.  With status "completed" every returned task has
    that status. *)
Theorem getAll_filters_then_sorts (h : host) (params : obj)
  (ls : localStorage) (user : obj) :
  mock_currentUser ls = Some user ->
  search_shape params ->
  (params !! "sort" = Some (JStr "title") -> collates h) ->
  Forall (task_shape h params)
    (List.filter (owned_by user) (default [] (mock_tasks ls))) ->
  exists result,
    mockTaskAPI.getAll h params ls
      = (Return (ok_data (PList result (length result))), ls) /\
    Permutation result (list_spec h params user (default [] (mock_tasks ls))) /\
    match sort_order h params with
    | Some R => StronglySorted R result
    | None => result = list_spec h params user (default [] (mock_tasks ls))
    end /\
    (params !! "status" = Some (JStr "completed") ->
     Forall (fun t => t !! "status" = Some (JStr "completed")) result).
Proof.
  intros Huser Hsearch Hcollates Hshape.
  set (tasks := default [] (mock_tasks ls)) in *.
  assert (Hspec : Forall (task_shape h params) (list_spec h params user tasks)).
  { rewrite Forall_forall in Hshape. apply Forall_forall.
    intros t Ht. by apply Hshape, (list_spec_owned h params). }
  destruct (sort_stage h params _ Hcollates Hspec) as (result & Hsort & Hperm & Hord).
  exists result. split.
  { unfold mockTaskAPI.getAll.
    unfold js_bind at 1. unfold getTasks at 1.
    unfold js_bind at 1. unfold getCurrentUser at 1. rewrite Huser.
    rewrite !filter_stage, !filter_filter_andb.
    fold (owned_by user). fold tasks.
    rewrite (search_stage h); [| done |].
    - rewrite js_bind_ret, filter_filter_andb.
      fold (passes_status params) (passes_priority params).
      replace (List.filter _ tasks) with (list_spec h params user tasks).
      + cbn beta zeta in Hsort |- *. rewrite Hsort. reflexivity.
      + unfold list_spec. apply filter_ext. intros t.
        unfold passes_status, passes_priority. by rewrite !andb_assoc.
    - rewrite Forall_forall in Hshape. apply Forall_forall.
      intros t Ht. apply Hshape.
      rewrite list_elem_of_In, filter_In, andb_true_iff in Ht.
      rewrite list_elem_of_In, filter_In. tauto. }
  split; [done |]. split; [done |].
  intros Hcompleted. apply Forall_forall. intros t Ht.
  rewrite Hperm in Ht. apply list_spec_owned in Ht as [_ Hst].
  unfold passes_status in Hst. rewrite Hcompleted in Hst.
  by apply strict_eq_true in Hst.
Qed.

Lemma units_leb_refl (a : jstring) : units_leb a a = true.
Proof.
  induction a as [|x a IH]; [done |]. simpl.
  by rewrite N.eqb_refl, IH, orb_true_r.
Qed.

Lemma units_leb_total (a b : jstring) :
  units_leb a b = false -> units_leb b a = true.
Proof.
  revert b. induction a as [|x a IH]; intros [|y b]; simpl; try done.
  rewrite orb_false_iff, andb_false_iff, N.ltb_ge, N.eqb_neq.
  intros [Hge [Hne | Hab]].
  - assert ((y <? x)%N = true) as -> by (apply N.ltb_lt; lia). done.
  - destruct (N.ltb_spec y x); [done |].
    assert (y = x) as -> by lia. by rewrite N.eqb_refl, IH.
Qed.

Lemma units_leb_trans (a b c : jstring) :
  units_leb a b = true -> units_leb b c = true -> units_leb a c = true.
Proof.
  revert b c. induction a as [|x a IH]; intros [|y b] [|z c]; simpl; try done.
  rewrite !orb_true_iff, !andb_true_iff, !N.ltb_lt, !N.eqb_eq.
  intros [Hxy | [-> Hab]] [Hyz | [-> Hbc]].
  - left. lia.
  - by left.
  - by left.
  - right. split; [done | by eapply IH].
Qed.

Lemma code_unit_compare_le (a b : jstring) :
  (code_unit_compare a b <= 0)%Z <-> units_leb a b = true.
Proof.
  unfold code_unit_compare.
  case_bool_decide as Hab; [subst; by rewrite units_leb_refl |].
  by destruct (units_leb a b).
Qed.

Lemma example_host_collates : collates example_host.
Proof.
  split; simpl.
  - intros a b Hab. apply code_unit_compare_le.
    destruct (units_leb a b) eqn:H; [| by apply units_leb_total].
    apply code_unit_compare_le in H. lia.
  - intros a b c. rewrite !code_unit_compare_le. apply units_leb_trans.
Qed.

Lemma two_user_store_shapes :
  Forall (task_shape example_host spec_newest)
    (List.filter (owned_by ada_session) (default [] (mock_tasks two_user_store))).
Proof.
  vm_compute List.filter.
  repeat (apply Forall_cons; split;
          [split; intros; try discriminate; eexists; vm_compute; reflexivity |]).
  constructor.
Qed.

Lemma getAll_filters_then_sorts_witness :
  exists result,
    mockTaskAPI.getAll example_host spec_newest two_user_store
      = (Return (ok_data (PList result (length result))), two_user_store) /\
    Permutation result
      (list_spec example_host spec_newest ada_session (default [] (mock_tasks two_user_store))) /\
    match sort_order example_host spec_newest with
    | Some R => StronglySorted R result
    | None =>
        result
        = list_spec example_host spec_newest ada_session (default [] (mock_tasks two_user_store))
    end /\
    (spec_newest !! "status" = Some (JStr "completed") ->
     Forall (fun t => t !! "status" = Some (JStr "completed")) result).
Proof.
  apply (getAll_filters_then_sorts example_host spec_newest two_user_store
           ada_session).
  - vm_compute. reflexivity.
  - intros _. eexists. vm_compute. reflexivity.
  - intros _. exact example_host_collates.
  - exact two_user_store_shapes.
Defined.

(** The claim that [getAll] returns the filtered list for every store and
    filter fails: after Ada has created a task without a title, a search
    ends in a TypeError, whatever the host. *)
Lemma getAll_search_counterexample :
  reachable untitled_store /\
  mock_currentUser untitled_store = Some ada_session /\
  (forall h,
     mockTaskAPI.getAll h (literal [("search", Some (JStr "milk"))]) untitled_store
     = (Throw TypeError, untitled_store)) /\
  ~ (forall h params ls user,
       mock_currentUser ls = Some user ->
       exists result,
         (mockTaskAPI.getAll h params ls).1
         = Return (ok_data (PList result (length result)))).
Proof.
  assert (H : forall h,
    mockTaskAPI.getAll h (literal [("search", Some (JStr "milk"))]) untitled_store
    = (Throw TypeError, untitled_store)).
  { intros h. vm_compute. reflexivity. }
  split; [apply run_calls_from_empty |].
  split; [vm_compute; reflexivity |].
  split; [exact H |].
  intros Hclaim.
  destruct (Hclaim example_host (literal [("search", Some (JStr "milk"))])
              untitled_store ada_session) as [result Hr].
  - vm_compute. reflexivity.
  - rewrite H in Hr. discriminate Hr.
Qed.

(** * Further properties of the mock API *)

(** ** The credential encoding *)

Lemma b64_digit_value (n : N) :
  (n < 64)%N -> b64_value (b64_digit n) = n /\ b64_digit n <> "="%char.
Proof.
  intros Hn.
  assert (H : forallb (fun k =>
                (b64_value (b64_digit (N.of_nat k)) =? N.of_nat k)%N
                && negb (Ascii.eqb (b64_digit (N.of_nat k)) "="%char))
              (seq 0 64) = true) by (vm_compute; reflexivity).
  rewrite forallb_forall in H.
  specialize (H (N.to_nat n)). rewrite N2Nat.id in H.
  assert (Hin : In (N.to_nat n) (seq 0 64)) by (apply in_seq; lia).
  apply H, andb_true_iff in Hin as [H1 H2].
  split; [by apply N.eqb_eq |].
  apply negb_true_iff, Ascii.eqb_neq in H2. exact H2.
Qed.

Ltac div_mod_lia :=
  zify; Z.to_euclidean_division_equations; lia.

Lemma b64_middle (a b : N) :
  (a < 256 -> b < 256 -> ((a mod 4) * 16 + b / 16) mod 16 = b / 16)%N.
Proof. intros Ha Hb. div_mod_lia. Qed.

Lemma b64_chunk (a b c : N) :
  (a < 256 -> b < 256 -> c < 256 ->
   a / 4 < 64 /\ (a mod 4) * 16 + b / 16 < 64 /\
   (b mod 16) * 4 + c / 64 < 64 /\ c mod 64 < 64 /\
   (a mod 4) * 16 < 64 /\ (b mod 16) * 4 < 64 /\
   (a / 4) * 4 + ((a mod 4) * 16 + b / 16) / 16 = a /\
   (a / 4) * 4 + ((a mod 4) * 16) / 16 = a /\
   (((a mod 4) * 16 + b / 16) mod 16) * 16 + ((b mod 16) * 4 + c / 64) / 4 = b /\
   (((a mod 4) * 16 + b / 16) mod 16) * 16 + ((b mod 16) * 4) / 4 = b /\
   (((b mod 16) * 4 + c / 64) mod 4) * 64 + c mod 64 = c)%N.
Proof.
  intros Ha Hb Hc. rewrite !(b64_middle a b Ha Hb).
  repeat split; div_mod_lia.
Qed.

Lemma b64_decode_encode_bounded (n : nat) (l : list N) :
  length l <= n -> Forall (fun k => (k < 256)%N) l ->
  b64_decode (b64_encode l) = l.
Proof.
  revert l. induction n as [|n IH]; intros l Hlen Hl.
  { destruct l; [done | simpl in Hlen; lia]. }
  destruct l as [|a [|b [|c r]]]; [done | | |].
  - apply Forall_cons in Hl as [Ha _].
    destruct (b64_chunk a 0 0 Ha) as (H1 & _ & _ & _ & H5 & _ & _ & H8 & _);
      [lia | lia |].
    cbn [b64_encode b64_decode].
    rewrite bool_decide_eq_true_2 by done.
    destruct (b64_digit_value _ H1) as [-> _].
    destruct (b64_digit_value _ H5) as [-> _].
    by rewrite H8.
  - apply Forall_cons in Hl as [Ha Hl]. apply Forall_cons in Hl as [Hb _].
    destruct (b64_chunk a b 0 Ha Hb) as (H1 & H2 & _ & _ & _ & H6 & H7 & _ & _ & H10 & _);
      [lia |].
    cbn [b64_encode b64_decode].
    destruct (b64_digit_value _ H1) as [-> _].
    destruct (b64_digit_value _ H2) as [-> _].
    destruct (b64_digit_value _ H6) as [-> Hne].
    rewrite (bool_decide_eq_false_2 _ Hne).
    rewrite bool_decide_eq_true_2 by done.
    by rewrite H7, H10.
  - apply Forall_cons in Hl as [Ha Hl]. apply Forall_cons in Hl as [Hb Hl].
    apply Forall_cons in Hl as [Hc Hr].
    destruct (b64_chunk a b c Ha Hb Hc)
      as (H1 & H2 & H3 & H4 & _ & _ & H7 & _ & H9 & _ & H11).
    cbn [b64_encode b64_decode].
    destruct (b64_digit_value _ H1) as [-> _].
    destruct (b64_digit_value _ H2) as [-> _].
    destruct (b64_digit_value _ H3) as [-> Hne3].
    destruct (b64_digit_value _ H4) as [-> Hne4].
    rewrite (bool_decide_eq_false_2 _ Hne3), (bool_decide_eq_false_2 _ Hne4).
    rewrite H7, H9, H11. do 3 f_equal.
    apply IH; [simpl in Hlen; lia | done].
Qed.

Lemma latin1_bounded (s : jstring) :
  latin1 s = true -> Forall (fun k => (k < 256)%N) s.
Proof.
  unfold latin1. rewrite forallb_forall, Forall_forall.
  intros H k Hk. apply N.ltb_lt, H. by apply list_elem_of_In.
Qed.

Lemma b64_decode_encode (s : jstring) :
  latin1 s = true -> b64_decode (b64_encode s) = s.
Proof.
  intros Hs. apply (b64_decode_encode_bounded _ _ (le_n _)), latin1_bounded, Hs.
Qed.

Lemma units_inj (s t : string) : units s = units t -> s = t.
Proof.
  unfold units. revert t.
  induction s as [|c s IH]; intros [|d t]; simpl; try done.
  intros [= Hc Hs]. f_equal; [| by apply IH].
  apply (f_equal ascii_of_N) in Hc. by rewrite !ascii_N_embedding in Hc.
Qed.

Lemma btoa_inj (v w : option jsval) (encoded : string) :
  btoa v = Return encoded -> btoa w = Return encoded -> ToString v = ToString w.
Proof.
  unfold btoa.
  destruct (latin1 (ToString v)) eqn:Hv; [| done].
  destruct (latin1 (ToString w)) eqn:Hw; [| done].
  intros [= <-] [= H].
  apply (f_equal list_ascii_of_string) in H.
  rewrite !list_ascii_of_string_of_list_ascii in H.
  apply (f_equal b64_decode) in H.
  by rewrite !b64_decode_encode in H.
Qed.

Lemma hashPassword_latin1 (password : option jsval) (hashed : jsval) :
  hashPassword password = Return hashed -> latin1 (ToString password) = true.
Proof.
  unfold hashPassword, btoa. by destruct (latin1 (ToString password)).
Qed.

Lemma verifyPassword_against_hash (password password' : option jsval)
  (hashed : jsval) :
  hashPassword password' = Return hashed ->
  verifyPassword password (Some hashed) = Return true
  <-> ToString password = ToString password'.
Proof.
  intros Hhash. pose proof (hashPassword_latin1 _ _ Hhash) as Hlatin.
  revert Hhash. unfold hashPassword, verifyPassword.
  destruct (btoa password') as [encoded' |] eqn:Hw; simpl; [| done].
  intros [= <-].
  destruct (btoa password) as [encoded | x] eqn:Hv; simpl.
  - split.
    + intros [= H]. apply strict_eq_true in H. injection H as H%units_inj.
      subst encoded'. by apply (btoa_inj _ _ encoded).
    + intros H. unfold btoa in Hv, Hw. rewrite H, Hlatin in Hv.
      rewrite Hlatin in Hw. assert (encoded = encoded') as -> by congruence.
      by rewrite strict_eq_refl.
  - split; [done |]. intros H.
    unfold btoa in Hv. rewrite H, Hlatin in Hv. done.
Qed.

(** X1: against a credential made by [hashPassword], [verifyPassword]
    accepts a password exactly when it has the same string form as the
    password the credential was made from (the form that [btoa] encodes):
    the encoding identifies no two different strings.  It answers false
    for another password that can be encoded, and throws on one that
    cannot. *)
Theorem verifyPassword_hashPassword_iff (password password' : option jsval)
  (hashed : jsval) :
  hashPassword password' = Return hashed ->
  (verifyPassword password (Some hashed) = Return true
   <-> ToString password = ToString password') /\
  (verifyPassword password (Some hashed) = Return false
   <-> latin1 (ToString password) = true /\
       ToString password <> ToString password') /\
  ((exists x, verifyPassword password (Some hashed) = Throw x)
   <-> latin1 (ToString password) = false).
Proof.
  intros Hhash.
  pose proof (verifyPassword_against_hash password _ _ Hhash) as Htrue.
  assert (Hthrow : latin1 (ToString password) = false ->
                   exists x, verifyPassword password (Some hashed) = Throw x).
  { unfold verifyPassword, btoa. intros ->. simpl. eauto. }
  assert (Hret : latin1 (ToString password) = true ->
                 exists b, verifyPassword password (Some hashed) = Return b).
  { unfold verifyPassword, btoa. intros ->. simpl. eauto. }
  split; [exact Htrue |].
  destruct (latin1 (ToString password)) eqn:Hlatin.
  - destruct (Hret eq_refl) as [b Hb]. rewrite Hb in Htrue |- *. split.
    + split.
      * intros [= ->]. split; [done |]. intros H. apply Htrue in H. done.
      * intros [_ Hne]. destruct b; [| done]. exfalso. by apply Hne, Htrue.
    + split; [by intros [x [=]] | done].
  - destruct (Hthrow eq_refl) as [x Hx]. rewrite Hx. split.
    + split; [done | by intros [[=] _]].
    + split; [done | eauto].
Qed.

Lemma verifyPassword_hashPassword_iff_witness :
  (verifyPassword (Some (JStr "secret1")) (Some (JStr "c2VjcmV0MQ==")) = Return true
   <-> ToString (Some (JStr "secret1")) = ToString (Some (JStr "secret1"))) /\
  (verifyPassword (Some (JStr "secret1")) (Some (JStr "c2VjcmV0MQ==")) = Return false
   <-> latin1 (ToString (Some (JStr "secret1"))) = true /\
       ToString (Some (JStr "secret1")) <> ToString (Some (JStr "secret1"))) /\
  ((exists x, verifyPassword (Some (JStr "secret1")) (Some (JStr "c2VjcmV0MQ=="))
              = Throw x)
   <-> latin1 (ToString (Some (JStr "secret1"))) = false).
Proof.
  apply (verifyPassword_hashPassword_iff (Some (JStr "secret1"))
           (Some (JStr "secret1")) (JStr "c2VjcmV0MQ==")).
  reflexivity.
Defined.

(** ** Login and password change *)

Lemma find_findIndex {A} (p : A -> bool) (l : list A) :
  find p l = findIndex p l ≫= (l !!.).
Proof.
  unfold find. induction l as [|x r IH]; [done |]. simpl.
  destruct (p x); [done |]. rewrite IH.
  by destruct (findIndex p r).
Qed.

Lemma findIndex_insert {A} (p : A -> bool) (i : nat) (y : A) (l : list A) :
  findIndex p l = Some i -> p y = true ->
  findIndex p (<[i := y]> l) = Some i.
Proof.
  revert i. induction l as [|x r IH]; intros i; [done |]. simpl.
  destruct (p x) eqn:Hx.
  - intros [= <-] Hy. simpl. by rewrite Hy.
  - destruct (findIndex p r) as [j |] eqn:Hr; [| done].
    intros [= <-] Hy. simpl. rewrite Hx. by rewrite (IH j).
Qed.

Lemma login_cases (credentials : obj) (token : string) (ls : localStorage) :
  mockAuthAPI.login credentials token ls
    = (Return (failure "Invalid email or password"), ls) \/
  (exists x,
     btoa (credentials !! "password") = Throw x /\
     mockAuthAPI.login credentials token ls = (Throw x, ls)) \/
  exists u encoded,
    u ∈ default [] (mock_users ls) /\
    u !! "email" = credentials !! "email" /\
    btoa (credentials !! "password") = Return encoded /\
    u !! "password" = Some (JStr encoded) /\
    mockAuthAPI.login credentials token ls
      = (Return (ok_data (PAuth token (delete "password" u))),
         mkStorage (mock_users ls) (mock_tasks ls)
           (Some (delete "password" u)) (Some token)).
Proof.
  unfold mockAuthAPI.login, js_bind, getUsers, lift, verifyPassword. simpl.
  destruct (find _ _) as [u |] eqn:Hfind; simpl; [| by left].
  destruct (btoa (credentials !! "password")) as [encoded | x]; simpl.
  - destruct (strict_eq _ _) eqn:Hpw; simpl; [| by left].
    right. right. apply find_some in Hfind as [Hin Hemail].
    exists u, encoded. split; [by apply list_elem_of_In |].
    split; [by apply strict_eq_true |].
    split; [done |]. split; [| done].
    by apply strict_eq_true in Hpw.
  - right. left. by exists x.
Qed.

(** X2: [login] writes only when it succeeds.  When it throws (the
    password given cannot be encoded) or answers "Invalid email or
    password", the store is left exactly as it was: no session, no token.
    When it succeeds, the new current user is a stored user with the email
    asked for, without its [password] property; that user's credential is
    the encoding of the password given; the token is stored; users and
    tasks are untouched. *)
Theorem login_fails_or_opens_session (credentials : obj) (token : string)
  (ls : localStorage) :
  let r := mockAuthAPI.login credentials token ls in
  match r.1 with
  | Throw x => r.2 = ls /\ btoa (credentials !! "password") = Throw x
  | Return e =>
      if success e then
        exists u encoded,
          u ∈ default [] (mock_users ls) /\
          u !! "email" = credentials !! "email" /\
          btoa (credentials !! "password") = Return encoded /\
          u !! "password" = Some (JStr encoded) /\
          data e = Some (PAuth token (delete "password" u)) /\
          r.2 = mkStorage (mock_users ls) (mock_tasks ls)
                  (Some (delete "password" u)) (Some token)
      else r.2 = ls /\ message e = Some "Invalid email or password"
  end.
Proof.
  cbn zeta.
  destruct (login_cases credentials token ls)
    as [-> | [(x & Hx & ->) | (u & encoded & Hin & Hemail & Hpw & Hcred & ->)]];
    simpl.
  - done.
  - done.
  - by exists u, encoded.
Qed.

(** X3: when the current password matches the credential of the session
    user's record (the record at the first index with the session's [_id])
    and the new password can be encoded, [changePassword] succeeds and
    replaces the credential of that record, and of no other, by the encoding
    of the new password.  A login that looks that record up by its email
    then succeeds exactly with a password of the same string form as the
    new one. *)
Theorem changePassword_then_login (ls : localStorage) (user u : obj) (i : nat)
  (passwordData : obj) (hashed : jsval) :
  mock_currentUser ls = Some user ->
  findIndex (fun v => strict_eq (v !! "_id") (user !! "_id"))
    (default [] (mock_users ls)) = Some i ->
  default [] (mock_users ls) !! i = Some u ->
  verifyPassword (passwordData !! "currentPassword") (u !! "password")
    = Return true ->
  hashPassword (passwordData !! "newPassword") = Return hashed ->
  let u' := <["password" := hashed]> u in
  let ls' := mkStorage (Some (<[i := u']> (default [] (mock_users ls))))
               (mock_tasks ls) (mock_currentUser ls) (mock_token ls) in
  mockAuthAPI.changePassword passwordData ls
    = (Return (ok_message "Password changed successfully"), ls') /\
  forall (credentials : obj) (token : string),
    findIndex (fun v => strict_eq (v !! "email") (credentials !! "email"))
      (default [] (mock_users ls)) = Some i ->
    ((exists e ls2,
        mockAuthAPI.login credentials token ls' = (Return e, ls2) /\
        success e = true)
     <-> ToString (credentials !! "password")
         = ToString (passwordData !! "newPassword")).
Proof.
  intros Huser Hidx Hu Hpw Hnew u' ls'. split.
  - unfold mockAuthAPI.changePassword, js_bind, getCurrentUser, getUsers, lift.
    simpl. rewrite Huser, Hidx, Hu. simpl. rewrite Hpw. simpl.
    rewrite Hnew. simpl.
    unfold saveUsers, simulateDelay, js_ret. subst ls' u'.
    by rewrite (list_alter_at _ _ _ _ Hu), Huser.
  - intros credentials token Hemail.
    destruct (findIndex_lookup _ _ _ Hemail) as (x & Hx & Hpx).
    assert (x = u) as -> by congruence.
    pose proof (verifyPassword_against_hash (credentials !! "password") _ _ Hnew)
      as Htrue.
    unfold mockAuthAPI.login, js_bind, getUsers, lift. subst ls'. simpl.
    rewrite find_findIndex.
    rewrite (findIndex_insert _ i u' _ Hemail)
      by (subst u'; by rewrite lookup_insert_ne).
    simpl. rewrite list_lookup_insert_eq by (by eapply lookup_lt_Some).
    subst u'. simpl. rewrite lookup_insert_eq. rewrite <- Htrue.
    destruct (verifyPassword (credentials !! "password") (Some hashed))
      as [[] | x]; simpl.
    + split; [done |]. intros _. by eexists _, _.
    + split; [| done]. by intros (e & ls2 & [= <- <-] & [=]).
    + split; [| done]. by intros (e & ls2 & [=] & _).
Qed.

Lemma changePassword_then_login_witness :
  let u' := <["password" := JStr "aHVudGVyMjI="]> ada_record in
  let ls' := mkStorage (Some (<[0 := u']> (default [] (mock_users ada_store))))
               (mock_tasks ada_store) (mock_currentUser ada_store)
               (mock_token ada_store) in
  let credentials :=
    literal [("email", Some (JStr "ada@x.com"));
             ("password", Some (JStr "hunter22"))] in
  mockAuthAPI.changePassword ada_new_password ada_store
    = (Return (ok_message "Password changed successfully"), ls') /\
  ((exists e ls2,
      mockAuthAPI.login credentials "k2" ls' = (Return e, ls2) /\
      success e = true)
   <-> ToString (credentials !! "password")
       = ToString (ada_new_password !! "newPassword")).
Proof.
  destruct (changePassword_then_login ada_store ada_session ada_record 0
              ada_new_password (JStr "aHVudGVyMjI=")) as [Hcall Hlogin].
  - vm_compute. reflexivity.
  - vm_compute. reflexivity.
  - vm_compute. reflexivity.
  - vm_compute. reflexivity.
  - vm_compute. reflexivity.
  - split; [exact Hcall |]. apply Hlogin. vm_compute. reflexivity.
Defined.

Lemma btoa_throws (p : option jsval) :
  latin1 (ToString p) = false -> btoa p = Throw InvalidCharacterError.
Proof. unfold btoa. by intros ->. Qed.

(** X4: a password with a code unit above 255 makes the mock throw
    instead of answering: [signup] with an email that is not taken, [login]
    with an email that is registered, and [changePassword] with such a
    current password for a current user with a stored record all end in
    the InvalidCharacterError of [btoa], and the store is left as it was. *)
Theorem password_beyond_latin1_throws (ls : localStorage) (p : option jsval) :
  latin1 (ToString p) = false ->
  (forall (userData : obj) (_id createdAt token : string),
     userData !! "password" = p ->
     find (fun u => strict_eq (u !! "email") (userData !! "email"))
       (default [] (mock_users ls)) = None ->
     mockAuthAPI.signup userData _id createdAt token ls
     = (Throw InvalidCharacterError, ls)) /\
  (forall (credentials : obj) (token : string),
     credentials !! "password" = p ->
     is_Some (find (fun u => strict_eq (u !! "email") (credentials !! "email"))
                (default [] (mock_users ls))) ->
     mockAuthAPI.login credentials token ls
     = (Throw InvalidCharacterError, ls)) /\
  (forall (passwordData user : obj),
     passwordData !! "currentPassword" = p ->
     mock_currentUser ls = Some user ->
     is_Some (stored_record user ls) ->
     mockAuthAPI.changePassword passwordData ls
     = (Throw InvalidCharacterError, ls)).
Proof.
  intros Hp. apply btoa_throws in Hp. split; [| split].
  - intros userData _id createdAt token Hpw Hfresh.
    apply signup_throws; [done |].
    unfold hashPassword. by rewrite Hpw, Hp.
  - intros credentials token Hpw [u Hu].
    unfold mockAuthAPI.login, js_bind, getUsers, lift, verifyPassword. simpl.
    by rewrite Hu, Hpw, Hp.
  - intros passwordData user Hpw Huser [u Hu].
    unfold stored_record in Hu.
    destruct (findIndex _ _) as [i |] eqn:Hi; [| done].
    unfold mockAuthAPI.changePassword, js_bind, getCurrentUser, getUsers, lift,
      verifyPassword.
    simpl. by rewrite Huser, Hi, Hpw, Hp.
Qed.

Lemma password_beyond_latin1_throws_witness :
  mockAuthAPI.signup
    (literal [("email", Some (JStr "eve@x.com")); ("password", euro_password)])
    "u3" "2024-01-03T00:00:00.000Z" "k3" ada_store
  = (Throw InvalidCharacterError, ada_store) /\
  mockAuthAPI.login
    (literal [("email", Some (JStr "ada@x.com")); ("password", euro_password)])
    "k3" ada_store
  = (Throw InvalidCharacterError, ada_store) /\
  mockAuthAPI.changePassword
    (literal [("currentPassword", euro_password);
              ("newPassword", Some (JStr "hunter22"))]) ada_store
  = (Throw InvalidCharacterError, ada_store).
Proof.
  destruct (password_beyond_latin1_throws ada_store euro_password)
    as (Hsignup & Hlogin & Hchange).
  - vm_compute. reflexivity.
  - split; [| split].
    + apply Hsignup; vm_compute; reflexivity.
    + apply Hlogin; [vm_compute; reflexivity |].
      exists ada_record. vm_compute. reflexivity.
    + apply (Hchange _ ada_session);
        [vm_compute; reflexivity | vm_compute; reflexivity |].
      exists ada_record. vm_compute. reflexivity.
Defined.

(** ** Account deletion *)

Lemma filter_sublist {A} (p : A -> bool) (l : list A) :
  List.filter p l `sublist_of` l.
Proof.
  induction l as [|x r IH]; simpl; [constructor |].
  destruct (p x); by constructor.
Qed.

Lemma elem_of_filter_bool {A} (p : A -> bool) (l : list A) (x : A) :
  x ∈ List.filter p l <-> x ∈ l /\ p x = true.
Proof. rewrite !list_elem_of_In. apply filter_In. Qed.

Lemma strict_eq_false a b : strict_eq a b = false <-> a <> b.
Proof. unfold strict_eq. apply bool_decide_eq_false. Qed.

(** X5: with a current user, [deleteAccount] succeeds, ends the session
    (no current user, no token) and keeps, in their order, exactly the
    users whose [_id] differs from the session's and exactly the tasks whose
    [userId] differs from it: every task of the deleted user is gone and no
    task of another user is. *)
Theorem deleteAccount_removes_user_and_tasks (ls : localStorage) (user : obj) :
  mock_currentUser ls = Some user ->
  exists ls',
    mockAuthAPI.deleteAccount ls
      = (Return (ok_message "Account deleted successfully"), ls') /\
    mock_currentUser ls' = None /\
    mock_token ls' = None /\
    (forall t, t ∈ default [] (mock_tasks ls') <->
               t ∈ default [] (mock_tasks ls) /\ t !! "userId" <> user !! "_id") /\
    (forall u, u ∈ default [] (mock_users ls') <->
               u ∈ default [] (mock_users ls) /\ u !! "_id" <> user !! "_id") /\
    default [] (mock_tasks ls') `sublist_of` default [] (mock_tasks ls) /\
    default [] (mock_users ls') `sublist_of` default [] (mock_users ls).
Proof.
  intros Huser. eexists. split.
  { unfold mockAuthAPI.deleteAccount, js_bind, getCurrentUser, getUsers, getTasks.
    simpl. rewrite Huser. reflexivity. }
  simpl. split; [done |]. split; [done |].
  split; [| split; [| split; apply filter_sublist]].
  - intros t. rewrite elem_of_filter_bool, negb_true_iff, strict_eq_false. done.
  - intros u. rewrite elem_of_filter_bool, negb_true_iff, strict_eq_false. done.
Qed.

Lemma deleteAccount_removes_user_and_tasks_witness :
  exists ls',
    mockAuthAPI.deleteAccount two_user_store
      = (Return (ok_message "Account deleted successfully"), ls') /\
    mock_currentUser ls' = None /\
    mock_token ls' = None /\
    (forall t, t ∈ default [] (mock_tasks ls') <->
               t ∈ default [] (mock_tasks two_user_store) /\
               t !! "userId" <> ada_session !! "_id") /\
    (forall u, u ∈ default [] (mock_users ls') <->
               u ∈ default [] (mock_users two_user_store) /\
               u !! "_id" <> ada_session !! "_id") /\
    default [] (mock_tasks ls') `sublist_of` default [] (mock_tasks two_user_store) /\
    default [] (mock_users ls') `sublist_of` default [] (mock_users two_user_store).
Proof.
  apply (deleteAccount_removes_user_and_tasks two_user_store ada_session).
  vm_compute. reflexivity.
Defined.

(** ** Tasks and their owners *)

Lemma filter_sublist_insert {A} (p : A -> bool) (i : nat) (x y : A) (l : list A) :
  l !! i = Some x -> p x = false ->
  List.filter p l `sublist_of` <[i := y]> l.
Proof.
  revert i. induction l as [|z r IH]; intros [|i] Hx Hp; simplify_eq/=.
  - rewrite Hp. constructor. apply filter_sublist.
  - destruct (p z); constructor; by eapply IH.
Qed.

Lemma filter_sublist_splice {A} (p : A -> bool) (i : nat) (x : A) (l : list A) :
  l !! i = Some x -> p x = false ->
  List.filter p l `sublist_of` splice1 i l.
Proof.
  unfold splice1.
  revert i. induction l as [|z r IH]; intros [|i] Hx Hp; simplify_eq/=.
  - rewrite Hp. rewrite drop_0. apply filter_sublist.
  - destruct (p z); constructor; by eapply IH.
Qed.

Lemma owned_with_id_by_owned (id : option jsval) (user t : obj) :
  owned_with_id_by id user t = true -> owned_by user t = true.
Proof. unfold owned_with_id_by. by intros [_ ?]%andb_true_iff. Qed.

Lemma read_calls_keep_store (c : call) :
  match c with
  | GetMe | GetAll _ _ | GetOne _ | GetStats => True
  | _ => False
  end ->
  keeps (fun ls => ls) (run_call c).
Proof.
  destruct c; simpl; try done; intros _;
    unfold mockAuthAPI.getMe, mockTaskAPI.getAll, mockTaskAPI.getOne,
      mockTaskAPI.getStats;
    keeps_tac.
Qed.

Lemma update_with_session (id : option jsval) (taskData : obj) (now : string)
  (ls : localStorage) (user : obj) :
  mock_currentUser ls = Some user ->
  mockTaskAPI.update id taskData now ls =
    match findIndex (owned_with_id_by id user) (default [] (mock_tasks ls)) with
    | None => (Return (failure "Task not found"), ls)
    | Some i =>
        let tasks :=
          alter (fun t => <["updatedAt" := JStr now]> (spread t taskData)) i
            (default [] (mock_tasks ls)) in
        (Return (ok_data (PObj (tasks !!! i))),
         mkStorage (mock_users ls) (Some tasks) (mock_currentUser ls) (mock_token ls))
    end.
Proof.
  intros Huser.
  unfold mockTaskAPI.update, js_bind, getTasks, getCurrentUser, lift. simpl.
  rewrite Huser, findIndexM_owned. simpl.
  destruct (findIndex _ _); simpl; [| done]. by rewrite Huser.
Qed.

Lemma delete_with_session (id : option jsval) (ls : localStorage) (user : obj) :
  mock_currentUser ls = Some user ->
  mockTaskAPI.delete id ls =
    match findIndex (owned_with_id_by id user) (default [] (mock_tasks ls)) with
    | None => (Return (failure "Task not found"), ls)
    | Some i =>
        (Return (ok_message "Task deleted successfully"),
         mkStorage (mock_users ls) (Some (splice1 i (default [] (mock_tasks ls))))
           (mock_currentUser ls) (mock_token ls))
    end.
Proof.
  intros Huser.
  unfold mockTaskAPI.delete, js_bind, getTasks, getCurrentUser, lift. simpl.
  rewrite Huser, findIndexM_owned. simpl.
  destruct (findIndex _ _); simpl; [| done]. by rewrite Huser.
Qed.

Lemma findM_owned_pure (id : option jsval) (user : obj) (tasks : list obj) :
  findM (mockTaskAPI.owned_with_id id (Some user)) tasks
  = Return (find (owned_with_id_by id user) tasks).
Proof.
  induction tasks as [|t r IH]; [done |].
  cbn [findM]. rewrite owned_with_id_some. simpl.
  by destruct (owned_with_id_by id user t).
Qed.

Lemma getOne_with_session (id : option jsval) (ls : localStorage) (user : obj) :
  mock_currentUser ls = Some user ->
  mockTaskAPI.getOne id ls =
    (match find (owned_with_id_by id user) (default [] (mock_tasks ls)) with
     | None => Return (failure "Task not found")
     | Some t => Return (ok_data (PObj t))
     end, ls).
Proof.
  intros Huser.
  unfold mockTaskAPI.getOne, js_bind, getTasks, getCurrentUser, lift. simpl.
  rewrite Huser, findM_owned_pure. simpl.
  by destruct (find _ _).
Qed.

Lemma create_with_session (taskData : obj) (_id createdAt updatedAt : string)
  (ls : localStorage) (user : obj) :
  mock_currentUser ls = Some user ->
  let newTask := literal [
    ("_id", Some (JStr _id));
    ("userId", user !! "_id");
    ("title", taskData !! "title");
    ("description", js_or (taskData !! "description") (Some (JStr "")));
    ("status", js_or (taskData !! "status") (Some (JStr "pending")));
    ("priority", js_or (taskData !! "priority") (Some (JStr "medium")));
    ("dueDate", js_or (taskData !! "dueDate") (Some JNull));
    ("createdAt", Some (JStr createdAt));
    ("updatedAt", Some (JStr updatedAt)) ] in
  mockTaskAPI.create taskData _id createdAt updatedAt ls =
    (Return (ok_data (PObj newTask)),
     mkStorage (mock_users ls) (Some (default [] (mock_tasks ls) ++ [newTask]))
       (mock_currentUser ls) (mock_token ls)).
Proof.
  intros Huser newTask.
  unfold mockTaskAPI.create, js_bind, getCurrentUser, getTasks. simpl.
  rewrite Huser. unfold saveTasks, simulateDelay, js_ret. simpl.
  by rewrite Huser.
Qed.

(** X6: with a current user, no task operation ([getAll], [getOne],
    [create], [update], [delete], [getStats]) removes, changes or reorders a
    task of another user: the tasks not owned by the current user are still
    in the store afterwards, in the same order, whatever the arguments. *)
Theorem task_calls_spare_other_users (c : call) (ls : localStorage) (user : obj) :
  mock_currentUser ls = Some user ->
  match c with
  | GetAll _ _ | GetOne _ | Create _ _ _ _ | Update _ _ _ | Delete _ | GetStats =>
      True
  | _ => False
  end ->
  List.filter (fun t => negb (owned_by user t)) (default [] (mock_tasks ls))
    `sublist_of` default [] (mock_tasks (run_call c ls).2).
Proof.
  intros Huser Hc.
  pose proof (read_calls_keep_store c) as Hread.
  destruct c; try done;
    try (specialize (Hread I ls); cbn beta in Hread; rewrite Hread;
         apply filter_sublist);
    clear Hread.
  - cbn [run_call]. rewrite (create_with_session _ _ _ _ _ _ Huser). simpl.
    apply sublist_inserts_r, filter_sublist.
  - cbn [run_call]. rewrite (update_with_session _ _ _ _ _ Huser).
    destruct (findIndex _ _) as [i |] eqn:Hi; simpl; [| apply filter_sublist].
    destruct (findIndex_lookup _ _ _ Hi) as (t & Ht & Hown).
    rewrite (list_alter_at _ _ _ _ Ht).
    apply (filter_sublist_insert _ _ t); [done |].
    by rewrite (owned_with_id_by_owned _ _ _ Hown).
  - cbn [run_call]. rewrite (delete_with_session _ _ _ Huser).
    destruct (findIndex _ _) as [i |] eqn:Hi; simpl; [| apply filter_sublist].
    destruct (findIndex_lookup _ _ _ Hi) as (t & Ht & Hown).
    apply (filter_sublist_splice _ _ t); [done |].
    by rewrite (owned_with_id_by_owned _ _ _ Hown).
Qed.

Lemma task_calls_spare_other_users_witness :
  List.filter (fun t => negb (owned_by ada_session t))
    (default [] (mock_tasks two_user_store))
    `sublist_of`
    default [] (mock_tasks (run_call (Delete (Some (JStr "t1"))) two_user_store).2).
Proof.
  apply (task_calls_spare_other_users (Delete (Some (JStr "t1"))) two_user_store
           ada_session).
  - vm_compute. reflexivity.
  - exact I.
Defined.

(** X7: after a [create] by the current user, [getOne] with the generated
    identifier returns the very task that [create] returned, provided the
    user had no task with that identifier before (otherwise [getOne] finds
    the older one first). *)
Theorem create_then_getOne (ls : localStorage) (user taskData : obj)
  (_id createdAt updatedAt : string) :
  mock_currentUser ls = Some user ->
  find (owned_with_id_by (Some (JStr _id)) user) (default [] (mock_tasks ls)) = None ->
  exists newTask ls',
    mockTaskAPI.create taskData _id createdAt updatedAt ls
      = (Return (ok_data (PObj newTask)), ls') /\
    mockTaskAPI.getOne (Some (JStr _id)) ls'
      = (Return (ok_data (PObj newTask)), ls').
Proof.
  intros Huser Hfresh.
  eexists _, _. split; [by apply create_with_session |].
  rewrite (getOne_with_session _ _ user) by done. simpl.
  rewrite (find_snoc _ _ _ Hfresh); [done |].
  unfold owned_with_id_by, owned_by. rewrite !literal_lookup. simpl.
  by rewrite !strict_eq_refl.
Qed.

Lemma create_then_getOne_witness :
  exists newTask ls',
    mockTaskAPI.create spec_task "t1" "2024-01-01T08:00:00.000Z"
      "2024-01-01T08:00:00.000Z" ada_store
      = (Return (ok_data (PObj newTask)), ls') /\
    mockTaskAPI.getOne (Some (JStr "t1")) ls'
      = (Return (ok_data (PObj newTask)), ls').
Proof.
  apply (create_then_getOne ada_store ada_session spec_task "t1"
           "2024-01-01T08:00:00.000Z" "2024-01-01T08:00:00.000Z").
  - vm_compute. reflexivity.
  - vm_compute. reflexivity.
Defined.

Lemma findIndex_before {A} (p : A -> bool) (l : list A) (i j : nat) (x : A) :
  findIndex p l = Some i -> j < i -> l !! j = Some x -> p x = false.
Proof.
  revert i j. induction l as [|y r IH]; intros i j; [done |]. simpl.
  destruct (p y) eqn:Hy.
  - intros [= <-]. lia.
  - destruct (findIndex p r) as [k |] eqn:Hr; [| done].
    intros [= <-] Hj. destruct j as [|j]; simpl.
    + by intros [= <-].
    + apply (IH k j eq_refl). lia.
Qed.

Lemma find_splice {A} (p : A -> bool) (l : list A) (i : nat) :
  findIndex p l = Some i ->
  find p (splice1 i l) = find p (drop (S i) l).
Proof.
  unfold splice1, find.
  revert i. induction l as [|y r IH]; intros i; [done |]. simpl.
  destruct (p y) eqn:Hy.
  - intros [= <-]. by rewrite drop_0.
  - destruct (findIndex p r) as [k |] eqn:Hr; [| done].
    intros [= <-]. simpl. rewrite Hy. by apply IH.
Qed.

(** X8: [delete] removes exactly the first task of the current user that
    has the identifier asked for: the store gets one task shorter, the tasks
    before it and after it keep their order, and a [getOne] with the same
    identifier afterwards finds the user's next task with that identifier
    if there is one and answers "Task not found" otherwise. *)
Theorem delete_removes_first_match (ls : localStorage) (user : obj)
  (id : option jsval) (i : nat) :
  mock_currentUser ls = Some user ->
  findIndex (owned_with_id_by id user) (default [] (mock_tasks ls)) = Some i ->
  exists ls',
    mockTaskAPI.delete id ls
      = (Return (ok_message "Task deleted successfully"), ls') /\
    default [] (mock_tasks ls')
      = take i (default [] (mock_tasks ls)) ++ drop (S i) (default [] (mock_tasks ls)) /\
    S (length (default [] (mock_tasks ls'))) = length (default [] (mock_tasks ls)) /\
    mockTaskAPI.getOne id ls' =
      (match find (owned_with_id_by id user) (drop (S i) (default [] (mock_tasks ls))) with
       | None => Return (failure "Task not found")
       | Some t => Return (ok_data (PObj t))
       end, ls').
Proof.
  intros Huser Hi.
  eexists. split; [by rewrite (delete_with_session _ _ _ Huser), Hi |].
  simpl. split; [done |]. split.
  - destruct (findIndex_lookup _ _ _ Hi) as (t & Ht & _).
    apply lookup_lt_Some in Ht. unfold splice1.
    rewrite length_app, length_take, length_drop. lia.
  - rewrite (getOne_with_session _ _ user) by done. simpl.
    by rewrite (find_splice _ _ _ Hi).
Qed.

Lemma delete_removes_first_match_witness :
  exists ls',
    mockTaskAPI.delete (Some (JStr "t1")) ada_task_store
      = (Return (ok_message "Task deleted successfully"), ls') /\
    default [] (mock_tasks ls')
      = take 0 (default [] (mock_tasks ada_task_store))
        ++ drop 1 (default [] (mock_tasks ada_task_store)) /\
    S (length (default [] (mock_tasks ls')))
      = length (default [] (mock_tasks ada_task_store)) /\
    mockTaskAPI.getOne (Some (JStr "t1")) ls' =
      (match find (owned_with_id_by (Some (JStr "t1")) ada_session)
               (drop 1 (default [] (mock_tasks ada_task_store))) with
       | None => Return (failure "Task not found")
       | Some t => Return (ok_data (PObj t))
       end, ls').
Proof.
  apply (delete_removes_first_match ada_task_store ada_session
           (Some (JStr "t1")) 0).
  - vm_compute. reflexivity.
  - vm_compute. reflexivity.
Defined.

Lemma findIndex_none {A} (p : A -> bool) (l : list A) :
  (forall x, x ∈ l -> p x = false) -> findIndex p l = None.
Proof.
  induction l as [|y r IH]; intros H; [done |]. simpl.
  rewrite (H y) by left. rewrite IH; [done |].
  intros x Hx. apply H. by right.
Qed.

(** X9: with a current user, an identifier that only tasks of other users
    carry (or no task at all) is not found: [getOne], [update] and [delete]
    answer "Task not found" and leave the store as it was. *)
Theorem foreign_task_not_found (ls : localStorage) (user : obj)
  (id : option jsval) (taskData : obj) (now : string) :
  mock_currentUser ls = Some user ->
  (forall t, t ∈ default [] (mock_tasks ls) -> t !! "_id" = id ->
             t !! "userId" <> user !! "_id") ->
  mockTaskAPI.getOne id ls = (Return (failure "Task not found"), ls) /\
  mockTaskAPI.update id taskData now ls = (Return (failure "Task not found"), ls) /\
  mockTaskAPI.delete id ls = (Return (failure "Task not found"), ls).
Proof.
  intros Huser Hforeign.
  assert (Hnone : findIndex (owned_with_id_by id user) (default [] (mock_tasks ls)) = None).
  { apply findIndex_none. intros t Ht.
    unfold owned_with_id_by, owned_by.
    destruct (strict_eq (t !! "_id") id) eqn:Hid; [| done]. simpl.
    apply strict_eq_true in Hid. apply strict_eq_false. by apply Hforeign. }
  rewrite (getOne_with_session _ _ _ Huser), (update_with_session _ _ _ _ _ Huser),
    (delete_with_session _ _ _ Huser), find_findIndex, Hnone.
  done.
Qed.

Lemma two_user_store_t0_foreign (t : obj) :
  t ∈ default [] (mock_tasks two_user_store) ->
  t !! "_id" = Some (JStr "t0") ->
  t !! "userId" <> ada_session !! "_id".
Proof.
  intros Ht Hid.
  assert (H : forallb (fun t : obj =>
                negb (strict_eq (t !! "_id") (Some (JStr "t0")))
                || negb (strict_eq (t !! "userId") (ada_session !! "_id")))
              (default [] (mock_tasks two_user_store)) = true)
    by (vm_compute; reflexivity).
  rewrite forallb_forall in H. apply list_elem_of_In in Ht.
  apply H, orb_true_iff in Ht as [Hne | Hne];
    apply negb_true_iff, strict_eq_false in Hne; done.
Qed.

Lemma foreign_task_not_found_witness :
  mockTaskAPI.getOne (Some (JStr "t0")) two_user_store
    = (Return (failure "Task not found"), two_user_store) /\
  mockTaskAPI.update (Some (JStr "t0")) complete_patch "2024-01-05T00:00:00.000Z"
    two_user_store
    = (Return (failure "Task not found"), two_user_store) /\
  mockTaskAPI.delete (Some (JStr "t0")) two_user_store
    = (Return (failure "Task not found"), two_user_store).
Proof.
  apply (foreign_task_not_found two_user_store ada_session (Some (JStr "t0"))
           complete_patch "2024-01-05T00:00:00.000Z").
  - vm_compute. reflexivity.
  - exact two_user_store_t0_foreign.
Defined.

(** ** What each operation leaves alone *)

(** X10: the reading operations [getMe], [getAll], [getOne] and [getStats]
    never write: whatever they answer, and also when they throw, the store
    afterwards is the store before. *)
Theorem read_calls_change_nothing (c : call) (ls : localStorage) :
  match c with
  | GetMe | GetAll _ _ | GetOne _ | GetStats => (run_call c ls).2 = ls
  | _ => True
  end.
Proof.
  destruct c; try done; simpl;
    unfold mockAuthAPI.getMe, mockTaskAPI.getAll, mockTaskAPI.getOne,
      mockTaskAPI.getStats;
    match goal with |- (?m ls).2 = ls => revert ls; change (keeps (fun s => s) m) end;
    keeps_tac.
Qed.

(** X11: the writing operations stay in their own collection.  [create],
    [update] and [delete] never change the users, the current user or the
    token; [signup], [login], [updateProfile], [changePassword] and [logout]
    never change the tasks; [changePassword] changes neither the current
    user nor the token. *)
Theorem write_calls_keep_other_collections (c : call) (ls : localStorage) :
  let ls' := (run_call c ls).2 in
  match c with
  | Create _ _ _ _ | Update _ _ _ | Delete _ =>
      mock_users ls' = mock_users ls /\
      mock_currentUser ls' = mock_currentUser ls /\
      mock_token ls' = mock_token ls
  | Signup _ _ _ _ | Login _ _ | UpdateProfile _ | Logout =>
      mock_tasks ls' = mock_tasks ls
  | ChangePassword _ =>
      mock_tasks ls' = mock_tasks ls /\
      mock_currentUser ls' = mock_currentUser ls /\
      mock_token ls' = mock_token ls
  | _ => True
  end.
Proof.
  destruct c; try done; simpl;
    unfold mockAuthAPI.signup, mockAuthAPI.login, mockAuthAPI.updateProfile,
      mockAuthAPI.changePassword, mockAuthAPI.logout,
      mockTaskAPI.create, mockTaskAPI.update, mockTaskAPI.delete;
    repeat split;
    match goal with
    | |- ?f (?m ls).2 = ?f ls => revert ls; change (keeps f m)
    end;
    keeps_tac.
Qed.

(** ** Invariants of the stores the API produces *)

Lemma call_session_and_token (c : call) (ls : localStorage) :
  let ls' := (run_call c ls).2 in
  (mock_currentUser ls' = mock_currentUser ls /\ mock_token ls' = mock_token ls) \/
  (is_Some (mock_currentUser ls') /\ is_Some (mock_token ls')) \/
  (mock_currentUser ls' = None /\ mock_token ls' = None) \/
  (is_Some (mock_currentUser ls) /\ is_Some (mock_currentUser ls') /\
   mock_token ls' = mock_token ls).
Proof.
  destruct c; cbn [run_call]; cbn zeta.
  - unfold mockAuthAPI.signup, js_bind, getUsers, lift. simpl.
    destruct (find _ _); simpl; [by left |].
    destruct (hashPassword _); simpl; [right; left; eauto | by left].
  - unfold mockAuthAPI.login, js_bind, getUsers, lift. simpl.
    destruct (find _ _); simpl; [| by left].
    destruct (verifyPassword _ _) as [[] |]; simpl;
      [right; left; eauto | by left | by left].
  - left. split; revert ls;
      [change (keeps mock_currentUser mockAuthAPI.getMe)
      | change (keeps mock_token mockAuthAPI.getMe)];
      unfold mockAuthAPI.getMe; keeps_tac.
  - unfold mockAuthAPI.updateProfile, js_bind, getCurrentUser, getUsers. simpl.
    destruct (mock_currentUser ls) eqn:Hu; simpl; [| left; by rewrite Hu].
    right. right. right.
    destruct (findIndex _ _); simpl; eauto.
  - left. split; revert ls;
      [change (keeps mock_currentUser (mockAuthAPI.changePassword passwordData))
      | change (keeps mock_token (mockAuthAPI.changePassword passwordData))];
      unfold mockAuthAPI.changePassword; keeps_tac.
  - unfold mockAuthAPI.deleteAccount, js_bind, getCurrentUser. simpl.
    destruct (mock_currentUser ls) eqn:Hu; simpl; [by right; right; left |].
    left. by rewrite Hu.
  - right. right. left. done.
  - left. split; revert ls;
      [change (keeps mock_currentUser (mockTaskAPI.getAll h params))
      | change (keeps mock_token (mockTaskAPI.getAll h params))];
      unfold mockTaskAPI.getAll; keeps_tac.
  - left. split; revert ls;
      [change (keeps mock_currentUser (mockTaskAPI.getOne id))
      | change (keeps mock_token (mockTaskAPI.getOne id))];
      unfold mockTaskAPI.getOne; keeps_tac.
  - left. split; revert ls;
      [change (keeps mock_currentUser (mockTaskAPI.create taskData _id createdAt updatedAt))
      | change (keeps mock_token (mockTaskAPI.create taskData _id createdAt updatedAt))];
      unfold mockTaskAPI.create; keeps_tac.
  - left. split; revert ls;
      [change (keeps mock_currentUser (mockTaskAPI.update id taskData now))
      | change (keeps mock_token (mockTaskAPI.update id taskData now))];
      unfold mockTaskAPI.update; keeps_tac.
  - left. split; revert ls;
      [change (keeps mock_currentUser (mockTaskAPI.delete id))
      | change (keeps mock_token (mockTaskAPI.delete id))];
      unfold mockTaskAPI.delete; keeps_tac.
  - left. split; revert ls;
      [change (keeps mock_currentUser mockTaskAPI.getStats)
      | change (keeps mock_token mockTaskAPI.getStats)];
      unfold mockTaskAPI.getStats; keeps_tac.
Qed.

(** X12: in every store the API produces from an empty [localStorage], a
    token is stored exactly when there is a current user: [signup] and
    [login] set both, [logout] and [deleteAccount] clear both, and no other
    operation sets or clears one without the other. *)
Theorem reachable_token_iff_session (ls : localStorage) :
  reachable ls ->
  (is_Some (mock_token ls) <-> is_Some (mock_currentUser ls)).
Proof.
  induction 1 as [| ls c _ IH _]; [by split; intros [? [=]] |].
  destruct (call_session_and_token c ls)
    as [[-> ->] | [[Hs Ht] | [[-> ->] | (Hs & Hs' & ->)]]].
  - done.
  - tauto.
  - by split; intros [? [=]].
  - tauto.
Qed.

Lemma reachable_token_iff_session_witness :
  is_Some (mock_token ada_store) <-> is_Some (mock_currentUser ada_store).
Proof.
  apply (reachable_token_iff_session ada_store).
  unfold ada_store. apply run_calls_from_empty.
Defined.

(** X13: in every store the API produces, the current user has a stored
    record: [updateProfile] and [changePassword] always find the record they
    are to change, and it carries the [_id] of the session. *)
Theorem reachable_session_has_record (ls : localStorage) (user : obj) :
  reachable ls ->
  mock_currentUser ls = Some user ->
  exists u,
    stored_record user ls = Some u /\
    u ∈ default [] (mock_users ls) /\
    u !! "_id" = user !! "_id".
Proof.
  intros Hreach Huser.
  destruct (stored_record_of_session ls user (reachable_session_stored ls Hreach) Huser)
    as (i & u & _ & Hu & Hrec & Hid).
  exists u. split; [done |]. split; [| done].
  apply list_elem_of_lookup. eauto.
Qed.

Lemma reachable_session_has_record_witness :
  exists u,
    stored_record ada_session ada_store = Some u /\
    u ∈ default [] (mock_users ada_store) /\
    u !! "_id" = ada_session !! "_id".
Proof.
  apply (reachable_session_has_record ada_store ada_session).
  - unfold ada_store. apply run_calls_from_empty.
  - vm_compute. reflexivity.
Defined.

(** X14: in every store the API produces, [create] by the current user
    stores a task whose [userId] is the [_id] of a stored user: no task is
    created for a user that does not exist. *)
Theorem create_owner_is_stored (ls : localStorage) (user taskData : obj)
  (_id createdAt updatedAt : string) :
  reachable ls ->
  mock_currentUser ls = Some user ->
  exists newTask ls',
    mockTaskAPI.create taskData _id createdAt updatedAt ls
      = (Return (ok_data (PObj newTask)), ls') /\
    newTask ∈ default [] (mock_tasks ls') /\
    newTask !! "userId" ∈ (fun u : obj => u !! "_id") <$> default [] (mock_users ls').
Proof.
  intros Hreach Huser.
  eexists _, _. split; [by apply create_with_session |]. simpl.
  split; [apply elem_of_app; right; left |].
  rewrite literal_lookup. simpl.
  by apply (reachable_session_stored ls Hreach).
Qed.

Lemma create_owner_is_stored_witness :
  exists newTask ls',
    mockTaskAPI.create spec_task "t1" "2024-01-01T08:00:00.000Z"
      "2024-01-01T08:00:00.000Z" ada_store
      = (Return (ok_data (PObj newTask)), ls') /\
    newTask ∈ default [] (mock_tasks ls') /\
    newTask !! "userId" ∈ (fun u : obj => u !! "_id") <$> default [] (mock_users ls').
Proof.
  apply (create_owner_is_stored ada_store ada_session spec_task "t1"
           "2024-01-01T08:00:00.000Z" "2024-01-01T08:00:00.000Z").
  - unfold ada_store. apply run_calls_from_empty.
  - vm_compute. reflexivity.
Defined.

Lemma alter_keeps_prop (k : string) (f : obj -> obj) (i : nat) (users : list obj) :
  (forall u, f u !! k = u !! k) ->
  (fun u : obj => u !! k) <$> alter f i users
  = (fun u : obj => u !! k) <$> users.
Proof.
  intros Hf. revert i.
  induction users as [|u r IH]; intros [|i]; [done | done | |].
  - cbn. by rewrite Hf.
  - cbn. f_equal. apply IH.
Qed.

Lemma login_keeps_users credentials token :
  keeps mock_users (mockAuthAPI.login credentials token).
Proof. unfold mockAuthAPI.login. keeps_tac. Qed.

Lemma call_keeps_emails_distinct (c : call) (ls : localStorage) :
  keeps_email_out c -> NoDup (stored_emails ls) ->
  NoDup (stored_emails (run_call c ls).2).
Proof.
  intros Hc Hnd. unfold stored_emails in *.
  pose proof (task_or_read_call_keeps c) as Hidle.
  destruct c; try (rewrite (proj2 (Hidle I) ls); exact Hnd); clear Hidle;
    cbn [run_call].
  - unfold mockAuthAPI.signup, js_bind, getUsers, lift. simpl.
    destruct (find _ _) eqn:Hfind; simpl; [done |].
    destruct (hashPassword _) as [hashed |]; simpl; [| done].
    rewrite fmap_app. apply NoDup_app. split; [done |]. split; [| apply NoDup_singleton].
    intros e He ->%list_elem_of_singleton.
    apply list_elem_of_fmap in He as (u & He & Hu).
    apply list_elem_of_In in Hu. apply (find_none _ _ Hfind) in Hu.
    apply strict_eq_false in Hu. apply Hu.
    rewrite literal_lookup in He. simpl in He. done.
  - by rewrite login_keeps_users.
  - simpl in Hc.
    unfold mockAuthAPI.updateProfile, js_bind, getCurrentUser, getUsers. simpl.
    destruct (mock_currentUser ls); simpl; [| done].
    destruct (findIndex _ _); simpl; [| done].
    rewrite alter_keeps_prop; [done |].
    intros u. unfold spread. by rewrite lookup_union, Hc, (left_id_L None _).
  - unfold mockAuthAPI.changePassword, js_bind, getCurrentUser, getUsers, lift.
    simpl.
    destruct (mock_currentUser ls); simpl; [| done].
    destruct (findIndex _ _); simpl; [| done].
    destruct (verifyPassword _ _) as [[] |]; simpl; [| done | done].
    destruct (hashPassword _) as [hashed |]; simpl; [| done].
    rewrite alter_keeps_prop; [done |].
    intros u. by rewrite lookup_insert_ne.
  - unfold mockAuthAPI.deleteAccount, js_bind, getCurrentUser, getUsers. simpl.
    destruct (mock_currentUser ls); simpl; [| done].
    eapply sublist_NoDup; [exact Hnd |].
    apply fmap_sublist, filter_sublist.
  - done.
Qed.

(** X15: as long as no [updateProfile] carries an [email] in its patch, no
    two stored users have the same email: [signup] refuses a taken email,
    and every other operation keeps or removes records without touching
    their emails. *)
Theorem reachable_emails_distinct (ls : localStorage) :
  reachable_by keeps_email_out ls -> NoDup (stored_emails ls).
Proof.
  induction 1 as [| ls c _ IH Hc]; [constructor |].
  by apply call_keeps_emails_distinct.
Qed.

Lemma reachable_emails_distinct_witness : NoDup (stored_emails two_user_store).
Proof.
  apply (reachable_emails_distinct two_user_store).
  unfold two_user_store. apply run_calls_reachable; [| constructor].
  repeat constructor.
Defined.

(** X16: [updateProfile] and [changePassword] change at most one stored
    record, the one at the first index with the session's [_id]: the number
    of users stays the same and every record at another index is left as it
    was. *)
Theorem profile_calls_change_one_record (c : call) (ls : localStorage)
  (user : obj) :
  match c with
  | UpdateProfile _ | ChangePassword _ => True
  | _ => False
  end ->
  mock_currentUser ls = Some user ->
  let users := default [] (mock_users ls) in
  let users' := default [] (mock_users (run_call c ls).2) in
  length users' = length users /\
  forall j,
    findIndex (fun u => strict_eq (u !! "_id") (user !! "_id")) users <> Some j ->
    users' !! j = users !! j.
Proof.
  intros Hc Huser users users'. subst users users'.
  destruct c; try done; cbn [run_call].
  - unfold mockAuthAPI.updateProfile, js_bind, getCurrentUser, getUsers. simpl.
    rewrite Huser. simpl.
    destruct (findIndex _ _) as [i |]; simpl; [| done].
    split; [apply length_alter |].
    intros j Hj. apply list_lookup_alter_ne. congruence.
  - unfold mockAuthAPI.changePassword, js_bind, getCurrentUser, getUsers, lift.
    simpl. rewrite Huser. simpl.
    destruct (findIndex _ _) as [i |]; simpl; [| done].
    destruct (verifyPassword _ _) as [[] |]; simpl; [| done | done].
    destruct (hashPassword _) as [hashed |]; simpl; [| done].
    split; [apply length_alter |].
    intros j Hj. apply list_lookup_alter_ne. congruence.
Qed.

Lemma profile_calls_change_one_record_witness :
  let users := default [] (mock_users two_user_store) in
  let users' :=
    default [] (mock_users (run_call (ChangePassword ada_new_password)
                              two_user_store).2) in
  length users' = length users /\
  forall j,
    findIndex (fun u => strict_eq (u !! "_id") (ada_session !! "_id")) users
      <> Some j ->
    users' !! j = users !! j.
Proof.
  apply (profile_calls_change_one_record (ChangePassword ada_new_password)
           two_user_store ada_session).
  - exact I.
  - vm_compute. reflexivity.
Defined.

(** X17: [updateProfile] does not check the email of its patch against the
    other users.  When the patch carries the email of another stored user,
    the call still succeeds, the record of the session user takes that
    email, the other record is left as it was, and the store then holds two
    users with the same email. *)
Theorem updateProfile_allows_duplicate_email (ls : localStorage)
  (user userData : obj) (i j : nat) (e : jsval) :
  mock_currentUser ls = Some user ->
  findIndex (fun u => strict_eq (u !! "_id") (user !! "_id"))
    (default [] (mock_users ls)) = Some i ->
  j <> i ->
  default [] (mock_users ls) !! j ≫= (.!! "email") = Some e ->
  userData !! "email" = Some e ->
  exists ls',
    mockAuthAPI.updateProfile userData ls
      = (Return (ok_data (PObj (spread user userData))), ls') /\
    default [] (mock_users ls') !! i ≫= (.!! "email") = Some e /\
    default [] (mock_users ls') !! j = default [] (mock_users ls) !! j /\
    ~ NoDup (stored_emails ls').
Proof.
  intros Huser Hi Hji Hj He.
  destruct (findIndex_lookup _ _ _ Hi) as (u & Hu & _).
  assert (Hlt : i < length (default [] (mock_users ls))) by (by eapply lookup_lt_Some).
  eexists. split.
  { unfold mockAuthAPI.updateProfile, js_bind, getCurrentUser, getUsers. simpl.
    rewrite Huser. simpl. rewrite Hi. simpl. reflexivity. }
  simpl. rewrite (list_alter_at _ _ _ _ Hu).
  assert (Hi' : <[i := spread u userData]> (default [] (mock_users ls)) !! i
                ≫= (.!! "email") = Some e).
  { rewrite list_lookup_insert_eq by done. simpl.
    unfold spread. by rewrite lookup_union, He, union_Some_l. }
  assert (Hj' : <[i := spread u userData]> (default [] (mock_users ls)) !! j
                = default [] (mock_users ls) !! j)
    by (by apply list_lookup_insert_ne).
  split; [done |]. split; [done |].
  intros Hnd. apply Hji.
  apply (NoDup_lookup _ j i (Some e) Hnd); unfold stored_emails; simpl;
    rewrite list_lookup_fmap.
  - rewrite Hj'. destruct (default [] (mock_users ls) !! j); simplify_eq/=.
    by f_equal.
  - destruct (<[i := spread u userData]> (default [] (mock_users ls)) !! i);
      simplify_eq/=. by f_equal.
Qed.

Lemma updateProfile_allows_duplicate_email_witness :
  exists ls',
    mockAuthAPI.updateProfile bob_email_patch two_user_store
      = (Return (ok_data (PObj (spread ada_session bob_email_patch))), ls') /\
    default [] (mock_users ls') !! 1 ≫= (.!! "email") = Some (JStr "bob@x.com") /\
    default [] (mock_users ls') !! 0 = default [] (mock_users two_user_store) !! 0 /\
    ~ NoDup (stored_emails ls').
Proof.
  apply (updateProfile_allows_duplicate_email two_user_store ada_session
           bob_email_patch 1 0 (JStr "bob@x.com")).
  - vm_compute. reflexivity.
  - vm_compute. reflexivity.
  - lia.
  - vm_compute. reflexivity.
  - vm_compute. reflexivity.
Defined.

(** ** Sample data *)

(** X18: [initializeMockData] runs once.  On a store not yet marked, with a
    current user, it appends the two sample tasks, both owned by that user
    (one pending with high priority, one in progress with medium priority),
    and marks the store; without a current user it adds nothing and still
    marks the store, so that no later call adds the samples either.  On a
    marked store it does nothing.  It never touches users, current user or
    token, and calling it again, with whatever clock and identifiers, changes
    nothing more. *)
Theorem initializeMockData_once
  (id1 tomorrow created1 updated1 id2 created2 updated2 : string)
  (id1' tomorrow' created1' updated1' id2' created2' updated2' : string)
  (ds : demoStorage) :
  let ds' := initializeMockData id1 tomorrow created1 updated1
               id2 created2 updated2 ds in
  let ls := demo_store ds in
  let ls' := demo_store ds' in
  not_initialized ds' = false /\
  initializeMockData id1' tomorrow' created1' updated1' id2' created2' updated2' ds'
    = ds' /\
  mock_users ls' = mock_users ls /\
  mock_currentUser ls' = mock_currentUser ls /\
  mock_token ls' = mock_token ls /\
  match mock_currentUser ls with
  | Some user =>
      if not_initialized ds then
        exists t1 t2,
          default [] (mock_tasks ls') = default [] (mock_tasks ls) ++ [t1; t2] /\
          owned_by user t1 = true /\ owned_by user t2 = true /\
          t1 !! "_id" = Some (JStr id1) /\ t2 !! "_id" = Some (JStr id2) /\
          t1 !! "status" = Some (JStr "pending") /\
          t1 !! "priority" = Some (JStr "high") /\
          t2 !! "status" = Some (JStr "in-progress") /\
          t2 !! "priority" = Some (JStr "medium")
      else ls' = ls
  | None => ls' = ls
  end.
Proof.
  cbn zeta. unfold initializeMockData.
  destruct (not_initialized ds) eqn:Hinit.
  - split; [reflexivity |]. split; [reflexivity |].
    destruct (mock_currentUser (demo_store ds)) as [user |] eqn:Huser; simpl;
      rewrite ?Huser; repeat split; try reflexivity.
    eexists _, _. split; [reflexivity |].
    unfold owned_by. rewrite !literal_lookup. simpl.
    rewrite strict_eq_refl. repeat split; reflexivity.
  - rewrite Hinit. repeat split; try reflexivity.
    by destruct (mock_currentUser (demo_store ds)).
Qed.

(** ** Routing *)


(** ** The Dashboard's list *)

Lemma getAll_answers (h : host) (params : obj) (ls : localStorage) :
  exists r,
    mockTaskAPI.getAll h params ls = (r, ls) /\
    ((exists x, r = Throw x) \/
     r = Return (failure "Not authenticated") \/
     exists l, r = Return (ok_data (PList l (length l)))).
Proof.
  unfold mockTaskAPI.getAll, js_bind, getTasks, getCurrentUser, lift. simpl.
  destruct (mock_currentUser ls); simpl; [| eauto].
  destruct (truthy (params !! "search")); simpl.
  - destruct (call_toLowerCase _); simpl; [| eauto].
    destruct (filterM _ _); simpl; [| eauto].
    destruct (truthy (params !! "sort")); simpl; [| eauto 6].
    repeat (destruct (strict_eq (params !! "sort") _); simpl;
            [destruct (sortM _ _); simpl; eauto 6 |]).
    eauto 6.
  - destruct (truthy (params !! "sort")); simpl; [| eauto 6].
    repeat (destruct (strict_eq (params !! "sort") _); simpl;
            [destruct (sortM _ _); simpl; eauto 6 |]).
    eauto 6.
Qed.

(** X20: with the backend unreachable, [fetchTasks] never shows a task.
    The mock answers with the list one level higher than [fetchTasks] looks
    for it ([response.data] is the list object, which has no [success]), so
    every outcome of [getAll] (a list, "Not authenticated", an exception)
    ends in the toast "Failed to fetch tasks"; the tasks on display stay as
    they were, loading ends, and the store is not changed. *)
Theorem fetchTasks_shows_nothing (h : host) (filters : obj) (st : dashboard)
  (ls : localStorage) :
  fetchTasks h filters st ls
  = (mkDashboard (shown_tasks st) false ("Failed to fetch tasks", "error"), ls).
Proof.
  unfold fetchTasks.
  destruct (getAll_answers h filters ls) as (r & -> & [[x ->] | [-> | [l ->]]]);
    reflexivity.
Qed.

(** ** The auth context *)


Lemma hashPassword_returns (password : option jsval) :
  (exists hashed, hashPassword password = Return hashed)
  <-> latin1 (ToString password) = true.
Proof.
  unfold hashPassword, btoa.
  destruct (latin1 (ToString password)); simpl.
  - split; [done | eauto].
  - split; [by intros [? [=]] | done].
Qed.

Lemma signup_cases (userData : obj) (_id createdAt token : string)
  (ls : localStorage) :
  (exists u, u ∈ default [] (mock_users ls) /\
             u !! "email" = userData !! "email") /\
  mockAuthAPI.signup userData _id createdAt token ls
    = (Return (failure "Email already registered"), ls) \/
  (forall u, u ∈ default [] (mock_users ls) ->
             u !! "email" <> userData !! "email") /\
  ((exists x,
      hashPassword (userData !! "password") = Throw x /\
      mockAuthAPI.signup userData _id createdAt token ls = (Throw x, ls)) \/
   exists newUser hashed,
     hashPassword (userData !! "password") = Return hashed /\
     newUser !! "_id" = Some (JStr _id) /\
     newUser !! "email" = userData !! "email" /\
     newUser !! "password" = Some hashed /\
     mockAuthAPI.signup userData _id createdAt token ls
       = (Return (ok_data (PAuth token (delete "password" newUser))),
          mkStorage (Some (default [] (mock_users ls) ++ [newUser])) (mock_tasks ls)
            (Some (delete "password" newUser)) (Some token))).
Proof.
  destruct (find (fun u => strict_eq (u !! "email") (userData !! "email"))
              (default [] (mock_users ls))) as [u |] eqn:Hfind.
  - left. apply find_some in Hfind as Hu. destruct Hu as [Hin Hemail]. split.
    + exists u. split; [by apply list_elem_of_In | by apply strict_eq_true].
    + unfold mockAuthAPI.signup, js_bind, getUsers. simpl. by rewrite Hfind.
  - right. split.
    + intros u Hu. apply strict_eq_false.
      apply (find_none _ _ Hfind). by apply list_elem_of_In.
    + destruct (hashPassword (userData !! "password")) as [hashed | x] eqn:Hhash.
      * right.
        exists (literal [
          ("_id", Some (JStr _id));
          ("name", userData !! "name");
          ("email", userData !! "email");
          ("password", Some hashed);
          ("createdAt", Some (JStr createdAt)) ]), hashed.
        rewrite (signup_fresh _ _ _ _ _ _ Hfind Hhash), !literal_lookup.
        repeat split; reflexivity.
      * left. exists x. split; [done |]. by apply signup_throws.
Qed.

(** X22: with the backend unreachable, [signup] of the context succeeds
    exactly when no stored user has the email and the password can be
    encoded.  Then the mock gets one user more, with the generated [_id],
    and the context's ['token'] and ['user'] keys and the user in memory
    hold the mock's token and current user, which has no [password].
    Otherwise the outcome and the error are "Signup failed" (the mock's
    message "Email already registered" is lost) and the storage and the
    user in memory stay as they were. *)
Theorem context_signup_outcomes (name email password : option jsval)
  (_id createdAt token : string) (st : authContext) (b : browserStorage) :
  let r := context_signup name email password _id createdAt token st b in
  let out := r.1.1 in
  let st' := r.1.2 in
  let b' := r.2 in
  let users := default [] (mock_users (mock_part b)) in
  (outcome_success out = true <->
   (forall u, u ∈ users -> u !! "email" <> email) /\
   latin1 (ToString password) = true) /\
  (outcome_success out = true ->
     key_token b' = Some token /\
     mock_token (mock_part b') = Some token /\
     key_user b' = mock_currentUser (mock_part b') /\
     auth_user st' = key_user b' /\
     auth_error st' = None /\
     exists newUser,
       default [] (mock_users (mock_part b')) = users ++ [newUser] /\
       newUser !! "_id" = Some (JStr _id) /\
       newUser !! "email" = email /\
       key_user b' = Some (delete "password" newUser)) /\
  (outcome_success out = false ->
     outcome_message out = Some "Signup failed" /\
     b' = b /\
     auth_user st' = auth_user st /\
     auth_error st' = Some "Signup failed").
Proof.
  cbn zeta. unfold context_signup, settle_session.
  set (userData := literal [("name", name); ("email", email); ("password", password)]).
  assert (Hemail : userData !! "email" = email)
    by (unfold userData; by rewrite literal_lookup).
  assert (Hpassword : userData !! "password" = password)
    by (unfold userData; by rewrite literal_lookup).
  pose proof (hashPassword_returns password) as Hlatin.
  destruct (signup_cases userData _id createdAt token (mock_part b))
    as [[(u & Hin & Hu) ->]
       | [Hfree [(x & Hx & ->) | (newUser & hashed & Hh & Hid & Hmail & _ & ->)]]];
    simpl.
  - split; [| split; [done |]].
    + split; [done |]. intros [H _]. exfalso. apply (H u Hin). congruence.
    + intros _. by destruct b.
  - split; [| split; [done |]].
    + split; [done |]. intros [_ H]. apply Hlatin in H as [hashed H].
      rewrite Hpassword in Hx. congruence.
    + intros _. by destruct b.
  - split; [| split; [| done]].
    + split; [| done]. intros _. split.
      * intros u Hu. rewrite <- Hemail. by apply Hfree.
      * apply Hlatin. exists hashed. by rewrite <- Hpassword.
    + intros _. repeat split.
      exists newUser. repeat split; [done | congruence].
Qed.

(** X23: with the backend unreachable, [deleteAccount] of the context
    always reports success and forgets the session: the ['token'] and
    ['user'] keys are removed and no user is in memory, and the mock has no
    current user afterwards.  This is so also when the mock had no current
    user and answered "Not authenticated"; the mock is then left as it
    was, and nothing is deleted. *)
Theorem context_deleteAccount_outcomes (st : authContext) (b : browserStorage) :
  let r := context_deleteAccount st b in
  let b' := r.2 in
  r.1.1 = mkOutcome true None /\
  r.1.2 = mkAuth None None /\
  key_token b' = None /\
  key_user b' = None /\
  mock_currentUser (mock_part b') = None /\
  (mock_currentUser (mock_part b) = None -> mock_part b' = mock_part b) /\
  (forall user, mock_currentUser (mock_part b) = Some user ->
     mock_token (mock_part b') = None /\
     forall u, u ∈ default [] (mock_users (mock_part b')) ->
               u !! "_id" <> user !! "_id").
Proof.
  cbn zeta. unfold context_deleteAccount.
  unfold mockAuthAPI.deleteAccount, js_bind, getCurrentUser, getUsers, getTasks.
  simpl.
  destruct (mock_currentUser (mock_part b)) as [user |] eqn:Huser; simpl.
  - do 5 (split; [done |]). split; [done |].
    intros user' [= <-]. split; [done |]. intros u Hu.
    apply elem_of_filter_bool in Hu as [_ Hu].
    by apply negb_true_iff, strict_eq_false in Hu.
  - do 5 (split; [done |]). split; [done |]. intros user' [=].
Qed.

(** ** Round trips and agreement between operations *)

(** X24: after an [update] by the current user whose patch carries neither
    [_id] nor [userId], [getOne] with the same identifier returns the very
    task that [update] returned, and that task stands where the old one
    stood. *)
Theorem update_then_getOne (ls : localStorage) (user : obj) (id : option jsval)
  (taskData : obj) (now : string) (i : nat) :
  mock_currentUser ls = Some user ->
  findIndex (owned_with_id_by id user) (default [] (mock_tasks ls)) = Some i ->
  taskData !! "_id" = None ->
  taskData !! "userId" = None ->
  exists t' ls',
    mockTaskAPI.update id taskData now ls = (Return (ok_data (PObj t')), ls') /\
    default [] (mock_tasks ls') !! i = Some t' /\
    mockTaskAPI.getOne id ls' = (Return (ok_data (PObj t')), ls').
Proof.
  intros Huser Hi Hid Huid.
  destruct (findIndex_lookup _ _ _ Hi) as (t & Ht & Hown).
  assert (Hlt : i < length (default [] (mock_tasks ls))) by (by eapply lookup_lt_Some).
  eexists _, _. split.
  { rewrite (update_with_session _ _ _ _ _ Huser), Hi. cbn zeta.
    rewrite (list_alter_at _ _ _ _ Ht), list_lookup_total_insert_eq by done.
    reflexivity. }
  simpl. split; [by apply list_lookup_insert_eq |].
  rewrite (getOne_with_session _ _ user) by done. simpl.
  rewrite find_findIndex, (findIndex_insert _ i _ _ Hi).
  - simpl. by rewrite list_lookup_insert_eq.
  - unfold owned_with_id_by, owned_by in *.
    rewrite !lookup_insert_ne by done. unfold spread.
    rewrite !lookup_union, Hid, Huid, !(left_id_L None _). exact Hown.
Qed.

Lemma update_then_getOne_witness :
  exists t' ls',
    mockTaskAPI.update (Some (JStr "t1")) complete_patch "2024-01-05T00:00:00.000Z"
      ada_task_store
      = (Return (ok_data (PObj t')), ls') /\
    default [] (mock_tasks ls') !! 0 = Some t' /\
    mockTaskAPI.getOne (Some (JStr "t1")) ls' = (Return (ok_data (PObj t')), ls').
Proof.
  apply (update_then_getOne ada_task_store ada_session (Some (JStr "t1"))
           complete_patch "2024-01-05T00:00:00.000Z" 0).
  - vm_compute. reflexivity.
  - vm_compute. reflexivity.
  - vm_compute. reflexivity.
  - vm_compute. reflexivity.
Defined.

Lemma getAll_status_only (h : host) (params : obj) (ls : localStorage)
  (user : obj) :
  mock_currentUser ls = Some user ->
  params !! "priority" = None ->
  params !! "search" = None ->
  params !! "sort" = None ->
  let mine := List.filter (owned_by user) (default [] (mock_tasks ls)) in
  let listed :=
    if truthy (params !! "status") &&
       negb (strict_eq (params !! "status") (Some (JStr "all")))
    then List.filter (fun t => strict_eq (t !! "status") (params !! "status")) mine
    else mine in
  mockTaskAPI.getAll h params ls
  = (Return (ok_data (PList listed (length listed))), ls).
Proof.
  intros Huser Hpr Hse Hso mine listed.
  unfold mockTaskAPI.getAll, js_bind, getTasks, getCurrentUser. simpl.
  rewrite Huser. simpl. rewrite Hpr, Hse, Hso. simpl. reflexivity.
Qed.

(** X25: the statistics agree with the lists.  With a current user,
    [getAll] without a filter and with the status filter "pending",
    "in-progress" and "completed" each answer with a list, and [getStats]
    reports the lengths of these four lists as total, pending, in progress
    and completed. *)
Theorem getStats_agrees_with_getAll (h : host) (ls : localStorage) (user : obj) :
  mock_currentUser ls = Some user ->
  exists all pending in_progress completed,
    mockTaskAPI.getAll h ∅ ls
      = (Return (ok_data (PList all (length all))), ls) /\
    mockTaskAPI.getAll h (literal [("status", Some (JStr "pending"))]) ls
      = (Return (ok_data (PList pending (length pending))), ls) /\
    mockTaskAPI.getAll h (literal [("status", Some (JStr "in-progress"))]) ls
      = (Return (ok_data (PList in_progress (length in_progress))), ls) /\
    mockTaskAPI.getAll h (literal [("status", Some (JStr "completed"))]) ls
      = (Return (ok_data (PList completed (length completed))), ls) /\
    mockTaskAPI.getStats ls
      = (Return (ok_data (PStats (length all) (length pending)
                            (length in_progress) (length completed))), ls).
Proof.
  intros Huser.
  assert (Hone : forall s : string,
    truthy (Some (JStr s)) = true ->
    strict_eq (Some (JStr s)) (Some (JStr "all")) = false ->
    mockTaskAPI.getAll h (literal [("status", Some (JStr s))]) ls
    = (Return (ok_data (PList
         (List.filter (fun t => strict_eq (t !! "status") (Some (JStr s)))
            (List.filter (owned_by user) (default [] (mock_tasks ls))))
         (mockTaskAPI.count_status s
            (List.filter (owned_by user) (default [] (mock_tasks ls)))))), ls)).
  { intros s Hs Hall.
    rewrite (getAll_status_only h _ ls user Huser)
      by (rewrite literal_lookup; reflexivity).
    assert (Hst : literal [("status", Some (JStr s))] !! "status"
                  = Some (JStr s)) by (rewrite literal_lookup; reflexivity).
    rewrite Hst, Hs, Hall. reflexivity. }
  eexists _, _, _, _.
  split; [by apply getAll_status_only |].
  split; [by apply Hone |]. split; [by apply Hone |]. split; [by apply Hone |].
  unfold mockTaskAPI.getStats, js_bind, getTasks, getCurrentUser, lift.
  simpl. rewrite Huser, filterM_owned. reflexivity.
Qed.

Lemma getStats_agrees_with_getAll_witness :
  exists all pending in_progress completed,
    mockTaskAPI.getAll example_host ∅ two_user_store
      = (Return (ok_data (PList all (length all))), two_user_store) /\
    mockTaskAPI.getAll example_host (literal [("status", Some (JStr "pending"))])
      two_user_store
      = (Return (ok_data (PList pending (length pending))), two_user_store) /\
    mockTaskAPI.getAll example_host (literal [("status", Some (JStr "in-progress"))])
      two_user_store
      = (Return (ok_data (PList in_progress (length in_progress))), two_user_store) /\
    mockTaskAPI.getAll example_host (literal [("status", Some (JStr "completed"))])
      two_user_store
      = (Return (ok_data (PList completed (length completed))), two_user_store) /\
    mockTaskAPI.getStats two_user_store
      = (Return (ok_data (PStats (length all) (length pending)
                            (length in_progress) (length completed))),
         two_user_store).
Proof.
  apply (getStats_agrees_with_getAll example_host two_user_store ada_session).
  vm_compute. reflexivity.
Defined.

(** ** The Dashboard's handlers *)

(** X26: with the backend unreachable, [handleSubmit] with a valid form
    reports success whenever the mock's call returns, without looking at
    the envelope.  Adding a task always shows "Task created successfully",
    also when there is no current user and the mock answered "Not
    authenticated" and stored nothing; editing with a current user always
    shows "Task updated successfully", also when the user has no task with
    the identifier of the task being edited and the store is left as it
    was. *)
Theorem handleSubmit_reports_success (fd : formData)
  (_id now1 now2 : string) (ls : localStorage) :
  validateForm fd = ∅ ->
  (let r := handleSubmit fd None _id now1 now2 ls in
   submit_toast None r.1 = Some ("Task created successfully", "success") /\
   (mock_currentUser ls = None ->
      r = (Sent (Return (failure "Not authenticated")), ls))) /\
  (forall task user,
     mock_currentUser ls = Some user ->
     let r := handleSubmit fd (Some task) _id now1 now2 ls in
     submit_toast (Some task) r.1 = Some ("Task updated successfully", "success") /\
     (find (owned_with_id_by (task !! "_id") user) (default [] (mock_tasks ls)) = None ->
        r = (Sent (Return (failure "Task not found")), ls))).
Proof.
  intros Hvalid. cbn zeta. unfold handleSubmit.
  rewrite Hvalid, bool_decide_eq_true_2 by done. simpl. split.
  - unfold mockTaskAPI.create, js_bind, getCurrentUser, getTasks. simpl.
    destruct (mock_currentUser ls) as [user |] eqn:Huser; simpl; [done |].
    split; [done |]. intros _. reflexivity.
  - intros task user Huser.
    rewrite (update_with_session _ _ _ _ _ Huser), find_findIndex.
    destruct (findIndex _ _) as [i |] eqn:Hi; simpl.
    + split; [done |].
      destruct (findIndex_lookup _ _ _ Hi) as (t & -> & _). done.
    + done.
Qed.

Lemma handleSubmit_reports_success_witness :
  (let r := handleSubmit spec_form None "t2" "2024-01-03T00:00:00.000Z"
              "2024-01-03T00:00:00.000Z" logged_out_store in
   submit_toast None r.1 = Some ("Task created successfully", "success") /\
   r = (Sent (Return (failure "Not authenticated")), logged_out_store)) /\
  (let task := literal [("_id", Some (JStr "t9"))] in
   let r := handleSubmit spec_form (Some task) "t2" "2024-01-03T00:00:00.000Z"
              "2024-01-03T00:00:00.000Z" ada_task_store in
   submit_toast (Some task) r.1 = Some ("Task updated successfully", "success") /\
   r = (Sent (Return (failure "Task not found")), ada_task_store)).
Proof.
  split.
  - destruct (handleSubmit_reports_success spec_form "t2"
                "2024-01-03T00:00:00.000Z" "2024-01-03T00:00:00.000Z"
                logged_out_store) as [[Htoast Hrefused] _].
    + vm_compute. reflexivity.
    + split; [exact Htoast |]. apply Hrefused. vm_compute. reflexivity.
  - destruct (handleSubmit_reports_success spec_form "t2"
                "2024-01-03T00:00:00.000Z" "2024-01-03T00:00:00.000Z"
                ada_task_store) as [_ Hedit].
    + vm_compute. reflexivity.
    + destruct (Hedit (literal [("_id", Some (JStr "t9"))]) ada_session)
        as [Htoast Hmissing].
      * vm_compute. reflexivity.
      * split; [exact Htoast |]. apply Hmissing. vm_compute. reflexivity.
Defined.

(** X27: with the backend unreachable and a current user, [handleDelete]
    does nothing when the confirmation is declined, and otherwise always
    shows "Task deleted successfully": after removing the user's first task
    with the identifier, and also when the user has no such task and the
    mock answered "Task not found", with the store left as it was. *)
Theorem handleDelete_outcomes (id : option jsval) (ls : localStorage) (user : obj) :
  mock_currentUser ls = Some user ->
  let tasks := default [] (mock_tasks ls) in
  handleDelete false id ls = (None, ls) /\
  handleDelete true id ls =
    (Some ("Task deleted successfully", "success"),
     match findIndex (owned_with_id_by id user) tasks with
     | Some i =>
         mkStorage (mock_users ls) (Some (take i tasks ++ drop (S i) tasks))
           (mock_currentUser ls) (mock_token ls)
     | None => ls
     end).
Proof.
  intros Huser tasks. split; [reflexivity |].
  unfold handleDelete. simpl.
  rewrite (delete_with_session _ _ _ Huser). fold tasks.
  by destruct (findIndex _ _).
Qed.

Lemma handleDelete_outcomes_witness :
  let tasks := default [] (mock_tasks ada_task_store) in
  handleDelete false (Some (JStr "t9")) ada_task_store = (None, ada_task_store) /\
  handleDelete true (Some (JStr "t9")) ada_task_store =
    (Some ("Task deleted successfully", "success"),
     match findIndex (owned_with_id_by (Some (JStr "t9")) ada_session) tasks with
     | Some i =>
         mkStorage (mock_users ada_task_store)
           (Some (take i tasks ++ drop (S i) tasks))
           (mock_currentUser ada_task_store) (mock_token ada_task_store)
     | None => ada_task_store
     end).
Proof.
  apply (handleDelete_outcomes (Some (JStr "t9")) ada_task_store ada_session).
  vm_compute. reflexivity.
Defined.

(** ** The password form *)

Lemma validatePassword_empty_iff (fd : profileForm) :
  validatePassword fd = ∅ <->
  currentPassword fd <> [] /\
  (newPassword fd = [] \/ 6 <= length (newPassword fd)) /\
  newPassword fd = confirmPassword fd.
Proof.
  unfold validatePassword.
  destruct (decide (newPassword fd = confirmPassword fd)) as [Hc | Hc].
  2:{ rewrite (bool_decide_eq_false_2 _ Hc). simpl.
      split; [| intros (_ & _ & ?); done]. intros H. exfalso.
      apply (f_equal (.!! "confirmPassword")) in H. simplify_map_eq. }
  rewrite (bool_decide_eq_true_2 _ Hc). simpl.
  destruct (decide (newPassword fd = [])) as [Hn | Hn].
  - rewrite (bool_decide_eq_true_2 _ Hn). simpl.
    destruct (decide (currentPassword fd = [])) as [Hp | Hp].
    + rewrite (bool_decide_eq_true_2 _ Hp).
      split; [| intros (? & _); done]. intros H. exfalso.
      apply (f_equal (.!! "currentPassword")) in H. simplify_map_eq.
    + rewrite (bool_decide_eq_false_2 _ Hp). split; [auto | done].
  - rewrite (bool_decide_eq_false_2 _ Hn). simpl.
    destruct (Nat.ltb_spec (length (newPassword fd)) 6) as [Hs | Hs].
    + split; [| intros (_ & [? | ?] & _); [done | lia]]. intros H. exfalso.
      apply (f_equal (.!! "newPassword")) in H. simplify_map_eq.
    + destruct (decide (currentPassword fd = [])) as [Hp | Hp].
      * rewrite (bool_decide_eq_true_2 _ Hp).
        split; [| intros (? & _); done]. intros H. exfalso.
        apply (f_equal (.!! "currentPassword")) in H. simplify_map_eq.
      * rewrite (bool_decide_eq_false_2 _ Hp). split; [auto | done].
Qed.

Lemma changePassword_answers (passwordData : obj) (ls : localStorage) :
  exists r ls',
    mockAuthAPI.changePassword passwordData ls = (r, ls') /\
    match r with
    | Return e => success e = false -> ls' = ls
    | Throw _ => ls' = ls
    end.
Proof.
  unfold mockAuthAPI.changePassword, js_bind, getCurrentUser, getUsers, lift.
  simpl.
  destruct (mock_currentUser ls); simpl; [| by eexists _, _].
  destruct (findIndex _ _); simpl; [| by eexists _, _].
  destruct (verifyPassword _ _) as [[] |]; simpl; [| by eexists _, _ ..].
  destruct (hashPassword _); simpl; by eexists _, _.
Qed.

(** X28: the password form lets a change through exactly when the current
    password is not empty, the new password is empty or has at least 6
    code units, and the confirmation equals the new password.  When it does
    not, nothing is sent and the store is left alone.  When it does, with
    the backend unreachable the page shows "Password changed successfully"
    and clears the three password fields whenever the mock's call returns,
    whatever the envelope says: also when the mock refused the change
    ("Current password is incorrect", "Not authenticated") and left the
    store as it was.  Only when the mock's call throws (a password that
    cannot be encoded) does the page show "Failed to change password"; the
    store is then left as it was too. *)
Theorem handlePasswordChange_outcomes (st : profilePage) (ls : localStorage) :
  let fd := page_form st in
  let passwordData :=
    literal [("currentPassword", Some (JStr (currentPassword fd)));
             ("newPassword", Some (JStr (newPassword fd)))] in
  let r := handlePasswordChange st ls in
  (validatePassword fd = ∅ <->
   currentPassword fd <> [] /\
   (newPassword fd = [] \/ 6 <= length (newPassword fd)) /\
   newPassword fd = confirmPassword fd) /\
  (validatePassword fd <> ∅ ->
   r = (mkProfilePage fd (validatePassword fd) (page_loading st) (page_toast st),
        ls)) /\
  (validatePassword fd = ∅ ->
   (mockAuthAPI.changePassword passwordData ls).2 = r.2 /\
   match (mockAuthAPI.changePassword passwordData ls).1 with
   | Return e =>
       r.1 = mkProfilePage
               (mkProfileForm (profile_name fd) (profile_email fd) [] [] [])
               (page_errors st) false
               ("Password changed successfully", "success") /\
       (success e = false -> r.2 = ls)
   | Throw _ =>
       r.1 = mkProfilePage fd (page_errors st) false
               ("Failed to change password", "error") /\
       r.2 = ls
   end).
Proof.
  cbn zeta. split; [apply validatePassword_empty_iff |].
  unfold handlePasswordChange. split.
  - intros Hbad. by rewrite (bool_decide_eq_false_2 _ Hbad).
  - intros Hgood. rewrite (bool_decide_eq_true_2 _ Hgood). simpl.
    destruct (changePassword_answers
      (literal [("currentPassword", Some (JStr (currentPassword (page_form st))));
                ("newPassword", Some (JStr (newPassword (page_form st))))]) ls)
      as ([e | x] & ls' & -> & Hkeep); simpl; done.
Qed.
